(** * JSR MCP bridge: dispatcher, schemas and remote operations

    A shallow embedding of the tool dispatcher ([handleJSRTool],
    src/tools/jsr-tools.ts), of the Zod input schemas (src/types/jsr.ts),
    of the two JSR clients (src/clients/jsr.ts, embedded in the server, and
    packages/jsr/src/client.ts, the reusable library) and of the inline
    handlers of the packaged MCP server (packages/jsr-mcp/src/index.ts).

    Asynchronous functions are written in a small monad that threads the
    outside world (the answers of [fetch] and [Deno.readFile]), records
    every effect in a trace and propagates thrown values. *)

From Stdlib Require Import ZArith List String Ascii Bool Lia DecimalString.
From Stdlib Require Import Floats.
From stdpp Require Import base strings gmap.
Import ListNotations.
Open Scope string_scope.
Set Warnings "-register-all".

(** ** JavaScript numbers

    A number is an IEEE 754 double, held as a primitive float: sums,
    differences, products and quotients round as the program's do, and
    the comparisons are false on [NaN]. *)

Definition number : Type := float.
Bind Scope float_scope with number.

(** The double of an integer of at most 53 bits. *)
Definition Z2float (z : Z) : number :=
  match z with
  | Z0 => 0%float
  | Zpos _ => of_uint63 (Uint63.of_Z z)
  | Zneg p => (- of_uint63 (Uint63.of_Z (Zpos p)))%float
  end.

(** Truthiness of a number: [0], [-0] and [NaN] are falsy. *)
Definition num_truthy (n : number) : bool :=
  negb (n =? 0)%float && negb (is_nan n).

(** [n || d] for an optional number: [undefined], [0] and [NaN] fall
    through to [d]. *)
Definition num_or (n : option number) (d : number) : number :=
  match n with
  | Some v => if num_truthy v then v else d
  | None => d
  end.

(** [Math.floor(x)].  A finite double is [m * 2^e]; with [e < 0] its
    integer part is [m] without its last [-e] bits, one more in magnitude
    for a negative number that is no integer. *)
Definition Math_floor (x : number) : number :=
  match Prim2SF x with
  | S754_finite negative m e =>
      if (0 <=? e)%Z then x
      else
        let q := Z.shiftr (Zpos m) (- e) in
        let whole := (Z.shiftl q (- e) =? Zpos m)%Z in
        if negative then (- Z2float (if whole then q else q + 1))%float
        else Z2float q
  | _ => x
  end.

(** *** [String(n)]

    [Number::toString] of ECMAScript: the shortest decimal digits that
    round to the double, laid out with or without an exponent. *)

(** [s * 10^t] against [c * 2^g], exactly. *)
Definition compare_scaled (s t c g : Z) : comparison :=
  (s * 10 ^ Z.max t 0 * 2 ^ Z.max (- g) 0
     ?= c * 2 ^ Z.max g 0 * 10 ^ Z.max (- t) 0)%Z.

(** Does the real [s * 10^t] round to the double [m * 2^e]?  The doubles
    next to it are a gap away, a real up to half a gap away rounds to it,
    and a tie goes to the even mantissa. *)
Definition rounds_to (m e s t : Z) : bool :=
  let closed := Z.even m in
  let '(c, g) :=
    if (m =? 2 ^ 52)%Z && (-1074 <? e)%Z
    then (4 * m - 1, e - 2)%Z
    else (2 * m - 1, e - 1)%Z in
  match compare_scaled s t c g with
  | Gt => true
  | Eq => closed
  | Lt => false
  end
  && match compare_scaled s t (2 * m + 1) (e - 1) with
     | Lt => true
     | Eq => closed
     | Gt => false
     end.

(** The least [n] from [start] on with [m * 2^e < 10^n]. *)
Fixpoint magnitude_from (fuel : nat) (m e n : Z) : Z :=
  match fuel with
  | O => n
  | S fuel' =>
      match compare_scaled 1 n m e with
      | Gt => n
      | _ => magnitude_from fuel' m e (n + 1)
      end
  end.

(** The [n] with [10^(n-1) <= m * 2^e < 10^n]; the search starts just
    below, at an estimate from the number of bits. *)
Definition magnitude (m e : Z) : Z :=
  magnitude_from 8 m e ((e + Z.log2 m) * 30103 / 100000 - 1).

(** The shortest digits: the least [k] with a [k]-digit [s] such that
    [s * 10^(n - k)] rounds to the double and, of these [s], the one
    closest to it (the even one of two equally close). *)
Fixpoint shortest_from (fuel : nat) (m e n k : Z) : Z :=
  match fuel with
  | O => 0
  | S fuel' =>
      let t := (n - k)%Z in
      let num := (m * 2 ^ Z.max e 0 * 10 ^ Z.max (- t) 0)%Z in
      let den := (2 ^ Z.max (- e) 0 * 10 ^ Z.max t 0)%Z in
      let lower := (num / den)%Z in
      let upper := (lower + 1)%Z in
      if (num mod den =? 0)%Z then lower
      else
        let low_ok := rounds_to m e lower t in
        let up_ok := (upper <? 10 ^ k)%Z && rounds_to m e upper t in
        if low_ok && up_ok then
          match (2 * num ?= (2 * lower + 1) * den)%Z with
          | Lt => lower
          | Gt => upper
          | Eq => if Z.even lower then lower else upper
          end
        else if low_ok then lower
        else if up_ok then upper
        else shortest_from fuel' m e n (k + 1)
  end.

(** The decimal digits of an integer that is not negative. *)
Definition decimal (z : Z) : string := NilZero.string_of_int (Z.to_int z).

Fixpoint zeros (n : nat) : string :=
  match n with
  | O => ""
  | S n' => "0" +:+ zeros n'
  end.

(** The digits with the decimal point after the first [n] of them, as
    [Number::toString] lays them out: in full up to 21 digits before the
    point and up to 6 zeros after it, with an exponent otherwise. *)
Definition layout (digits : string) (n : Z) : string :=
  let k := Z.of_nat (String.length digits) in
  if (k <=? n)%Z && (n <=? 21)%Z then digits +:+ zeros (Z.to_nat (n - k))
  else if (0 <? n)%Z && (n <=? 21)%Z then
    substring 0 (Z.to_nat n) digits +:+ "."
      +:+ substring (Z.to_nat n) (Z.to_nat (k - n)) digits
  else if (-6 <? n)%Z && (n <=? 0)%Z then
    "0." +:+ zeros (Z.to_nat (- n)) +:+ digits
  else
    let exponent :=
      (if (0 <=? n - 1)%Z then "+" else "-") +:+ decimal (Z.abs (n - 1)) in
    if (k =? 1)%Z then digits +:+ "e" +:+ exponent
    else substring 0 1 digits +:+ "." +:+ substring 1 (Z.to_nat (k - 1)) digits
           +:+ "e" +:+ exponent.

Definition num_to_string (x : number) : string :=
  match Prim2SF x with
  | S754_nan => "NaN"
  | S754_zero _ => "0"
  | S754_infinity negative => if negative then "-Infinity" else "Infinity"
  | S754_finite negative m e =>
      let n := magnitude (Zpos m) e in
      let shown :=
        if rounds_to (Zpos m) e 1 n then layout "1" (n + 1)
        else layout (decimal (shortest_from 18 (Zpos m) e n 1)) n in
      if negative then "-" +:+ shown else shown
  end.

(** ** JavaScript strings

    A string is held in UTF-8, as the literals of this file are.  Its
    [length] counts UTF-16 code units: one for each character of up to
    three bytes, two for each character of four. *)
Fixpoint utf16_length (s : string) : nat :=
  match s with
  | EmptyString => 0
  | String c rest =>
      let byte := nat_of_ascii c in
      ((if (byte <? 128)%nat then 1
        else if (byte <? 192)%nat then 0
        else if (byte <? 240)%nat then 1
        else 2)
       + utf16_length rest)%nat
  end.

(** ** JavaScript values *)

Inductive JSValue :=
| JUndefined
| JNull
| JBool (b : bool)
| JNum (n : number)
| JStr (s : string)
| JArr (items : list JSValue)
| JObj (fields : list (string * JSValue)).

(** Own property [k] of an object literal, [undefined] when absent. *)
Fixpoint lookup_field (k : string) (fields : list (string * JSValue)) : JSValue :=
  match fields with
  | [] => JUndefined
  | (k', v) :: rest => if String.eqb k k' then v else lookup_field k rest
  end.

Definition opt_number_to_js (n : option number) : JSValue :=
  match n with
  | Some v => JNum v
  | None => JUndefined
  end.

Definition opt_string_to_js (s : option string) : JSValue :=
  match s with
  | Some v => JStr v
  | None => JUndefined
  end.

(** A destructured property read at its TypeScript type.  After a schema
    has accepted the object the fall-back arms are never taken. *)
Definition as_string (v : JSValue) : string :=
  match v with
  | JStr s => s
  | _ => ""
  end.

Definition as_opt_string (v : JSValue) : option string :=
  match v with
  | JStr s => Some s
  | _ => None
  end.

Definition as_opt_number (v : JSValue) : option number :=
  match v with
  | JNum n => Some n
  | _ => None
  end.

Definition as_bool (v : JSValue) : bool :=
  match v with
  | JBool b => b
  | _ => false
  end.

Definition is_undefined (v : JSValue) : bool :=
  match v with
  | JUndefined => true
  | _ => false
  end.

(** The name of the type of a value, as Zod and the runtime's messages
    give it. *)
Definition parsed_type (v : JSValue) : string :=
  match v with
  | JUndefined => "undefined"
  | JNull => "null"
  | JBool _ => "boolean"
  | JNum n => if is_nan n then "nan" else "number"
  | JStr _ => "string"
  | JArr _ => "array"
  | JObj _ => "object"
  end.

(** ** Connection configuration *)

Record JSRConfig := {
  apiUrl : string;
  registryUrl : string;
  apiToken : option string
}.

(** [s.replace(/\/$/, "")]: one slash is removed when it is the last
    character. *)
Fixpoint strip_trailing_slash (s : string) : string :=
  match s with
  | EmptyString => EmptyString
  | String c rest =>
      match rest with
      | EmptyString => if Ascii.eqb c "/" then EmptyString else s
      | String _ _ => String c (strip_trailing_slash rest)
      end
  end.

Definition createJSRConfig (apiUrl registryUrl : string)
    (apiToken : option string) : JSRConfig :=
  {| apiUrl := strip_trailing_slash apiUrl;
     registryUrl := strip_trailing_slash registryUrl;
     apiToken := apiToken |}.

(** Does the string end with a slash? *)
Fixpoint ends_with_slash (s : string) : bool :=
  match s with
  | EmptyString => false
  | String c rest =>
      match rest with
      | EmptyString => Ascii.eqb c "/"
      | String _ _ => ends_with_slash rest
      end
  end.

(** Does the string end with two slashes? *)
Fixpoint ends_with_two_slashes (s : string) : bool :=
  match s with
  | EmptyString => false
  | String c rest =>
      match rest with
      | EmptyString => false
      | String d EmptyString => Ascii.eqb c "/" && Ascii.eqb d "/"
      | String _ (String _ _) => ends_with_two_slashes rest
      end
  end.

Definition non_empty (s : string) : bool :=
  match s with
  | EmptyString => false
  | String _ _ => true
  end.

(** [if (config.apiToken)]: a token is used when it is present and not the
    empty string. *)
Definition token_truthy (t : option string) : bool :=
  match t with
  | Some s => non_empty s
  | None => false
  end.

(** ** Thrown values and the effect monad *)

Inductive ErrorKind :=
| GenericError   (* new Error(...) *)
| ZodError       (* thrown by Schema.parse *)
| TypeError      (* property read on null or undefined, failed fetch *)
| SyntaxError    (* malformed JSON *)
| SystemError.   (* Deno.errors.NotFound, PermissionDenied, ... *)

Inductive Thrown :=
| ErrorInstance (kind : ErrorKind) (message : string)
| NonError (shown : string).

(** [error instanceof Error ? error.message : String(error)]. *)
Definition error_text (error : Thrown) : string :=
  match error with
  | ErrorInstance _ message => message
  | NonError shown => shown
  end.

Inductive Outcome (A : Type) :=
| Returned (a : A)
| Threw (e : Thrown).
Arguments Returned {A} a.
Arguments Threw {A} e.

Inductive Body :=
| NoBody
| StringifiedBody (v : JSValue)        (* body: JSON.stringify(v) *)
| BinaryBody (bytes : list Byte.byte). (* body: an ArrayBuffer *)

(** The [RequestInit] options an operation passes to a request builder. *)
Record RequestInit := {
  init_method : option string;
  init_headers : gmap string string;
  init_body : Body
}.

(** The default value [{}] of the [options] parameter. *)
Definition no_options : RequestInit :=
  {| init_method := None; init_headers := ∅; init_body := NoBody |}.

(** What reaches [fetch]: the URL and [{ ...options, headers }]. *)
Record Request := {
  req_url : string;
  req_method : option string;
  req_headers : gmap string string;
  req_body : Body
}.

(** An HTTP response, with the results its reading methods would give. *)
Record Response := {
  status : Z;
  statusText : string;
  has_body : bool;                 (* response.body is not null *)
  body_text : Thrown + string;     (* await response.text() *)
  body_json : Thrown + JSValue     (* await response.json() *)
}.

(** [response.ok]. *)
Definition ok (r : Response) : bool :=
  (200 <=? status r)%Z && (status r <=? 299)%Z.

(** The outside world of one invocation. *)
Record World := {
  fetch : Request -> Thrown + Response;
  readFile : string -> Thrown + list Byte.byte
}.

Inductive Event :=
| Fetched (r : Request)
| ReadText
| DecodedJson
| CancelledBody
| ReadFile (path : string).

Definition is_fetch (e : Event) : bool :=
  match e with
  | Fetched _ => true
  | _ => false
  end.

Definition is_decode (e : Event) : bool :=
  match e with
  | DecodedJson => true
  | _ => false
  end.

(** An asynchronous computation: given the world, the effects it performed
    and how it ended. *)
Definition M (A : Type) : Type := World -> list Event * Outcome A.

Definition ret {A} (a : A) : M A := fun _ => ([], Returned a).

Definition throw {A} (e : Thrown) : M A := fun _ => ([], Threw e).

Definition bind {A B} (m : M A) (k : A -> M B) : M B :=
  fun w =>
    match m w with
    | (t1, Returned a) => let (t2, o) := k a w in ((t1 ++ t2)%list, o)
    | (t1, Threw e) => (t1, Threw e)
    end.

(** [try { m } catch (error) { handler }]. *)
Definition try_catch {A} (m : M A) (handler : Thrown -> M A) : M A :=
  fun w =>
    match m w with
    | (t1, Returned a) => (t1, Returned a)
    | (t1, Threw e) => let (t2, o) := handler e w in ((t1 ++ t2)%list, o)
    end.

Notation "x <- m ;; k" := (bind m (fun x => k))
  (at level 100, m at next level, right associativity).
Notation "m ;;; k" := (bind m (fun _ => k))
  (at level 100, right associativity).

(** Effects.  Each one is recorded, then answers as the world says. *)
Definition of_result {A} (ev : Event) (r : Thrown + A) : M A :=
  fun _ =>
    match r with
    | inl e => ([ev], Threw e)
    | inr a => ([ev], Returned a)
    end.

Definition do_fetch (req : Request) : M Response :=
  fun w => of_result (Fetched req) (fetch w req) w.

Definition response_text (r : Response) : M string :=
  of_result ReadText (body_text r).

Definition response_json (r : Response) : M JSValue :=
  of_result DecodedJson (body_json r).

(** [await response.body?.cancel()]. *)
Definition cancel_body (r : Response) : M unit :=
  fun _ => (if has_body r then [CancelledBody] else [], Returned tt).

Definition Deno_readFile (path : string) : M (list Byte.byte) :=
  fun w => of_result (ReadFile path) (readFile w path) w.

(** [v.k] on a decoded value, for the properties the program reads
    ([items], [total], [length]): reading a property of [null] or
    [undefined] throws, arrays and strings have a [length]. *)
Definition member (v : JSValue) (k : string) : M JSValue :=
  match v with
  | JUndefined | JNull =>
      throw (ErrorInstance TypeError
               ("Cannot read properties of " +:+ parsed_type v
                  +:+ " (reading '" +:+ k +:+ "')"))
  | JObj fields => ret (lookup_field k fields)
  | JArr items =>
      ret (if String.eqb k "length"
           then JNum (Z2float (Z.of_nat (List.length items))) else JUndefined)
  | JStr s =>
      ret (if String.eqb k "length"
           then JNum (Z2float (Z.of_nat (utf16_length s))) else JUndefined)
  | _ => ret JUndefined
  end.

(** ** Zod issues, and what the platform provides *)

Inductive PathSeg :=
| Key (k : string)
| Index (i : nat).

Inductive ZodIssue :=
| InvalidType (expected received : string) (path : list PathSeg)
| InvalidString (validation : string) (message : option string) (path : list PathSeg)
| TooSmall (minimum : Z) (path : list PathSeg)
| TooBig (maximum : Z) (path : list PathSeg)
| InvalidLiteral (expected : string) (path : list PathSeg)
| InvalidUnion (path : list PathSeg).

(** Library and runtime functions the program calls but does not define:
    the version strings of the two deno.json files, the percent-encoding of
    [URLSearchParams.toString], the UUID test of [z.string().uuid()] and the
    text of a [ZodError]'s message. *)
Class Platform := {
  server_version : string;
  client_version : string;
  form_urlencode : string -> string;
  is_uuid : string -> bool;
  zod_message : list ZodIssue -> string
}.

(** ** URL query strings *)

Definition URLSearchParams := list (string * string).

(** [params.set(k, v)]. *)
Fixpoint params_set (k v : string) (params : URLSearchParams) : URLSearchParams :=
  match params with
  | [] => [(k, v)]
  | (k', v') :: rest =>
      if String.eqb k k' then (k, v) :: rest else (k', v') :: params_set k v rest
  end.

Fixpoint join_amp (parts : list string) : string :=
  match parts with
  | [] => ""
  | [p] => p
  | p :: rest => p +:+ "&" +:+ join_amp rest
  end.

(** [params.toString()]. *)
Definition params_toString `{Platform} (params : URLSearchParams) : string :=
  join_amp (map (fun kv => form_urlencode (fst kv) +:+ "=" +:+ form_urlencode (snd kv))
                params).

(** [if (v !== undefined) params.set(k, String(v))]. *)
Definition set_number_if_defined (k : string) (v : option number)
    (params : URLSearchParams) : URLSearchParams :=
  match v with
  | Some n => params_set k (num_to_string n) params
  | None => params
  end.

(** [if (query) params.set("query", query)]. *)
Definition set_query_if_truthy (query : option string)
    (params : URLSearchParams) : URLSearchParams :=
  match query with
  | Some q => if non_empty q then params_set "query" q params else params
  | None => params
  end.

(** ** The request builders *)

Definition bearer (t : option string) : string :=
  "Bearer " +:+ match t with Some s => s | None => "undefined" end.

(** The headers of a management request: the two defaults, overridden by
    the caller's, then the [Authorization] header when the token is truthy. *)
Definition api_headers (user_agent : string) (config : JSRConfig)
    (options : RequestInit) : gmap string string :=
  let headers :=
    init_headers options
      ∪ <["Content-Type" := "application/json"]> (<["User-Agent" := user_agent]> ∅) in
  if token_truthy (apiToken config)
  then <["Authorization" := bearer (apiToken config)]> headers
  else headers.

Definition registry_headers (user_agent : string)
    (options : RequestInit) : gmap string string :=
  init_headers options
    ∪ <["Accept" := "application/json"]> (<["User-Agent" := user_agent]> ∅).

Definition request_of (url : string) (options : RequestInit)
    (headers : gmap string string) : Request :=
  {| req_url := url;
     req_method := init_method options;
     req_headers := headers;
     req_body := init_body options |}.

Definition status_string (r : Response) : string :=
  num_to_string (Z2float (status r)).

(** src/clients/jsr.ts, the client embedded in the server. *)
Module Embedded.
Section Builders.
Context `{Platform}.

Definition user_agent : string :=
  "jsr-mcp/" +:+ server_version +:+ "; https://github.com/wyattjoh/jsr-mcp".

Definition makeApiRequest (config : JSRConfig) (endpoint : string)
    (options : RequestInit) : M JSValue :=
  let url := apiUrl config +:+ endpoint in
  let headers := api_headers user_agent config options in
  try_catch
    (response <- do_fetch (request_of url options headers) ;;
     if negb (ok response) then
       errorText <- response_text response ;;
       throw (ErrorInstance GenericError
                ("JSR API request failed: " +:+ status_string response +:+ " "
                   +:+ statusText response +:+ ": " +:+ errorText))
     else response_json response)
    (fun error =>
       throw (ErrorInstance GenericError
                ("JSR API request failed: " +:+ error_text error))).

Definition makeRegistryRequest (config : JSRConfig) (endpoint : string)
    (options : RequestInit) : M JSValue :=
  let url := registryUrl config +:+ endpoint in
  let headers := registry_headers user_agent options in
  try_catch
    (response <- do_fetch (request_of url options headers) ;;
     if negb (ok response) then
       throw (ErrorInstance GenericError
                ("JSR Registry request failed: " +:+ status_string response +:+ " "
                   +:+ statusText response))
     else response_json response)
    (fun error =>
       throw (ErrorInstance GenericError
                ("JSR Registry request failed: " +:+ error_text error))).
End Builders.
End Embedded.

(** packages/jsr/src/client.ts, the reusable library. *)
Module Library.
Section Builders.
Context `{Platform}.

Definition user_agent : string :=
  "jsr-client/" +:+ client_version +:+ "; https://github.com/wyattjoh/jsr-mcp".

Definition makeApiRequest (config : JSRConfig) (endpoint : string)
    (options : RequestInit) : M JSValue :=
  let url := apiUrl config +:+ endpoint in
  let headers := api_headers user_agent config options in
  try_catch
    (response <- do_fetch (request_of url options headers) ;;
     if negb (ok response) then
       errorText <- response_text response ;;
       throw (ErrorInstance GenericError
                ("JSR API request failed: " +:+ status_string response +:+ " "
                   +:+ statusText response +:+ ": " +:+ errorText))
     else if (status response =? 204)%Z then
       cancel_body response ;;;
       ret JUndefined
     else response_json response)
    (fun error =>
       throw (ErrorInstance GenericError
                ("JSR API request failed: " +:+ error_text error))).

Definition makeRegistryRequest (config : JSRConfig) (endpoint : string)
    (options : RequestInit) : M JSValue :=
  let url := registryUrl config +:+ endpoint in
  let headers := registry_headers user_agent options in
  try_catch
    (response <- do_fetch (request_of url options headers) ;;
     if negb (ok response) then
       throw (ErrorInstance GenericError
                ("JSR Registry request failed: " +:+ status_string response +:+ " "
                   +:+ statusText response))
     else if (status response =? 204)%Z then
       ret JUndefined
     else response_json response)
    (fun error =>
       throw (ErrorInstance GenericError
                ("JSR Registry request failed: " +:+ error_text error))).
End Builders.
End Library.

(** ** Zod schemas

    A schema is a value built by the [z] combinators; [zparse] is Zod's
    [safeParse]: it returns the issues, or the parsed value, in which an
    object keeps only the keys its shape declares. *)

Inductive StringCheck :=
| Regex (matches : string -> bool) (message : string)
| Uuid
| MaxLength (n : nat).

Inductive Schema :=
| ZString (checks : list StringCheck)
| ZNumber (minimum maximum : option Z)
| ZBoolean
| ZLiteral (value : string)
| ZOptional (inner : Schema)
| ZNullable (inner : Schema)
| ZArray (element : Schema)
| ZObject (shape : list (string * Schema))
| ZUnion (options : list Schema).

Definition is_lower (c : ascii) : bool :=
  let n := nat_of_ascii c in (97 <=? n)%nat && (n <=? 122)%nat.

Definition is_digit (c : ascii) : bool :=
  let n := nat_of_ascii c in (48 <=? n)%nat && (n <=? 57)%nat.

(** The rest of a name after its first letter: [[a-z0-9]*(?:-[a-z0-9]+)*$].
    [after_hyphen] says that the previous character was a hyphen, which a
    letter or digit must follow. *)
Fixpoint name_rest (after_hyphen : bool) (s : string) : bool :=
  match s with
  | EmptyString => negb after_hyphen
  | String c rest =>
      if is_lower c || is_digit c then name_rest false rest
      else if Ascii.eqb c "-" then negb after_hyphen && name_rest true rest
      else false
  end.

(** [/^[a-z][a-z0-9]*(?:-[a-z0-9]+)*$/.test(s)]. *)
Definition name_pattern (s : string) : bool :=
  match s with
  | EmptyString => false
  | String c rest => is_lower c && name_rest false rest
  end.

Definition check_issue `{Platform} (path : list PathSeg) (s : string)
    (c : StringCheck) : list ZodIssue :=
  match c with
  | Regex matches message =>
      if matches s then [] else [InvalidString "regex" (Some message) path]
  | Uuid => if is_uuid s then [] else [InvalidString "uuid" None path]
  | MaxLength n =>
      if (n <? utf16_length s)%nat then [TooBig (Z.of_nat n) path] else []
  end.

(** The checks of [z.number().min(lo).max(hi)]: too small when
    [n < lo], too big when [n > hi]. *)
Definition bound_issues (path : list PathSeg) (n : number)
    (minimum maximum : option Z) : list ZodIssue :=
  (match minimum with
   | Some lo => if (n <? Z2float lo)%float then [TooSmall lo path] else []
   | None => []
   end ++
   match maximum with
   | Some hi => if (Z2float hi <? n)%float then [TooBig hi path] else []
   | None => []
   end)%list.

Definition accept_if_clean (issues : list ZodIssue) (v : JSValue)
    : list ZodIssue + JSValue :=
  match issues with
  | [] => inr v
  | _ :: _ => inl issues
  end.

Fixpoint zparse `{Platform} (s : Schema) (path : list PathSeg) (v : JSValue)
    {struct s} : list ZodIssue + JSValue :=
  match s with
  | ZString checks =>
      match v with
      | JStr str => accept_if_clean (flat_map (check_issue path str) checks) v
      | _ => inl [InvalidType "string" (parsed_type v) path]
      end
  | ZNumber minimum maximum =>
      match v with
      | JNum n =>
          if is_nan n then inl [InvalidType "number" (parsed_type v) path]
          else accept_if_clean (bound_issues path n minimum maximum) v
      | _ => inl [InvalidType "number" (parsed_type v) path]
      end
  | ZBoolean =>
      match v with
      | JBool _ => inr v
      | _ => inl [InvalidType "boolean" (parsed_type v) path]
      end
  | ZLiteral value =>
      match v with
      | JStr str =>
          if String.eqb str value then inr v else inl [InvalidLiteral value path]
      | _ => inl [InvalidLiteral value path]
      end
  | ZOptional inner =>
      match v with
      | JUndefined => inr JUndefined
      | _ => zparse inner path v
      end
  | ZNullable inner =>
      match v with
      | JNull => inr JNull
      | _ => zparse inner path v
      end
  | ZArray element =>
      match v with
      | JArr items =>
          let fix each (i : nat) (l : list JSValue)
              : list ZodIssue * list JSValue :=
            match l with
            | [] => ([], [])
            | x :: rest =>
                let (issues, out) := each (S i) rest in
                match zparse element (path ++ [Index i])%list x with
                | inl here => ((here ++ issues)%list, out)
                | inr y => (issues, y :: out)
                end
            end in
          let (issues, out) := each 0%nat items in
          accept_if_clean issues (JArr out)
      | _ => inl [InvalidType "array" (parsed_type v) path]
      end
  | ZObject shape =>
      match v with
      | JObj fields =>
          let fix each (sh : list (string * Schema))
              : list ZodIssue * list (string * JSValue) :=
            match sh with
            | [] => ([], [])
            | (k, sk) :: rest =>
                let (issues, out) := each rest in
                match zparse sk (path ++ [Key k])%list (lookup_field k fields) with
                | inl here => ((here ++ issues)%list, out)
                | inr JUndefined => (issues, out)
                | inr y => (issues, (k, y) :: out)
                end
            end in
          let (issues, out) := each shape in
          accept_if_clean issues (JObj out)
      | _ => inl [InvalidType "object" (parsed_type v) path]
      end
  | ZUnion options =>
      let fix first (os : list Schema) : list ZodIssue + JSValue :=
        match os with
        | [] => inl [InvalidUnion path]
        | o :: rest =>
            match zparse o path v with
            | inr y => inr y
            | inl _ => first rest
            end
        end in
      first options
  end.

(** The loop of [zparse] over the shape of an object, under a name. *)
Fixpoint parse_shape `{Platform} (shape : list (string * Schema))
    (path : list PathSeg) (fields : list (string * JSValue))
    : list ZodIssue * list (string * JSValue) :=
  match shape with
  | [] => ([], [])
  | (k, sk) :: rest =>
      let (issues, out) := parse_shape rest path fields in
      match zparse sk (path ++ [Key k])%list (lookup_field k fields) with
      | inl here => ((here ++ issues)%list, out)
      | inr JUndefined => (issues, out)
      | inr y => (issues, (k, y) :: out)
      end
  end.

(** [Schema.parse(args)]: the parsed value, or a thrown [ZodError]. *)
Definition parse `{Platform} (s : Schema) (args : JSValue) : M JSValue :=
  match zparse s [] args with
  | inr out => ret out
  | inl issues => throw (ErrorInstance ZodError (zod_message issues))
  end.

(** [{ ...shape, k: s }]: an existing key keeps its place. *)
Fixpoint shape_set (k : string) (s : Schema) (shape : list (string * Schema))
    : list (string * Schema) :=
  match shape with
  | [] => [(k, s)]
  | (k', s') :: rest =>
      if String.eqb k k' then (k, s) :: rest else (k', s') :: shape_set k s rest
  end.

(** [base.extend(more)]. *)
Definition extend (base : Schema) (more : list (string * Schema)) : Schema :=
  match base with
  | ZObject shape =>
      ZObject (fold_left (fun acc ks => shape_set (fst ks) (snd ks) acc) more shape)
  | _ => base
  end.

(** [base.merge(other)]. *)
Definition merge (base other : Schema) : Schema :=
  match other with
  | ZObject more => extend base more
  | _ => base
  end.

(** The keys an object schema declares. *)
Definition declared_keys (s : Schema) : list string :=
  match s with
  | ZObject shape => map fst shape
  | _ => []
  end.

(** *** The schemas of src/types/jsr.ts *)

Definition ScopeNameSchema : Schema :=
  ZString [Regex name_pattern "Invalid scope name format"].

Definition PackageNameSchema : Schema :=
  ZString [Regex name_pattern "Invalid package name format"].

Definition RuntimeCompatSchema : Schema :=
  ZObject [("browser", ZOptional (ZNullable ZBoolean));
           ("deno", ZOptional (ZNullable ZBoolean));
           ("node", ZOptional (ZNullable ZBoolean));
           ("workerd", ZOptional (ZNullable ZBoolean));
           ("bun", ZOptional (ZNullable ZBoolean))].

Definition VersionSchema : Schema := ZString [].

(** Modelled from the spec: [PaginationSchema] of src/types/mcp.ts, which is
    not among the sources.  The spec speaks of "a page size limit, and
    either a page number or a skip count"; the dispatcher destructures
    [limit] and [skip] from it, and the library's own copy
    (packages/jsr/src/types.ts) declares both as optional numbers. *)
Definition PaginationSchema : Schema :=
  ZObject [("limit", ZOptional (ZNumber None None));
           ("skip", ZOptional (ZNumber None None))].

Definition SearchPackagesSchema : Schema :=
  extend PaginationSchema [("query", ZOptional (ZString []))].

Definition GetPackageSchema : Schema :=
  ZObject [("scope", ScopeNameSchema); ("name", PackageNameSchema)].

Definition GetPackageVersionSchema : Schema :=
  extend GetPackageSchema [("version", VersionSchema)].

Definition ListPackageVersionsSchema : Schema :=
  extend GetPackageSchema
    [("limit", ZOptional (ZNumber None None));
     ("page", ZOptional (ZNumber None None))].

Definition GetScopeSchema : Schema := ZObject [("scope", ScopeNameSchema)].

Definition ListScopePackagesSchema : Schema := merge GetScopeSchema PaginationSchema.

Definition UserIdSchema : Schema := ZString [Uuid].

Definition PermissionSchema : Schema :=
  ZUnion
    [ZObject [("permission", ZLiteral "package/publish");
              ("scope", ScopeNameSchema)];
     ZObject [("permission", ZLiteral "package/publish");
              ("scope", ScopeNameSchema);
              ("package", PackageNameSchema)];
     ZObject [("permission", ZLiteral "package/publish");
              ("scope", ScopeNameSchema);
              ("package", PackageNameSchema);
              ("version", VersionSchema);
              ("tarballHash", ZString [])]].

Definition ListPackagesSchema : Schema :=
  ZObject [("limit", ZOptional (ZNumber (Some 1%Z) (Some 100%Z)));
           ("page", ZOptional (ZNumber (Some 1%Z) None));
           ("query", ZOptional (ZString []))].

Definition CreateScopeSchema : Schema :=
  ZObject [("scope", ScopeNameSchema); ("description", ZOptional (ZString []))].

Definition UpdateScopeSchema : Schema :=
  extend GetScopeSchema
    [("ghActionsVerifyActor", ZOptional ZBoolean);
     ("requirePublishingFromCI", ZOptional ZBoolean)].

Definition DeleteScopeSchema : Schema := GetScopeSchema.

Definition AddScopeMemberSchema : Schema :=
  extend GetScopeSchema [("githubLogin", ZString [])].

Definition UpdateScopeMemberSchema : Schema :=
  extend GetScopeSchema [("userId", UserIdSchema); ("isAdmin", ZBoolean)].

Definition RemoveScopeMemberSchema : Schema :=
  extend GetScopeSchema [("userId", UserIdSchema)].

Definition DeleteScopeInviteSchema : Schema :=
  extend GetScopeSchema [("userId", UserIdSchema)].

Definition CreatePackageSchema : Schema :=
  extend GetScopeSchema [("package", PackageNameSchema)].

Definition UpdatePackageSchema : Schema :=
  extend GetPackageSchema
    [("description", ZOptional (ZString [MaxLength 250]));
     ("githubRepository",
      ZOptional (ZNullable (ZObject [("owner", ZString []); ("repo", ZString [])])));
     ("runtimeCompat", ZOptional RuntimeCompatSchema);
     ("isArchived", ZOptional ZBoolean)].

Definition DeletePackageSchema : Schema := GetPackageSchema.

Definition CreatePackageVersionSchema : Schema :=
  extend GetPackageVersionSchema
    [("configPath", ZString []); ("tarballPath", ZString [])].

Definition UpdatePackageVersionSchema : Schema :=
  extend GetPackageVersionSchema [("yanked", ZBoolean)].

Definition CreateAuthorizationSchema : Schema :=
  ZObject [("challenge", ZString []);
           ("permissions", ZOptional (ZArray PermissionSchema))].

Definition GetAuthorizationDetailsSchema : Schema := ZObject [("code", ZString [])].

Definition ApproveAuthorizationSchema : Schema := ZObject [("code", ZString [])].

Definition DenyAuthorizationSchema : Schema := ZObject [("code", ZString [])].

Definition ExchangeAuthorizationSchema : Schema :=
  ZObject [("exchangeToken", ZString []); ("verifier", ZString [])].

Definition GetPackageDependentsSchema : Schema :=
  extend GetPackageSchema
    [("limit", ZOptional (ZNumber (Some 1%Z) (Some 100%Z)));
     ("page", ZOptional (ZNumber (Some 1%Z) None));
     ("versionsPerPackageLimit", ZOptional (ZNumber (Some 1%Z) (Some 10%Z)))].

Definition GetPackageScoreSchema : Schema := GetPackageSchema.

Definition GetPackageDependenciesSchema : Schema := GetPackageVersionSchema.

Definition GetPublishingTaskSchema : Schema := ZObject [("id", ZString [Uuid])].

Definition GetUserSchema : Schema := ZObject [("id", UserIdSchema)].

Definition GetUserScopesSchema : Schema := GetUserSchema.

Definition ListScopeMembersSchema : Schema := GetScopeSchema.

Definition ListScopeInvitesSchema : Schema := GetScopeSchema.

Definition GetSelfUserScopeMemberSchema : Schema := GetScopeSchema.

Definition AcceptScopeInviteSchema : Schema := GetScopeSchema.

Definition DeclineScopeInviteSchema : Schema := GetScopeSchema.

(** ** The remote operations

    The two clients define the same operations, word for word, over their
    own request builders; [jsrClient] is the imported client module. *)

Record Client := {
  makeApiRequest : JSRConfig -> string -> RequestInit -> M JSValue;
  makeRegistryRequest : JSRConfig -> string -> RequestInit -> M JSValue
}.

(** The [PaginatedResponse] interface, as packages/jsr/src/client.ts
    declares it (the embedded client imports the same shape from
    src/types/mcp.ts). *)
Record PaginatedResponse := {
  data : JSValue;
  total : JSValue;
  returned : JSValue;
  skip : number;
  limit : option number
}.

Definition with_method (m : string) : RequestInit :=
  {| init_method := Some m; init_headers := ∅; init_body := NoBody |}.

Definition with_json (m : string) (v : JSValue) : RequestInit :=
  {| init_method := Some m; init_headers := ∅; init_body := StringifiedBody v |}.

(** The page of [listScopePackages]:
    [skip !== undefined ? Math.floor(skip / (limit || 20)) + 1 : 1]. *)
Definition scope_packages_page (skip limit : option number) : number :=
  match skip with
  | Some s => (Math_floor (s / num_or limit 20) + 1)%float
  | None => 1%float
  end.

(** The page of the dispatcher's [jsr_search_packages] case:
    [skip !== undefined && limit !== undefined
       ? Math.floor(skip / limit) + 1 : undefined]. *)
Definition dispatcher_search_page (skip limit : option number) : option number :=
  match skip, limit with
  | Some s, Some l => Some (Math_floor (s / l) + 1)%float
  | _, _ => None
  end.

(** The skip of the page-numbered list operations:
    [page ? (page - 1) * (limit || 20) : 0]. *)
Definition page_offset (page limit : option number) : number :=
  match page with
  | Some p =>
      if num_truthy p
      then ((p - 1) * num_or limit 20)%float
      else 0%float
  | None => 0%float
  end.

Section Operations.
Context `{Platform}.
Variable jsrClient : Client.

Definition searchPackages (config : JSRConfig) (query : option string)
    (limit page : option number) : M JSValue :=
  let params := set_query_if_truthy query [] in
  let params := set_number_if_defined "limit" limit params in
  let params := set_number_if_defined "page" page params in
  makeApiRequest jsrClient config ("/packages?" +:+ params_toString params) no_options.

Definition getPackage (config : JSRConfig) (scope name : string) : M JSValue :=
  makeApiRequest jsrClient config
    ("/scopes/" +:+ scope +:+ "/packages/" +:+ name) no_options.

Definition getPackageVersion (config : JSRConfig) (scope name version : string)
    : M JSValue :=
  makeApiRequest jsrClient config
    ("/scopes/" +:+ scope +:+ "/packages/" +:+ name +:+ "/versions/" +:+ version)
    no_options.

Definition listPackageVersions (config : JSRConfig) (scope name : string)
    (limit page : option number) : M PaginatedResponse :=
  let params := set_number_if_defined "limit" limit [] in
  let params := set_number_if_defined "page" page params in
  response <- makeApiRequest jsrClient config
                ("/scopes/" +:+ scope +:+ "/packages/" +:+ name +:+ "/versions?"
                   +:+ params_toString params) no_options ;;
  total <- member response "length" ;;
  returned <- member response "length" ;;
  ret {| data := response;
         total := total;
         returned := returned;
         skip := page_offset page limit;
         limit := limit |}.

Definition getScope (config : JSRConfig) (scope : string) : M JSValue :=
  makeApiRequest jsrClient config ("/scopes/" +:+ scope) no_options.

Definition listScopePackages (config : JSRConfig) (scope : string)
    (limit skip : option number) : M PaginatedResponse :=
  let params := set_number_if_defined "limit" limit [] in
  let page := scope_packages_page skip limit in
  let params := if (1 <? page)%float
                then params_set "page" (num_to_string page) params
                else params in
  response <- makeApiRequest jsrClient config
                ("/scopes/" +:+ scope +:+ "/packages?" +:+ params_toString params)
                no_options ;;
  items <- member response "items" ;;
  total <- member response "total" ;;
  items' <- member response "items" ;;
  returned <- member items' "length" ;;
  ret {| data := items;
         total := total;
         returned := returned;
         skip := num_or skip 0;
         limit := limit |}.

Definition getPackageMetadata (config : JSRConfig) (scope name : string)
    : M JSValue :=
  makeRegistryRequest jsrClient config
    ("/@" +:+ scope +:+ "/" +:+ name +:+ "/meta.json") no_options.

Definition listPackages (config : JSRConfig) (limit page : option number)
    (query : option string) : M JSValue :=
  let params := set_number_if_defined "limit" limit [] in
  let params := set_number_if_defined "page" page params in
  let params := set_query_if_truthy query params in
  makeApiRequest jsrClient config ("/packages?" +:+ params_toString params) no_options.

Definition getPackageDependents (config : JSRConfig) (scope name : string)
    (limit page versionsPerPackageLimit : option number) : M PaginatedResponse :=
  let params := set_number_if_defined "limit" limit [] in
  let params := set_number_if_defined "page" page params in
  let params :=
    set_number_if_defined "versions_per_package_limit" versionsPerPackageLimit
      params in
  response <- makeApiRequest jsrClient config
                ("/scopes/" +:+ scope +:+ "/packages/" +:+ name +:+ "/dependents?"
                   +:+ params_toString params) no_options ;;
  items <- member response "items" ;;
  total <- member response "total" ;;
  items' <- member response "items" ;;
  returned <- member items' "length" ;;
  ret {| data := items;
         total := total;
         returned := returned;
         skip := page_offset page limit;
         limit := limit |}.

Definition getPackageScore (config : JSRConfig) (scope name : string) : M JSValue :=
  makeApiRequest jsrClient config
    ("/scopes/" +:+ scope +:+ "/packages/" +:+ name +:+ "/score") no_options.

Definition getPackageDependencies (config : JSRConfig)
    (scope name version : string) : M JSValue :=
  makeApiRequest jsrClient config
    ("/scopes/" +:+ scope +:+ "/packages/" +:+ name +:+ "/versions/" +:+ version
       +:+ "/dependencies") no_options.

Definition getCurrentUser (config : JSRConfig) : M JSValue :=
  makeApiRequest jsrClient config "/user" no_options.

Definition getCurrentUserScopes (config : JSRConfig) : M JSValue :=
  makeApiRequest jsrClient config "/user/scopes" no_options.

Definition getCurrentUserScopeMember (config : JSRConfig) (scope : string)
    : M JSValue :=
  makeApiRequest jsrClient config ("/user/member/" +:+ scope) no_options.

Definition getCurrentUserInvites (config : JSRConfig) : M JSValue :=
  makeApiRequest jsrClient config "/user/invites" no_options.

Definition getUser (config : JSRConfig) (userId : string) : M JSValue :=
  makeApiRequest jsrClient config ("/users/" +:+ userId) no_options.

Definition getUserScopes (config : JSRConfig) (userId : string) : M JSValue :=
  makeApiRequest jsrClient config ("/users/" +:+ userId +:+ "/scopes") no_options.

Definition listScopeMembers (config : JSRConfig) (scope : string) : M JSValue :=
  makeApiRequest jsrClient config ("/scopes/" +:+ scope +:+ "/members") no_options.

Definition listScopeInvites (config : JSRConfig) (scope : string) : M JSValue :=
  makeApiRequest jsrClient config ("/scopes/" +:+ scope +:+ "/invites") no_options.

Definition getPublishingTask (config : JSRConfig) (taskId : string) : M JSValue :=
  makeApiRequest jsrClient config ("/publishing_tasks/" +:+ taskId) no_options.

Definition getStats (config : JSRConfig) : M JSValue :=
  makeApiRequest jsrClient config "/stats" no_options.

Definition createScope (config : JSRConfig) (scope : string)
    (description : option string) : M JSValue :=
  makeApiRequest jsrClient config "/scopes"
    (with_json "POST"
       (JObj [("scope", JStr scope);
              ("description", opt_string_to_js description)])).

Definition updateScope (config : JSRConfig) (scope : string) (updates : JSValue)
    : M JSValue :=
  makeApiRequest jsrClient config ("/scopes/" +:+ scope) (with_json "PATCH" updates).

Definition deleteScope (config : JSRConfig) (scope : string) : M unit :=
  makeApiRequest jsrClient config ("/scopes/" +:+ scope) (with_method "DELETE") ;;;
  ret tt.

Definition addScopeMember (config : JSRConfig) (scope githubLogin : string)
    : M JSValue :=
  makeApiRequest jsrClient config ("/scopes/" +:+ scope +:+ "/members")
    (with_json "POST" (JObj [("githubLogin", JStr githubLogin)])).

Definition updateScopeMember (config : JSRConfig) (scope userId : string)
    (isAdmin : bool) : M JSValue :=
  makeApiRequest jsrClient config
    ("/scopes/" +:+ scope +:+ "/members/" +:+ userId)
    (with_json "PATCH" (JObj [("isAdmin", JBool isAdmin)])).

Definition removeScopeMember (config : JSRConfig) (scope userId : string)
    : M unit :=
  makeApiRequest jsrClient config
    ("/scopes/" +:+ scope +:+ "/members/" +:+ userId) (with_method "DELETE") ;;;
  ret tt.

Definition deleteScopeInvite (config : JSRConfig) (scope userId : string)
    : M unit :=
  makeApiRequest jsrClient config
    ("/scopes/" +:+ scope +:+ "/invites/" +:+ userId) (with_method "DELETE") ;;;
  ret tt.

Definition createPackage (config : JSRConfig) (scope packageName : string)
    : M JSValue :=
  makeApiRequest jsrClient config ("/scopes/" +:+ scope +:+ "/packages")
    (with_json "POST" (JObj [("package", JStr packageName)])).

Definition updatePackage (config : JSRConfig) (scope name : string)
    (updates : JSValue) : M JSValue :=
  makeApiRequest jsrClient config
    ("/scopes/" +:+ scope +:+ "/packages/" +:+ name) (with_json "PATCH" updates).

Definition deletePackage (config : JSRConfig) (scope name : string) : M unit :=
  makeApiRequest jsrClient config
    ("/scopes/" +:+ scope +:+ "/packages/" +:+ name) (with_method "DELETE") ;;;
  ret tt.

Definition createPackageVersion (config : JSRConfig)
    (scope name version configPath : string) (tarballData : list Byte.byte)
    : M JSValue :=
  let params : URLSearchParams := [("config", configPath)] in
  makeApiRequest jsrClient config
    ("/scopes/" +:+ scope +:+ "/packages/" +:+ name +:+ "/versions/" +:+ version
       +:+ "?" +:+ params_toString params)
    {| init_method := Some "POST";
       init_headers := {["Content-Type" := "application/octet-stream"]};
       init_body := BinaryBody tarballData |}.

Definition updatePackageVersion (config : JSRConfig)
    (scope name version : string) (yanked : bool) : M JSValue :=
  makeApiRequest jsrClient config
    ("/scopes/" +:+ scope +:+ "/packages/" +:+ name +:+ "/versions/" +:+ version)
    (with_json "PATCH" (JObj [("yanked", JBool yanked)])).

Definition acceptScopeInvite (config : JSRConfig) (scope : string) : M JSValue :=
  makeApiRequest jsrClient config ("/user/invites/" +:+ scope) (with_method "POST").

Definition declineScopeInvite (config : JSRConfig) (scope : string) : M unit :=
  makeApiRequest jsrClient config ("/user/invites/" +:+ scope)
    (with_method "DELETE") ;;;
  ret tt.

Definition createAuthorization (config : JSRConfig) (challenge : string)
    (permissions : JSValue) : M JSValue :=
  makeApiRequest jsrClient config "/authorizations"
    (with_json "POST"
       (JObj [("challenge", JStr challenge); ("permissions", permissions)])).

Definition getAuthorizationDetails (config : JSRConfig) (code : string)
    : M JSValue :=
  makeApiRequest jsrClient config ("/authorizations/details/" +:+ code) no_options.

Definition approveAuthorization (config : JSRConfig) (code : string) : M unit :=
  makeApiRequest jsrClient config ("/authorizations/approve/" +:+ code)
    (with_method "POST") ;;;
  ret tt.

Definition denyAuthorization (config : JSRConfig) (code : string) : M unit :=
  makeApiRequest jsrClient config ("/authorizations/deny/" +:+ code)
    (with_method "POST") ;;;
  ret tt.

Definition exchangeAuthorizationCode (config : JSRConfig)
    (exchangeToken verifier : string) : M JSValue :=
  makeApiRequest jsrClient config "/authorizations/exchange"
    (with_json "POST"
       (JObj [("exchangeToken", JStr exchangeToken);
              ("verifier", JStr verifier)])).
End Operations.

Definition embedded_client `{Platform} : Client :=
  {| makeApiRequest := Embedded.makeApiRequest;
     makeRegistryRequest := Embedded.makeRegistryRequest |}.

Definition library_client `{Platform} : Client :=
  {| makeApiRequest := Library.makeApiRequest;
     makeRegistryRequest := Library.makeRegistryRequest |}.

(** ** Result envelopes *)

Inductive Text :=
| Lit (s : string)
| JSONStringify (v : JSValue).   (* JSON.stringify(v, null, 2) *)

Record ContentPart := {
  type : string;
  text : Text
}.

(** Modelled from the spec: the [MCPToolResult] type of src/types/mcp.ts,
    which is not among the sources.  It is the Result Envelope of the
    specification: the content parts and the [isError] flag, "absent/false"
    on success. *)
Record MCPToolResult := {
  content : list ContentPart;
  isError : option bool
}.

Definition text_part (t : Text) : ContentPart := {| type := "text"; text := t |}.

(** [{ content: [{ type: "text", text: t }] }]. *)
Definition success (t : Text) : MCPToolResult :=
  {| content := [text_part t]; isError := None |}.

Definition paginated_to_js (p : PaginatedResponse) : JSValue :=
  JObj [("data", data p);
        ("total", total p);
        ("returned", returned p);
        ("skip", JNum (skip p));
        ("limit", opt_number_to_js (limit p))].

(** A property of the destructured, parsed arguments. *)
Definition prop (parsed : JSValue) (k : string) : JSValue :=
  match parsed with
  | JObj fields => lookup_field k fields
  | _ => JUndefined
  end.

(** [if (v !== undefined) updates.k = v]. *)
Definition assign_if_defined (k : string) (v : JSValue)
    (updates : list (string * JSValue)) : list (string * JSValue) :=
  if is_undefined v then updates else (updates ++ [(k, v)])%list.

(** ** The dispatcher of src/tools/jsr-tools.ts *)

Inductive Tool :=
| jsr_search_packages | jsr_get_package | jsr_get_package_version
| jsr_list_package_versions | jsr_get_scope | jsr_list_scope_packages
| jsr_get_package_metadata | jsr_list_packages | jsr_get_package_dependents
| jsr_get_package_score | jsr_get_package_dependencies | jsr_get_current_user
| jsr_get_current_user_scopes | jsr_get_current_user_scope_member
| jsr_get_current_user_invites | jsr_get_user | jsr_get_user_scopes
| jsr_list_scope_members | jsr_list_scope_invites | jsr_get_publishing_task
| jsr_get_stats | jsr_create_scope | jsr_update_scope | jsr_delete_scope
| jsr_add_scope_member | jsr_update_scope_member | jsr_remove_scope_member
| jsr_delete_scope_invite | jsr_create_package | jsr_update_package
| jsr_delete_package | jsr_create_package_version | jsr_update_package_version
| jsr_accept_scope_invite | jsr_decline_scope_invite | jsr_create_authorization
| jsr_get_authorization_details | jsr_approve_authorization
| jsr_deny_authorization | jsr_exchange_authorization.

(** The [case] labels of the [switch]. *)
Definition case_labels : list (string * Tool) :=
  [("jsr_search_packages", jsr_search_packages);
   ("jsr_get_package", jsr_get_package);
   ("jsr_get_package_version", jsr_get_package_version);
   ("jsr_list_package_versions", jsr_list_package_versions);
   ("jsr_get_scope", jsr_get_scope);
   ("jsr_list_scope_packages", jsr_list_scope_packages);
   ("jsr_get_package_metadata", jsr_get_package_metadata);
   ("jsr_list_packages", jsr_list_packages);
   ("jsr_get_package_dependents", jsr_get_package_dependents);
   ("jsr_get_package_score", jsr_get_package_score);
   ("jsr_get_package_dependencies", jsr_get_package_dependencies);
   ("jsr_get_current_user", jsr_get_current_user);
   ("jsr_get_current_user_scopes", jsr_get_current_user_scopes);
   ("jsr_get_current_user_scope_member", jsr_get_current_user_scope_member);
   ("jsr_get_current_user_invites", jsr_get_current_user_invites);
   ("jsr_get_user", jsr_get_user);
   ("jsr_get_user_scopes", jsr_get_user_scopes);
   ("jsr_list_scope_members", jsr_list_scope_members);
   ("jsr_list_scope_invites", jsr_list_scope_invites);
   ("jsr_get_publishing_task", jsr_get_publishing_task);
   ("jsr_get_stats", jsr_get_stats);
   ("jsr_create_scope", jsr_create_scope);
   ("jsr_update_scope", jsr_update_scope);
   ("jsr_delete_scope", jsr_delete_scope);
   ("jsr_add_scope_member", jsr_add_scope_member);
   ("jsr_update_scope_member", jsr_update_scope_member);
   ("jsr_remove_scope_member", jsr_remove_scope_member);
   ("jsr_delete_scope_invite", jsr_delete_scope_invite);
   ("jsr_create_package", jsr_create_package);
   ("jsr_update_package", jsr_update_package);
   ("jsr_delete_package", jsr_delete_package);
   ("jsr_create_package_version", jsr_create_package_version);
   ("jsr_update_package_version", jsr_update_package_version);
   ("jsr_accept_scope_invite", jsr_accept_scope_invite);
   ("jsr_decline_scope_invite", jsr_decline_scope_invite);
   ("jsr_create_authorization", jsr_create_authorization);
   ("jsr_get_authorization_details", jsr_get_authorization_details);
   ("jsr_approve_authorization", jsr_approve_authorization);
   ("jsr_deny_authorization", jsr_deny_authorization);
   ("jsr_exchange_authorization", jsr_exchange_authorization)].

Fixpoint find_case (name : string) (labels : list (string * Tool)) : option Tool :=
  match labels with
  | [] => None
  | (label, t) :: rest => if String.eqb name label then Some t else find_case name rest
  end.

(** The case [switch (name)] selects, [None] for [default]. *)
Definition tool_of_name (name : string) : option Tool := find_case name case_labels.

Section Dispatcher.
Context `{Platform}.

Let jsrClient : Client := embedded_client.

(** The body of one [case]. *)
Definition run_case (t : Tool) (args : JSValue) (config : JSRConfig)
    : M MCPToolResult :=
  match t with
  | jsr_search_packages =>
      p <- parse SearchPackagesSchema args ;;
      let query := as_opt_string (prop p "query") in
      let limit := as_opt_number (prop p "limit") in
      let skip := as_opt_number (prop p "skip") in
      let page := dispatcher_search_page skip limit in
      results <- searchPackages jsrClient config query limit page ;;
      ret (success (JSONStringify results))
  | jsr_get_package =>
      p <- parse GetPackageSchema args ;;
      result <- getPackage jsrClient config
                  (as_string (prop p "scope")) (as_string (prop p "name")) ;;
      ret (success (JSONStringify result))
  | jsr_get_package_version =>
      p <- parse GetPackageVersionSchema args ;;
      result <- getPackageVersion jsrClient config
                  (as_string (prop p "scope")) (as_string (prop p "name"))
                  (as_string (prop p "version")) ;;
      ret (success (JSONStringify result))
  | jsr_list_package_versions =>
      p <- parse ListPackageVersionsSchema args ;;
      result <- listPackageVersions jsrClient config
                  (as_string (prop p "scope")) (as_string (prop p "name"))
                  (as_opt_number (prop p "limit")) (as_opt_number (prop p "page")) ;;
      ret (success (JSONStringify (paginated_to_js result)))
  | jsr_get_scope =>
      p <- parse GetScopeSchema args ;;
      result <- getScope jsrClient config (as_string (prop p "scope")) ;;
      ret (success (JSONStringify result))
  | jsr_list_scope_packages =>
      p <- parse ListScopePackagesSchema args ;;
      result <- listScopePackages jsrClient config
                  (as_string (prop p "scope"))
                  (as_opt_number (prop p "limit")) (as_opt_number (prop p "skip")) ;;
      ret (success (JSONStringify (paginated_to_js result)))
  | jsr_get_package_metadata =>
      p <- parse GetPackageSchema args ;;
      result <- getPackageMetadata jsrClient config
                  (as_string (prop p "scope")) (as_string (prop p "name")) ;;
      ret (success (JSONStringify result))
  | jsr_list_packages =>
      p <- parse ListPackagesSchema args ;;
      result <- listPackages jsrClient config
                  (as_opt_number (prop p "limit")) (as_opt_number (prop p "page"))
                  (as_opt_string (prop p "query")) ;;
      ret (success (JSONStringify result))
  | jsr_get_package_dependents =>
      p <- parse GetPackageDependentsSchema args ;;
      result <- getPackageDependents jsrClient config
                  (as_string (prop p "scope")) (as_string (prop p "name"))
                  (as_opt_number (prop p "limit")) (as_opt_number (prop p "page"))
                  (as_opt_number (prop p "versionsPerPackageLimit")) ;;
      ret (success (JSONStringify (paginated_to_js result)))
  | jsr_get_package_score =>
      p <- parse GetPackageScoreSchema args ;;
      result <- getPackageScore jsrClient config
                  (as_string (prop p "scope")) (as_string (prop p "name")) ;;
      ret (success (JSONStringify result))
  | jsr_get_package_dependencies =>
      p <- parse GetPackageDependenciesSchema args ;;
      result <- getPackageDependencies jsrClient config
                  (as_string (prop p "scope")) (as_string (prop p "name"))
                  (as_string (prop p "version")) ;;
      ret (success (JSONStringify result))
  | jsr_get_current_user =>
      result <- getCurrentUser jsrClient config ;;
      ret (success (JSONStringify result))
  | jsr_get_current_user_scopes =>
      result <- getCurrentUserScopes jsrClient config ;;
      ret (success (JSONStringify result))
  | jsr_get_current_user_scope_member =>
      p <- parse GetSelfUserScopeMemberSchema args ;;
      result <- getCurrentUserScopeMember jsrClient config
                  (as_string (prop p "scope")) ;;
      ret (success (JSONStringify result))
  | jsr_get_current_user_invites =>
      result <- getCurrentUserInvites jsrClient config ;;
      ret (success (JSONStringify result))
  | jsr_get_user =>
      p <- parse GetUserSchema args ;;
      result <- getUser jsrClient config (as_string (prop p "id")) ;;
      ret (success (JSONStringify result))
  | jsr_get_user_scopes =>
      p <- parse GetUserScopesSchema args ;;
      result <- getUserScopes jsrClient config (as_string (prop p "id")) ;;
      ret (success (JSONStringify result))
  | jsr_list_scope_members =>
      p <- parse ListScopeMembersSchema args ;;
      result <- listScopeMembers jsrClient config (as_string (prop p "scope")) ;;
      ret (success (JSONStringify result))
  | jsr_list_scope_invites =>
      p <- parse ListScopeInvitesSchema args ;;
      result <- listScopeInvites jsrClient config (as_string (prop p "scope")) ;;
      ret (success (JSONStringify result))
  | jsr_get_publishing_task =>
      p <- parse GetPublishingTaskSchema args ;;
      result <- getPublishingTask jsrClient config (as_string (prop p "id")) ;;
      ret (success (JSONStringify result))
  | jsr_get_stats =>
      result <- getStats jsrClient config ;;
      ret (success (JSONStringify result))
  | jsr_create_scope =>
      p <- parse CreateScopeSchema args ;;
      result <- createScope jsrClient config
                  (as_string (prop p "scope"))
                  (as_opt_string (prop p "description")) ;;
      ret (success (JSONStringify result))
  | jsr_update_scope =>
      p <- parse UpdateScopeSchema args ;;
      let updates := [] in
      let updates :=
        assign_if_defined "ghActionsVerifyActor"
          (prop p "ghActionsVerifyActor") updates in
      let updates :=
        assign_if_defined "requirePublishingFromCI"
          (prop p "requirePublishingFromCI") updates in
      result <- updateScope jsrClient config
                  (as_string (prop p "scope")) (JObj updates) ;;
      ret (success (JSONStringify result))
  | jsr_delete_scope =>
      p <- parse DeleteScopeSchema args ;;
      deleteScope jsrClient config (as_string (prop p "scope")) ;;;
      ret (success (Lit "Scope deleted successfully"))
  | jsr_add_scope_member =>
      p <- parse AddScopeMemberSchema args ;;
      result <- addScopeMember jsrClient config
                  (as_string (prop p "scope")) (as_string (prop p "githubLogin")) ;;
      ret (success (JSONStringify result))
  | jsr_update_scope_member =>
      p <- parse UpdateScopeMemberSchema args ;;
      result <- updateScopeMember jsrClient config
                  (as_string (prop p "scope")) (as_string (prop p "userId"))
                  (as_bool (prop p "isAdmin")) ;;
      ret (success (JSONStringify result))
  | jsr_remove_scope_member =>
      p <- parse RemoveScopeMemberSchema args ;;
      removeScopeMember jsrClient config
        (as_string (prop p "scope")) (as_string (prop p "userId")) ;;;
      ret (success (Lit "Scope member removed successfully"))
  | jsr_delete_scope_invite =>
      p <- parse DeleteScopeInviteSchema args ;;
      deleteScopeInvite jsrClient config
        (as_string (prop p "scope")) (as_string (prop p "userId")) ;;;
      ret (success (Lit "Scope invite deleted successfully"))
  | jsr_create_package =>
      p <- parse CreatePackageSchema args ;;
      result <- createPackage jsrClient config
                  (as_string (prop p "scope")) (as_string (prop p "package")) ;;
      ret (success (JSONStringify result))
  | jsr_update_package =>
      p <- parse UpdatePackageSchema args ;;
      let updates := [] in
      let updates := assign_if_defined "description" (prop p "description") updates in
      let updates :=
        assign_if_defined "githubRepository" (prop p "githubRepository") updates in
      let updates :=
        assign_if_defined "runtimeCompat" (prop p "runtimeCompat") updates in
      let updates := assign_if_defined "isArchived" (prop p "isArchived") updates in
      result <- updatePackage jsrClient config
                  (as_string (prop p "scope")) (as_string (prop p "name"))
                  (JObj updates) ;;
      ret (success (JSONStringify result))
  | jsr_delete_package =>
      p <- parse DeletePackageSchema args ;;
      deletePackage jsrClient config
        (as_string (prop p "scope")) (as_string (prop p "name")) ;;;
      ret (success (Lit "Package deleted successfully"))
  | jsr_create_package_version =>
      p <- parse CreatePackageVersionSchema args ;;
      tarballData <- Deno_readFile (as_string (prop p "tarballPath")) ;;
      result <- createPackageVersion jsrClient config
                  (as_string (prop p "scope")) (as_string (prop p "name"))
                  (as_string (prop p "version")) (as_string (prop p "configPath"))
                  tarballData ;;
      ret (success (JSONStringify result))
  | jsr_update_package_version =>
      p <- parse UpdatePackageVersionSchema args ;;
      result <- updatePackageVersion jsrClient config
                  (as_string (prop p "scope")) (as_string (prop p "name"))
                  (as_string (prop p "version")) (as_bool (prop p "yanked")) ;;
      ret (success (JSONStringify result))
  | jsr_accept_scope_invite =>
      p <- parse AcceptScopeInviteSchema args ;;
      result <- acceptScopeInvite jsrClient config (as_string (prop p "scope")) ;;
      ret (success (JSONStringify result))
  | jsr_decline_scope_invite =>
      p <- parse DeclineScopeInviteSchema args ;;
      declineScopeInvite jsrClient config (as_string (prop p "scope")) ;;;
      ret (success (Lit "Scope invite declined successfully"))
  | jsr_create_authorization =>
      p <- parse CreateAuthorizationSchema args ;;
      result <- createAuthorization jsrClient config
                  (as_string (prop p "challenge")) (prop p "permissions") ;;
      ret (success (JSONStringify result))
  | jsr_get_authorization_details =>
      p <- parse GetAuthorizationDetailsSchema args ;;
      result <- getAuthorizationDetails jsrClient config
                  (as_string (prop p "code")) ;;
      ret (success (JSONStringify result))
  | jsr_approve_authorization =>
      p <- parse ApproveAuthorizationSchema args ;;
      approveAuthorization jsrClient config (as_string (prop p "code")) ;;;
      ret (success (Lit "Authorization approved successfully"))
  | jsr_deny_authorization =>
      p <- parse DenyAuthorizationSchema args ;;
      denyAuthorization jsrClient config (as_string (prop p "code")) ;;;
      ret (success (Lit "Authorization denied successfully"))
  | jsr_exchange_authorization =>
      p <- parse ExchangeAuthorizationSchema args ;;
      result <- exchangeAuthorizationCode jsrClient config
                  (as_string (prop p "exchangeToken"))
                  (as_string (prop p "verifier")) ;;
      ret (success (JSONStringify result))
  end.

(** The [switch] inside the [try] block. *)
Definition dispatch (name : string) (args : JSValue) (config : JSRConfig)
    : M MCPToolResult :=
  match tool_of_name name with
  | Some t => run_case t args config
  | None => throw (ErrorInstance GenericError ("Unknown JSR tool: " +:+ name))
  end.

(** The envelope of the [catch] block. *)
Definition error_result (error : Thrown) : MCPToolResult :=
  {| content := [text_part (Lit ("Error: " +:+ error_text error))];
     isError := Some true |}.

Definition handleJSRTool (name : string) (args : JSValue) (config : JSRConfig)
    : M MCPToolResult :=
  try_catch (dispatch name args config) (fun error => ret (error_result error)).

(** The schema a case parses its arguments with; the four cases that
    take no arguments parse nothing. *)
Definition tool_schema (t : Tool) : option Schema :=
  match t with
  | jsr_search_packages => Some SearchPackagesSchema
  | jsr_get_package => Some GetPackageSchema
  | jsr_get_package_version => Some GetPackageVersionSchema
  | jsr_list_package_versions => Some ListPackageVersionsSchema
  | jsr_get_scope => Some GetScopeSchema
  | jsr_list_scope_packages => Some ListScopePackagesSchema
  | jsr_get_package_metadata => Some GetPackageSchema
  | jsr_list_packages => Some ListPackagesSchema
  | jsr_get_package_dependents => Some GetPackageDependentsSchema
  | jsr_get_package_score => Some GetPackageScoreSchema
  | jsr_get_package_dependencies => Some GetPackageDependenciesSchema
  | jsr_get_current_user => None
  | jsr_get_current_user_scopes => None
  | jsr_get_current_user_scope_member => Some GetSelfUserScopeMemberSchema
  | jsr_get_current_user_invites => None
  | jsr_get_user => Some GetUserSchema
  | jsr_get_user_scopes => Some GetUserScopesSchema
  | jsr_list_scope_members => Some ListScopeMembersSchema
  | jsr_list_scope_invites => Some ListScopeInvitesSchema
  | jsr_get_publishing_task => Some GetPublishingTaskSchema
  | jsr_get_stats => None
  | jsr_create_scope => Some CreateScopeSchema
  | jsr_update_scope => Some UpdateScopeSchema
  | jsr_delete_scope => Some DeleteScopeSchema
  | jsr_add_scope_member => Some AddScopeMemberSchema
  | jsr_update_scope_member => Some UpdateScopeMemberSchema
  | jsr_remove_scope_member => Some RemoveScopeMemberSchema
  | jsr_delete_scope_invite => Some DeleteScopeInviteSchema
  | jsr_create_package => Some CreatePackageSchema
  | jsr_update_package => Some UpdatePackageSchema
  | jsr_delete_package => Some DeletePackageSchema
  | jsr_create_package_version => Some CreatePackageVersionSchema
  | jsr_update_package_version => Some UpdatePackageVersionSchema
  | jsr_accept_scope_invite => Some AcceptScopeInviteSchema
  | jsr_decline_scope_invite => Some DeclineScopeInviteSchema
  | jsr_create_authorization => Some CreateAuthorizationSchema
  | jsr_get_authorization_details => Some GetAuthorizationDetailsSchema
  | jsr_approve_authorization => Some ApproveAuthorizationSchema
  | jsr_deny_authorization => Some DenyAuthorizationSchema
  | jsr_exchange_authorization => Some ExchangeAuthorizationSchema
  end.
(** The keys a case reads from its arguments. *)
Definition tool_keys (t : Tool) : list string :=
  match tool_schema t with
  | Some schema => declared_keys schema
  | None => []
  end.
End Dispatcher.

(** ** The inline handlers of packages/jsr-mcp/src/index.ts

    [server.tool(name, description, shape, handler)]: the SDK validates the
    arguments against the shape and then calls the handler, whose result is
    the envelope.  Three of the handlers are needed here. *)

Module McpServer.
Section Handlers.
Context `{Platform}.

(** The envelope of a handler's [catch] block. *)
Definition error_result (error : Thrown) : MCPToolResult :=
  {| content := [text_part (Lit ("Error: " +:+ error_text error))];
     isError := None |}.


(** The shape of [jsr_get_package], the file's own [GetPackageSchema]:
    two strings, with no pattern. *)
Definition GetPackageSchema : Schema :=
  ZObject [("scope", ZString []); ("name", ZString [])].

Definition tool_jsr_get_package (config : JSRConfig) (args : JSValue)
    : M MCPToolResult :=
  try_catch
    (result <- getPackage library_client config
                 (as_string (prop args "scope")) (as_string (prop args "name")) ;;
     ret (success (JSONStringify result)))
    (fun error => ret (error_result error)).


Definition tool_jsr_create_package_version (config : JSRConfig) (args : JSValue)
    : M MCPToolResult :=
  try_catch
    (tarballData <- Deno_readFile (as_string (prop args "tarballPath")) ;;
     result <- createPackageVersion library_client config
                 (as_string (prop args "scope")) (as_string (prop args "name"))
                 (as_string (prop args "version"))
                 (as_string (prop args "configPath")) tarballData ;;
     ret (success (JSONStringify result)))
    (fun error => ret (error_result error)).
End Handlers.
End McpServer.

(** ** Definitions used to state the properties *)


(** Nothing was decoded as JSON. *)
Definition no_decode (trace : list Event) : Prop :=
  forallb (fun e => negb (is_decode e)) trace = true.

(** A world whose [fetch] answers every request with [r]. *)
Definition answering (r : Thrown + Response) : World :=
  {| fetch := fun _ => r;
     readFile := fun _ => inl (ErrorInstance SystemError "No such file or directory") |}.

(** The requests of a trace. *)
Definition requests (trace : list Event) : list Request :=
  flat_map (fun e => match e with Fetched r => [r] | _ => [] end) trace.


(** Two argument objects agree on the keys of a list. *)
Definition agree_on (keys : list string) (o o' : list (string * JSValue)) : Prop :=
  forall k, In k keys -> lookup_field k o = lookup_field k o'.

(** A stand-in platform for closed examples: version 0.0.0, no escaping,
    and a UUID test that accepts exactly the 36-character strings. *)
Definition demo_platform : Platform :=
  {| server_version := "0.0.0";
     client_version := "0.0.0";
     form_urlencode := fun s => s;
     is_uuid := fun s => (String.length s =? 36)%nat;
     zod_message := fun issues =>
       match issues with
       | [] => "[]"
       | _ :: _ => "invalid arguments"
       end |}.

(** A [204 No Content] answer: no body, so reading it as JSON fails. *)
Definition no_content_response : Response :=
  {| status := 204;
     statusText := "No Content";
     has_body := false;
     body_text := inr "";
     body_json := inl (ErrorInstance SyntaxError "Unexpected end of JSON input") |}.

(** A [200 OK] answer carrying the decoded value [v]. *)
Definition ok_response (v : JSValue) : Response :=
  {| status := 200;
     statusText := "OK";
     has_body := true;
     body_text := inr "";
     body_json := inr v |}.

(** The same configuration without a token. *)
Definition without_token (config : JSRConfig) : JSRConfig :=
  {| apiUrl := apiUrl config; registryUrl := registryUrl config; apiToken := None |}.

(** No request of the computation carries an [Authorization] header. *)
Definition unauthenticated {A} (m : M A) : Prop :=
  forall w,
    Forall (fun r => req_headers r !! "Authorization" = None) (requests (fst (m w))).

(** A client whose requests, of both kinds, carry no [Authorization]
    header unless the caller's options bring one. *)
Definition quiet_client (c : Client) (config : JSRConfig) : Prop :=
  forall endpoint options,
    init_headers options !! "Authorization" = None ->
    unauthenticated (makeApiRequest c config endpoint options) /\
    unauthenticated (makeRegistryRequest c config endpoint options).

(** What a request builder makes of the decoding of a 2xx body. *)
Definition decoded (prefix : string) (r : Response) : Outcome JSValue :=
  match body_json r with
  | inr v => Returned v
  | inl e => Threw (ErrorInstance GenericError (prefix +:+ error_text e))
  end.

(** ** The tool catalog of src/tools/jsr-tools.ts

    [createJSRTools] returns the descriptors the server advertises: the
    name, the description and the JSON Schema of the arguments, kept here
    as the object literal the source writes. *)

Record ToolDescriptor := {
  tool_name : string;
  tool_description : string;
  inputSchema : JSValue
}.

Definition createJSRTools : list ToolDescriptor :=
  [{| tool_name := "jsr_search_packages";
     tool_description :=
       "Search for packages in the JSR registry. Returns a list of packages matching the query.";
     inputSchema :=
       JObj
         [("type", JStr "object");
          ("properties", JObj
           [("query", JObj [("type", JStr "string"); ("description", JStr "The search query")]);
            ("limit", JObj
             [("type", JStr "number");
              ("description", JStr "Maximum number of results to return")]);
            ("skip", JObj
             [("type", JStr "number");
              ("description", JStr "Number of results to skip (for pagination)")])])] |};
   {| tool_name := "jsr_get_package";
     tool_description :=
       "Get detailed information about a specific package in the JSR registry.";
     inputSchema :=
       JObj
         [("type", JStr "object");
          ("properties", JObj
           [("scope", JObj
             [("type", JStr "string");
              ("description", JStr "The scope name (without @ prefix)")]);
            ("name", JObj [("type", JStr "string"); ("description", JStr "The package name")])]);
          ("required", JArr [JStr "scope"; JStr "name"])] |};
   {| tool_name := "jsr_get_package_version";
     tool_description :=
       "Get detailed information about a specific version of a package.";
     inputSchema :=
       JObj
         [("type", JStr "object");
          ("properties", JObj
           [("scope", JObj
             [("type", JStr "string");
              ("description", JStr "The scope name (without @ prefix)")]);
            ("name", JObj [("type", JStr "string"); ("description", JStr "The package name")]);
            ("version", JObj [("type", JStr "string"); ("description", JStr "The semantic version")])]);
          ("required", JArr [JStr "scope"; JStr "name"; JStr "version"])] |};
   {| tool_name := "jsr_list_package_versions";
     tool_description :=
       "List all available versions of a specific package.";
     inputSchema :=
       JObj
         [("type", JStr "object");
          ("properties", JObj
           [("scope", JObj
             [("type", JStr "string");
              ("description", JStr "The scope name (without @ prefix)")]);
            ("name", JObj [("type", JStr "string"); ("description", JStr "The package name")]);
            ("limit", JObj
             [("type", JStr "number");
              ("description", JStr "Maximum number of results to return")]);
            ("page", JObj
             [("type", JStr "number");
              ("description", JStr "Page number (1-indexed)")])]);
          ("required", JArr [JStr "scope"; JStr "name"])] |};
   {| tool_name := "jsr_get_scope";
     tool_description :=
       "Get detailed information about a scope in the JSR registry.";
     inputSchema :=
       JObj
         [("type", JStr "object");
          ("properties", JObj
           [("scope", JObj
             [("type", JStr "string");
              ("description", JStr "The scope name (without @ prefix)")])]);
          ("required", JArr [JStr "scope"])] |};
   {| tool_name := "jsr_list_scope_packages";
     tool_description :=
       "List all packages within a specific scope.";
     inputSchema :=
       JObj
         [("type", JStr "object");
          ("properties", JObj
           [("scope", JObj
             [("type", JStr "string");
              ("description", JStr "The scope name (without @ prefix)")]);
            ("limit", JObj
             [("type", JStr "number");
              ("description", JStr "Maximum number of results to return")]);
            ("skip", JObj
             [("type", JStr "number");
              ("description", JStr "Number of results to skip (for pagination)")])]);
          ("required", JArr [JStr "scope"])] |};
   {| tool_name := "jsr_get_package_metadata";
     tool_description :=
       "Get package metadata from the JSR registry (versions, latest version, etc.).";
     inputSchema :=
       JObj
         [("type", JStr "object");
          ("properties", JObj
           [("scope", JObj
             [("type", JStr "string");
              ("description", JStr "The scope name (without @ prefix)")]);
            ("name", JObj [("type", JStr "string"); ("description", JStr "The package name")])]);
          ("required", JArr [JStr "scope"; JStr "name"])] |};
   {| tool_name := "jsr_list_packages";
     tool_description :=
       "List all packages in the JSR registry.";
     inputSchema :=
       JObj
         [("type", JStr "object");
          ("properties", JObj
           [("limit", JObj
             [("type", JStr "number");
              ("description", JStr "Maximum number of results to return (1-100)")]);
            ("page", JObj
             [("type", JStr "number");
              ("description", JStr "Page number (1-indexed)")]);
            ("query", JObj [("type", JStr "string"); ("description", JStr "Optional search query")])])] |};
   {| tool_name := "jsr_get_package_dependents";
     tool_description :=
       "Get packages that depend on a specific package.";
     inputSchema :=
       JObj
         [("type", JStr "object");
          ("properties", JObj
           [("scope", JObj
             [("type", JStr "string");
              ("description", JStr "The scope name (without @ prefix)")]);
            ("name", JObj [("type", JStr "string"); ("description", JStr "The package name")]);
            ("limit", JObj
             [("type", JStr "number");
              ("description", JStr "Maximum number of results to return (1-100)")]);
            ("page", JObj
             [("type", JStr "number");
              ("description", JStr "Page number (1-indexed)")]);
            ("versionsPerPackageLimit", JObj
             [("type", JStr "number");
              ("description", JStr "Maximum number of versions per package (1-10)")])]);
          ("required", JArr [JStr "scope"; JStr "name"])] |};
   {| tool_name := "jsr_get_package_score";
     tool_description :=
       "Get the package score details for a specific package.";
     inputSchema :=
       JObj
         [("type", JStr "object");
          ("properties", JObj
           [("scope", JObj
             [("type", JStr "string");
              ("description", JStr "The scope name (without @ prefix)")]);
            ("name", JObj [("type", JStr "string"); ("description", JStr "The package name")])]);
          ("required", JArr [JStr "scope"; JStr "name"])] |};
   {| tool_name := "jsr_get_package_dependencies";
     tool_description :=
       "Get the dependencies of a specific package version.";
     inputSchema :=
       JObj
         [("type", JStr "object");
          ("properties", JObj
           [("scope", JObj
             [("type", JStr "string");
              ("description", JStr "The scope name (without @ prefix)")]);
            ("name", JObj [("type", JStr "string"); ("description", JStr "The package name")]);
            ("version", JObj [("type", JStr "string"); ("description", JStr "The semantic version")])]);
          ("required", JArr [JStr "scope"; JStr "name"; JStr "version"])] |};
   {| tool_name := "jsr_get_current_user";
     tool_description :=
       "Get details of the authenticated user.";
     inputSchema :=
       JObj [("type", JStr "object"); ("properties", JObj [])] |};
   {| tool_name := "jsr_get_current_user_scopes";
     tool_description :=
       "List scopes that the authenticated user is a member of.";
     inputSchema :=
       JObj [("type", JStr "object"); ("properties", JObj [])] |};
   {| tool_name := "jsr_get_current_user_scope_member";
     tool_description :=
       "Get details of the authenticated user's membership in a specific scope.";
     inputSchema :=
       JObj
         [("type", JStr "object");
          ("properties", JObj
           [("scope", JObj
             [("type", JStr "string");
              ("description", JStr "The scope name (without @ prefix)")])]);
          ("required", JArr [JStr "scope"])] |};
   {| tool_name := "jsr_get_current_user_invites";
     tool_description :=
       "List scope invites for the authenticated user.";
     inputSchema :=
       JObj [("type", JStr "object"); ("properties", JObj [])] |};
   {| tool_name := "jsr_get_user";
     tool_description :=
       "Get details of a specific user.";
     inputSchema :=
       JObj
         [("type", JStr "object");
          ("properties", JObj
           [("id", JObj [("type", JStr "string"); ("description", JStr "The user ID (UUID)")])]);
          ("required", JArr [JStr "id"])] |};
   {| tool_name := "jsr_get_user_scopes";
     tool_description :=
       "List scopes that a specific user is a member of.";
     inputSchema :=
       JObj
         [("type", JStr "object");
          ("properties", JObj
           [("id", JObj [("type", JStr "string"); ("description", JStr "The user ID (UUID)")])]);
          ("required", JArr [JStr "id"])] |};
   {| tool_name := "jsr_list_scope_members";
     tool_description :=
       "List members of a specific scope.";
     inputSchema :=
       JObj
         [("type", JStr "object");
          ("properties", JObj
           [("scope", JObj
             [("type", JStr "string");
              ("description", JStr "The scope name (without @ prefix)")])]);
          ("required", JArr [JStr "scope"])] |};
   {| tool_name := "jsr_list_scope_invites";
     tool_description :=
       "List pending invites for a specific scope.";
     inputSchema :=
       JObj
         [("type", JStr "object");
          ("properties", JObj
           [("scope", JObj
             [("type", JStr "string");
              ("description", JStr "The scope name (without @ prefix)")])]);
          ("required", JArr [JStr "scope"])] |};
   {| tool_name := "jsr_get_publishing_task";
     tool_description :=
       "Get details of a publishing task.";
     inputSchema :=
       JObj
         [("type", JStr "object");
          ("properties", JObj
           [("id", JObj
             [("type", JStr "string");
              ("description", JStr "The publishing task ID (UUID)")])]);
          ("required", JArr [JStr "id"])] |};
   {| tool_name := "jsr_get_stats";
     tool_description :=
       "Get registry statistics including newest packages, recent updates, and featured packages.";
     inputSchema :=
       JObj [("type", JStr "object"); ("properties", JObj [])] |};
   {| tool_name := "jsr_create_scope";
     tool_description :=
       "Create a new scope (requires authentication).";
     inputSchema :=
       JObj
         [("type", JStr "object");
          ("properties", JObj
           [("scope", JObj
             [("type", JStr "string");
              ("description", JStr "The scope name (without @ prefix)")]);
            ("description", JObj
             [("type", JStr "string");
              ("description", JStr "Optional description for the scope")])]);
          ("required", JArr [JStr "scope"])] |};
   {| tool_name := "jsr_update_scope";
     tool_description :=
       "Update scope settings (requires authentication and scope admin).";
     inputSchema :=
       JObj
         [("type", JStr "object");
          ("properties", JObj
           [("scope", JObj
             [("type", JStr "string");
              ("description", JStr "The scope name (without @ prefix)")]);
            ("ghActionsVerifyActor", JObj
             [("type", JStr "boolean");
              ("description", JStr "Whether to verify GitHub Actions actor")]);
            ("requirePublishingFromCI", JObj
             [("type", JStr "boolean");
              ("description", JStr "Whether to require publishing from CI")])]);
          ("required", JArr [JStr "scope"])] |};
   {| tool_name := "jsr_delete_scope";
     tool_description :=
       "Delete a scope (requires authentication and scope admin, scope must have no packages).";
     inputSchema :=
       JObj
         [("type", JStr "object");
          ("properties", JObj
           [("scope", JObj
             [("type", JStr "string");
              ("description", JStr "The scope name (without @ prefix)")])]);
          ("required", JArr [JStr "scope"])] |};
   {| tool_name := "jsr_add_scope_member";
     tool_description :=
       "Invite a user to a scope (requires authentication and scope admin).";
     inputSchema :=
       JObj
         [("type", JStr "object");
          ("properties", JObj
           [("scope", JObj
             [("type", JStr "string");
              ("description", JStr "The scope name (without @ prefix)")]);
            ("githubLogin", JObj
             [("type", JStr "string");
              ("description", JStr "GitHub username of the user to invite")])]);
          ("required", JArr [JStr "scope"; JStr "githubLogin"])] |};
   {| tool_name := "jsr_update_scope_member";
     tool_description :=
       "Update scope member roles (requires authentication and scope admin).";
     inputSchema :=
       JObj
         [("type", JStr "object");
          ("properties", JObj
           [("scope", JObj
             [("type", JStr "string");
              ("description", JStr "The scope name (without @ prefix)")]);
            ("userId", JObj [("type", JStr "string"); ("description", JStr "The user ID (UUID)")]);
            ("isAdmin", JObj
             [("type", JStr "boolean");
              ("description", JStr "Whether the user should be an admin")])]);
          ("required", JArr [JStr "scope"; JStr "userId"; JStr "isAdmin"])] |};
   {| tool_name := "jsr_remove_scope_member";
     tool_description :=
       "Remove a member from a scope (requires authentication and scope admin).";
     inputSchema :=
       JObj
         [("type", JStr "object");
          ("properties", JObj
           [("scope", JObj
             [("type", JStr "string");
              ("description", JStr "The scope name (without @ prefix)")]);
            ("userId", JObj [("type", JStr "string"); ("description", JStr "The user ID (UUID)")])]);
          ("required", JArr [JStr "scope"; JStr "userId"])] |};
   {| tool_name := "jsr_delete_scope_invite";
     tool_description :=
       "Delete a scope invite (requires authentication and scope admin).";
     inputSchema :=
       JObj
         [("type", JStr "object");
          ("properties", JObj
           [("scope", JObj
             [("type", JStr "string");
              ("description", JStr "The scope name (without @ prefix)")]);
            ("userId", JObj [("type", JStr "string"); ("description", JStr "The user ID (UUID)")])]);
          ("required", JArr [JStr "scope"; JStr "userId"])] |};
   {| tool_name := "jsr_create_package";
     tool_description :=
       "Create a new package in a scope (requires authentication and scope membership).";
     inputSchema :=
       JObj
         [("type", JStr "object");
          ("properties", JObj
           [("scope", JObj
             [("type", JStr "string");
              ("description", JStr "The scope name (without @ prefix)")]);
            ("package", JObj [("type", JStr "string"); ("description", JStr "The package name")])]);
          ("required", JArr [JStr "scope"; JStr "package"])] |};
   {| tool_name := "jsr_update_package";
     tool_description :=
       "Update package details (requires authentication and scope membership).";
     inputSchema :=
       JObj
         [("type", JStr "object");
          ("properties", JObj
           [("scope", JObj
             [("type", JStr "string");
              ("description", JStr "The scope name (without @ prefix)")]);
            ("name", JObj [("type", JStr "string"); ("description", JStr "The package name")]);
            ("description", JObj
             [("type", JStr "string");
              ("description", JStr "Package description (max 250 chars)")]);
            ("githubRepository", JObj
             [("type", JStr "object");
              ("nullable", JBool true);
              ("properties", JObj
               [("owner", JObj
                 [("type", JStr "string");
                  ("description", JStr "GitHub repository owner")]);
                ("repo", JObj
                 [("type", JStr "string");
                  ("description", JStr "GitHub repository name")])]);
              ("description", JStr "GitHub repository information")]);
            ("runtimeCompat", JObj
             [("type", JStr "object");
              ("properties", JObj
               [("browser", JObj [("type", JStr "boolean"); ("nullable", JBool true)]);
                ("deno", JObj [("type", JStr "boolean"); ("nullable", JBool true)]);
                ("node", JObj [("type", JStr "boolean"); ("nullable", JBool true)]);
                ("workerd", JObj [("type", JStr "boolean"); ("nullable", JBool true)]);
                ("bun", JObj [("type", JStr "boolean"); ("nullable", JBool true)])]);
              ("description", JStr "Runtime compatibility information")]);
            ("isArchived", JObj
             [("type", JStr "boolean");
              ("description", JStr "Whether the package is archived")])]);
          ("required", JArr [JStr "scope"; JStr "name"])] |};
   {| tool_name := "jsr_delete_package";
     tool_description :=
       "Delete a package (requires authentication and scope admin, package must have no versions).";
     inputSchema :=
       JObj
         [("type", JStr "object");
          ("properties", JObj
           [("scope", JObj
             [("type", JStr "string");
              ("description", JStr "The scope name (without @ prefix)")]);
            ("name", JObj [("type", JStr "string"); ("description", JStr "The package name")])]);
          ("required", JArr [JStr "scope"; JStr "name"])] |};
   {| tool_name := "jsr_create_package_version";
     tool_description :=
       "Create a new package version by uploading a tarball (requires authentication and scope membership).";
     inputSchema :=
       JObj
         [("type", JStr "object");
          ("properties", JObj
           [("scope", JObj
             [("type", JStr "string");
              ("description", JStr "The scope name (without @ prefix)")]);
            ("name", JObj [("type", JStr "string"); ("description", JStr "The package name")]);
            ("version", JObj [("type", JStr "string"); ("description", JStr "The semantic version")]);
            ("configPath", JObj
             [("type", JStr "string");
              ("description", JStr "Path to the config file within the tarball")]);
            ("tarballPath", JObj
             [("type", JStr "string");
              ("description", JStr "Path to the gzipped tarball file to upload")])]);
          ("required", JArr [JStr "scope"; JStr "name"; JStr "version"; JStr "configPath"; JStr "tarballPath"])] |};
   {| tool_name := "jsr_update_package_version";
     tool_description :=
       "Update package version yanked status (requires authentication and scope membership).";
     inputSchema :=
       JObj
         [("type", JStr "object");
          ("properties", JObj
           [("scope", JObj
             [("type", JStr "string");
              ("description", JStr "The scope name (without @ prefix)")]);
            ("name", JObj [("type", JStr "string"); ("description", JStr "The package name")]);
            ("version", JObj [("type", JStr "string"); ("description", JStr "The semantic version")]);
            ("yanked", JObj
             [("type", JStr "boolean");
              ("description", JStr "Whether the version should be yanked")])]);
          ("required", JArr [JStr "scope"; JStr "name"; JStr "version"; JStr "yanked"])] |};
   {| tool_name := "jsr_accept_scope_invite";
     tool_description :=
       "Accept an invite to a scope (requires authentication).";
     inputSchema :=
       JObj
         [("type", JStr "object");
          ("properties", JObj
           [("scope", JObj
             [("type", JStr "string");
              ("description", JStr "The scope name (without @ prefix)")])]);
          ("required", JArr [JStr "scope"])] |};
   {| tool_name := "jsr_decline_scope_invite";
     tool_description :=
       "Decline an invite to a scope (requires authentication).";
     inputSchema :=
       JObj
         [("type", JStr "object");
          ("properties", JObj
           [("scope", JObj
             [("type", JStr "string");
              ("description", JStr "The scope name (without @ prefix)")])]);
          ("required", JArr [JStr "scope"])] |};
   {| tool_name := "jsr_create_authorization";
     tool_description :=
       "Start an authorization flow.";
     inputSchema :=
       JObj
         [("type", JStr "object");
          ("properties", JObj
           [("challenge", JObj
             [("type", JStr "string");
              ("description", JStr "The challenge for later token retrieval")]);
            ("permissions", JObj
             [("type", JStr "array");
              ("description", JStr "Optional permissions for the token");
              ("items", JObj [("type", JStr "object")])])]);
          ("required", JArr [JStr "challenge"])] |};
   {| tool_name := "jsr_get_authorization_details";
     tool_description :=
       "Get details of an authorization.";
     inputSchema :=
       JObj
         [("type", JStr "object");
          ("properties", JObj
           [("code", JObj
             [("type", JStr "string");
              ("description", JStr "The authorization code")])]);
          ("required", JArr [JStr "code"])] |};
   {| tool_name := "jsr_approve_authorization";
     tool_description :=
       "Approve an authorization (requires authentication).";
     inputSchema :=
       JObj
         [("type", JStr "object");
          ("properties", JObj
           [("code", JObj
             [("type", JStr "string");
              ("description", JStr "The authorization code")])]);
          ("required", JArr [JStr "code"])] |};
   {| tool_name := "jsr_deny_authorization";
     tool_description :=
       "Deny an authorization (requires authentication).";
     inputSchema :=
       JObj
         [("type", JStr "object");
          ("properties", JObj
           [("code", JObj
             [("type", JStr "string");
              ("description", JStr "The authorization code")])]);
          ("required", JArr [JStr "code"])] |};
   {| tool_name := "jsr_exchange_authorization";
     tool_description :=
       "Exchange authorization code for access token.";
     inputSchema :=
       JObj
         [("type", JStr "object");
          ("properties", JObj
           [("exchangeToken", JObj [("type", JStr "string"); ("description", JStr "The exchange token")]);
            ("verifier", JObj
             [("type", JStr "string");
              ("description", JStr "The verifier for the challenge")])]);
          ("required", JArr [JStr "exchangeToken"; JStr "verifier"])] |}].

(** The property names, the required names and the type of a property, as
    a descriptor advertises them. *)
Definition advertised_properties (d : ToolDescriptor) : list string :=
  match prop (inputSchema d) "properties" with
  | JObj fields => map fst fields
  | _ => []
  end.

Definition advertised_required (d : ToolDescriptor) : list string :=
  match prop (inputSchema d) "required" with
  | JArr names =>
      flat_map (fun v => match v with JStr s => [s] | _ => [] end) names
  | _ => []
  end.

Definition advertised_type (d : ToolDescriptor) (k : string) : JSValue :=
  prop (prop (prop (inputSchema d) "properties") k) "type".

(** The JSON Schema type of the values a Zod schema accepts, when they
    have one type. *)
Fixpoint json_type (s : Schema) : option string :=
  match s with
  | ZString _ => Some "string"
  | ZLiteral _ => Some "string"
  | ZNumber _ _ => Some "number"
  | ZBoolean => Some "boolean"
  | ZOptional inner => json_type inner
  | ZNullable inner => json_type inner
  | ZArray _ => Some "array"
  | ZObject _ => Some "object"
  | ZUnion _ => None
  end.

Definition is_optional (s : Schema) : bool :=
  match s with
  | ZOptional _ => true
  | _ => false
  end.

(** A schema that is neither optional, nullable nor a union: it rejects
    [undefined] whatever its checks. *)
Definition is_plain (s : Schema) : bool :=
  match s with
  | ZOptional _ | ZNullable _ | ZUnion _ => false
  | _ => true
  end.

(** The shape of an object schema. *)
Definition shape_of (s : Schema) : list (string * Schema) :=
  match s with
  | ZObject shape => shape
  | _ => []
  end.

(** The shape a case validates against, empty for the cases that parse
    nothing, and the keys of it that are not optional. *)
Definition tool_shape (t : Tool) : list (string * Schema) :=
  match tool_schema t with
  | Some schema => shape_of schema
  | None => []
  end.

Definition required_keys (t : Tool) : list string :=
  map fst (List.filter (fun ks => negb (is_optional (snd ks))) (tool_shape t)).

(** Every non-optional key of the shape is plain. *)
Definition required_are_plain (t : Tool) : bool :=
  forallb (fun ks => is_optional (snd ks) || is_plain (snd ks)) (tool_shape t).

(** Do two lists of names hold the same names? *)
Definition same_names (l l' : list string) : bool :=
  forallb (fun k => existsb (String.eqb k) l') l
  && forallb (fun k => existsb (String.eqb k) l) l'.

(** A descriptor matches a dispatcher case: same property names, same
    required names, and for each property the JSON type of its schema. *)
Definition descriptor_matches (d : ToolDescriptor) (t : Tool) : bool :=
  same_names (advertised_properties d) (map fst (tool_shape t))
  && same_names (advertised_required d) (required_keys t)
  && forallb (fun ks =>
                match advertised_type d (fst ks), json_type (snd ks) with
                | JStr ty, Some ty' => String.eqb ty ty'
                | _, _ => false
                end)
             (tool_shape t).

(** The descriptor of [jsr_get_scope], as the catalog has it. *)
Definition jsr_get_scope_descriptor : ToolDescriptor :=
  {| tool_name := "jsr_get_scope";
     tool_description :=
       "Get detailed information about a scope in the JSR registry.";
     inputSchema :=
       JObj
         [("type", JStr "object");
          ("properties", JObj
           [("scope", JObj
             [("type", JStr "string");
              ("description", JStr "The scope name (without @ prefix)")])]);
          ("required", JArr [JStr "scope"])] |}.

(** ** The server entry point of src/index.ts *)

(** [Deno.env.get(key) || fallback]. *)
Definition env_or (value : option string) (fallback : string) : string :=
  match value with
  | Some s => if non_empty s then s else fallback
  | None => fallback
  end.

Definition loadConfig (env : string -> option string) : JSRConfig :=
  let apiUrl := env_or (env "JSR_API_URL") "https://api.jsr.io" in
  let registryUrl := env_or (env "JSR_REGISTRY_URL") "https://jsr.io" in
  let apiToken := env "JSR_API_TOKEN" in
  createJSRConfig apiUrl registryUrl apiToken.

Inductive ErrorCode :=
| MethodNotFound
| InternalError.

(** [new McpError(code, message)], with the message it is given. *)
Inductive McpError :=
| NewMcpError (code : ErrorCode) (message : string).

(** What the [try] block of the [CallToolRequestSchema] handler can
    throw: a value thrown by [handleJSRTool], or the handler's own
    [McpError]. *)
Definition CallOutcome : Type := MCPToolResult + (Thrown + McpError).

Section RequestHandler.
Context `{Platform}.

(** The [try] block: names starting with [jsr_] go to the dispatcher, any
    other name throws [MethodNotFound]. *)
Definition call_tool_body (name : string) (args : JSValue) (config : JSRConfig)
    (w : World) : list Event * CallOutcome :=
  if String.prefix "jsr_" name then
    match handleJSRTool name args config w with
    | (trace, Returned result) => (trace, inl result)
    | (trace, Threw error) => (trace, inr (inl error))
    end
  else ([], inr (inr (NewMcpError MethodNotFound ("Unknown tool: " +:+ name)))).

(** The handler with its [catch] block: an [McpError] is thrown again as
    it is, anything else inside an [InternalError]. *)
Definition call_tool (name : string) (args : JSValue) (config : JSRConfig)
    (w : World) : list Event * (MCPToolResult + McpError) :=
  match call_tool_body name args config w with
  | (trace, inl result) => (trace, inl result)
  | (trace, inr (inr mcp_error)) => (trace, inr mcp_error)
  | (trace, inr (inl error)) =>
      (trace,
       inr (NewMcpError InternalError
              ("Tool execution failed: " +:+ error_text error)))
  end.
End RequestHandler.

(** ** The connectivity probe of the clients *)

(** The result [{ success, error? }] of the probe. *)
Module ConnectionTest.
Record t := {
  success : bool;
  error : option string
}.
End ConnectionTest.

Section Probe.
Context `{Platform}.
Variable jsrClient : Client.

Definition testConnection (config : JSRConfig) : M ConnectionTest.t :=
  try_catch
    (searchPackages jsrClient config None (Some 1%float) None ;;;
     ret {| ConnectionTest.success := true; ConnectionTest.error := None |})
    (fun error =>
       ret {| ConnectionTest.success := false;
              ConnectionTest.error := Some (error_text error) |}).
End Probe.

(** ** More definitions used to state properties *)

(** Every request of the computation satisfies [P]. *)
Definition every_request {A} (P : Request -> Prop) (m : M A) : Prop :=
  forall w, Forall P (requests (fst (m w))).

(** The computation makes at most [n] requests. *)
Definition at_most {A} (n : nat) (m : M A) : Prop :=
  forall w, (List.length (requests (fst (m w))) <= n)%nat.

(** Every event of the computation satisfies [P]. *)
Definition every_event {A} (P : Event -> Prop) (m : M A) : Prop :=
  forall w, Forall P (fst (m w)).

(** Whenever the computation returns, the result satisfies [Q]. *)
Definition returns_only {A} (Q : A -> Prop) (m : M A) : Prop :=
  forall w, match snd (m w) with
            | Returned a => Q a
            | Threw _ => True
            end.

(** A [404 Not Found] answer with a short body that is no JSON. *)
Definition not_found_response : Response :=
  {| status := 404;
     statusText := "Not Found";
     has_body := true;
     body_text := inr "no such scope";
     body_json := inl (ErrorInstance SyntaxError "Unexpected token") |}.

(** The field of an argument object for an optional flag: absent when
    the flag is. *)
Definition optional_flag (k : string) (v : option bool) : list (string * JSValue) :=
  match v with
  | Some b => [(k, JBool b)]
  | None => []
  end.

(** An event is no file read, unless the call is the upload of a version
    and the file is the one its [tarballPath] argument names. *)
Definition reads_only_tarball (name : string) (args : JSValue) (e : Event) : Prop :=
  match e with
  | ReadFile path =>
      name = "jsr_create_package_version" /\ prop args "tarballPath" = JStr path
  | _ => True
  end.

(** The field of an argument object for an optional text. *)
Definition optional_text (k : string) (v : option string) : list (string * JSValue) :=
  match v with
  | Some s => [(k, JStr s)]
  | None => []
  end.

(** A world whose file system holds one file, and whose [fetch] answers
    every request with [r]. *)
Definition with_file (path : string) (data : list Byte.byte)
    (r : Thrown + Response) : World :=
  {| fetch := fun _ => r;
     readFile := fun p =>
       if String.eqb p path then inr data
       else inl (ErrorInstance SystemError "No such file or directory") |}.

(** Names of the tools that only read: [jsr_get_...], [jsr_list_...] and
    [jsr_search_...]. *)
Definition is_read_name (name : string) : bool :=
  String.prefix "jsr_get_" name
  || String.prefix "jsr_list_" name
  || String.prefix "jsr_search_" name.

(** The tools that answer with a fixed confirmation, and its text. *)
Definition confirmation (t : Tool) : option string :=
  match t with
  | jsr_delete_scope => Some "Scope deleted successfully"
  | jsr_remove_scope_member => Some "Scope member removed successfully"
  | jsr_delete_scope_invite => Some "Scope invite deleted successfully"
  | jsr_delete_package => Some "Package deleted successfully"
  | jsr_decline_scope_invite => Some "Scope invite declined successfully"
  | jsr_approve_authorization => Some "Authorization approved successfully"
  | jsr_deny_authorization => Some "Authorization denied successfully"
  | _ => None
  end.

(** The characters of a name: lower-case letters, digits and hyphens. *)
Definition is_name_char (c : ascii) : bool :=
  is_lower c || is_digit c || Ascii.eqb c "-".

Fixpoint all_name_chars (s : string) : bool :=
  match s with
  | EmptyString => true
  | String c rest => is_name_char c && all_name_chars rest
  end.

Definition starts_with_letter (s : string) : bool :=
  match s with
  | EmptyString => false
  | String c _ => is_lower c
  end.

Fixpoint ends_with_hyphen (s : string) : bool :=
  match s with
  | EmptyString => false
  | String c rest =>
      match rest with
      | EmptyString => Ascii.eqb c "-"
      | String _ _ => ends_with_hyphen rest
      end
  end.

Fixpoint has_double_hyphen (s : string) : bool :=
  match s with
  | EmptyString => false
  | String c rest =>
      match rest with
      | EmptyString => false
      | String d _ => (Ascii.eqb c "-" && Ascii.eqb d "-") || has_double_hyphen rest
      end
  end.

(** The envelope of a case that ended normally: no [isError], one text
    part, holding the confirmation of the tool when it has one and a JSON
    text otherwise. *)
Definition success_shape (t : Tool) (envelope : MCPToolResult) : Prop :=
  isError envelope = None /\
  exists txt,
    content envelope = [{| type := "text"; text := txt |}] /\
    match confirmation t with
    | Some fixed => txt = Lit fixed
    | None => exists v, txt = JSONStringify v
    end.

(** A double that is at least zero: a zero, a positive number or
    positive infinity. *)
Definition at_least_zero (x : spec_float) : bool :=
  match x with
  | S754_zero _ | S754_finite false _ _ | S754_infinity false => true
  | _ => false
  end.

(** A positive double that is not infinite. *)
Definition positive_finite (x : spec_float) : bool :=
  match x with
  | S754_finite false _ _ => true
  | _ => false
  end.



(** * Properties *)

(** ** Connection configuration *)

Lemma strip_trailing_slash_fixed (s : string) :
  ends_with_slash s = false -> strip_trailing_slash s = s.
Proof.
  induction s as [|c rest IH]; [reflexivity|].
  destruct rest as [|d rest'].
  - simpl. intros ->. reflexivity.
  - intros Hrest. change (ends_with_slash (String d rest') = false) in Hrest.
    change (String c (strip_trailing_slash (String d rest'))
            = String c (String d rest')).
    f_equal. apply IH. exact Hrest.
Qed.

Lemma strip_trailing_slash_removes_one (s : string) :
  ends_with_slash s = true -> s = strip_trailing_slash s +:+ "/".
Proof.
  induction s as [|c rest IH]; [discriminate|].
  destruct rest as [|d rest'].
  - simpl. intros Hc. rewrite Hc. apply Ascii.eqb_eq in Hc. subst c. reflexivity.
  - intros Hrest. change (ends_with_slash (String d rest') = true) in Hrest.
    change (String c (String d rest')
            = String c (strip_trailing_slash (String d rest') +:+ "/")).
    f_equal. apply IH. exact Hrest.
Qed.

Lemma strip_trailing_slash_clean (s : string) :
  ends_with_two_slashes s = false ->
  ends_with_slash (strip_trailing_slash s) = false.
Proof.
  induction s as [|c rest IH]; [reflexivity|].
  destruct rest as [|d rest'].
  - simpl. intros _. destruct (Ascii.eqb c "/") eqn:Hc; simpl; [reflexivity|].
    exact Hc.
  - destruct rest' as [|e rest''].
    + simpl. intros Hcd. destruct (Ascii.eqb d "/") eqn:Hd; simpl.
      * rewrite andb_true_r in Hcd. exact Hcd.
      * exact Hd.
    + intros Htwo.
      change (ends_with_two_slashes (String d (String e rest'')) = false) in Htwo.
      specialize (IH Htwo).
      change (strip_trailing_slash (String c (String d (String e rest''))))
        with (String c (strip_trailing_slash (String d (String e rest'')))).
      remember (strip_trailing_slash (String d (String e rest''))) as tail eqn:Ht.
      destruct tail as [|x tail'].
      * simpl in Ht. discriminate.
      * exact IH.
Qed.

Lemma strip_trailing_slash_non_empty (s : string) :
  s <> "" -> s <> "/" -> non_empty (strip_trailing_slash s) = true.
Proof.
  destruct s as [|c rest]; [congruence|].
  destruct rest as [|d rest']; simpl.
  - intros _ Hne. destruct (Ascii.eqb c "/") eqn:Hc; [|reflexivity].
    apply Ascii.eqb_eq in Hc. subst c. congruence.
  - reflexivity.
Qed.

(** C5, as the claim states it, fails: the empty URL stays empty, "/"
    becomes empty, and of two trailing slashes one is left. *)
Lemma createJSRConfig_not_always_normalised :
  non_empty (apiUrl (createJSRConfig "" "https://jsr.io" None)) = false /\
  non_empty (registryUrl (createJSRConfig "https://api.jsr.io" "/" None)) = false /\
  apiUrl (createJSRConfig "https://api.jsr.io//" "https://jsr.io" None)
    = "https://api.jsr.io/" /\
  ends_with_slash
    (apiUrl (createJSRConfig "https://api.jsr.io//" "https://jsr.io" None)) = true.
Proof. repeat split; reflexivity. Qed.

(** C5 (amended): for URLs that are neither empty nor "/" and do not end
    in two slashes, [createJSRConfig] stores each URL without its trailing
    slash (unchanged when it has none), hence non-empty and ending with no
    slash, and keeps the token; the example of the specification holds. *)
Theorem createJSRConfig_normalises (api registry : string) (token : option string) :
  api <> "" -> api <> "/" -> ends_with_two_slashes api = false ->
  registry <> "" -> registry <> "/" -> ends_with_two_slashes registry = false ->
  let config := createJSRConfig api registry token in
  apiToken config = token /\
  non_empty (apiUrl config) = true /\
  ends_with_slash (apiUrl config) = false /\
  non_empty (registryUrl config) = true /\
  ends_with_slash (registryUrl config) = false /\
  (ends_with_slash api = true -> api = apiUrl config +:+ "/") /\
  (ends_with_slash api = false -> apiUrl config = api) /\
  (ends_with_slash registry = true -> registry = registryUrl config +:+ "/") /\
  (ends_with_slash registry = false -> registryUrl config = registry) /\
  createJSRConfig "https://api.jsr.io/" "https://jsr.io/" (Some "tok")
    = {| apiUrl := "https://api.jsr.io";
         registryUrl := "https://jsr.io";
         apiToken := Some "tok" |}.
Proof.
  intros Ha Ha' Ha2 Hr Hr' Hr2. simpl.
  repeat split.
  - apply strip_trailing_slash_non_empty; assumption.
  - apply strip_trailing_slash_clean; assumption.
  - apply strip_trailing_slash_non_empty; assumption.
  - apply strip_trailing_slash_clean; assumption.
  - apply strip_trailing_slash_removes_one.
  - apply strip_trailing_slash_fixed.
  - apply strip_trailing_slash_removes_one.
  - apply strip_trailing_slash_fixed.
Qed.

Lemma createJSRConfig_normalises_witness :
  let config := createJSRConfig "https://api.jsr.io/" "https://jsr.io/" (Some "tok") in
  apiToken config = Some "tok" /\
  non_empty (apiUrl config) = true /\
  ends_with_slash (apiUrl config) = false /\
  non_empty (registryUrl config) = true /\
  ends_with_slash (registryUrl config) = false.
Proof.
  pose proof (createJSRConfig_normalises
                "https://api.jsr.io/" "https://jsr.io/" (Some "tok")) as H.
  simpl in H.
  destruct H as (H1 & H2 & H3 & H4 & H5 & _);
    try discriminate; try reflexivity.
  repeat split; assumption.
Defined.

(** ** The effect monad *)

Lemma bind_threw {A B} (m : M A) (k : A -> M B) w t e :
  m w = (t, Threw e) -> bind m k w = (t, Threw e).
Proof. intros Hm. unfold bind. rewrite Hm. reflexivity. Qed.

Lemma bind_returned {A B} (m : M A) (k : A -> M B) w t a :
  m w = (t, Returned a) ->
  bind m k w = ((t ++ fst (k a w))%list, snd (k a w)).
Proof. intros Hm. unfold bind. rewrite Hm. destruct (k a w). reflexivity. Qed.

Lemma try_catch_threw {A} (m : M A) (h : Thrown -> M A) w t e :
  m w = (t, Threw e) ->
  try_catch m h w = ((t ++ fst (h e w))%list, snd (h e w)).
Proof. intros Hm. unfold try_catch. rewrite Hm. destruct (h e w). reflexivity. Qed.

Lemma try_catch_returned {A} (m : M A) (h : Thrown -> M A) w t a :
  m w = (t, Returned a) -> try_catch m h w = (t, Returned a).
Proof. intros Hm. unfold try_catch. rewrite Hm. reflexivity. Qed.

Section ParseFacts.
Context `{Platform}.

Lemma parse_rejects (S : Schema) args issues w :
  zparse S [] args = inl issues ->
  parse S args w = ([], Threw (ErrorInstance ZodError (zod_message issues))).
Proof. intros Hz. unfold parse. rewrite Hz. reflexivity. Qed.

Lemma parse_accepts (S : Schema) args parsed w :
  zparse S [] args = inr parsed -> parse S args w = ([], Returned parsed).
Proof. intros Hz. unfold parse. rewrite Hz. reflexivity. Qed.

(** A case that starts by parsing rejected arguments ends in the
    [catch] block before any effect. *)
Lemma rejected_case_is_caught {A B} (S : Schema) args issues
    (k : JSValue -> M A) (h : Thrown -> B) (wrap : A -> B) w :
  zparse S [] args = inl issues ->
  try_catch (x <- bind (parse S args) k ;; ret (wrap x)) (fun e => ret (h e)) w
    = ([], Returned (h (ErrorInstance ZodError (zod_message issues)))).
Proof.
  intros Hz.
  rewrite (try_catch_threw _ _ w [] (ErrorInstance ZodError (zod_message issues))).
  - reflexivity.
  - apply bind_threw, bind_threw, parse_rejects, Hz.
Qed.
End ParseFacts.

(** ** The dispatcher boundary *)

Section DispatcherFacts.
Context `{Platform}.

(** C1: [handleJSRTool] always returns an envelope.  When processing
    throws, whatever the failure, the envelope is the error envelope,
    with [isError = true] and one text part carrying the failure's
    message; otherwise it is the envelope processing returned.  The
    failure of an unknown tool name is one of those caught. *)
Theorem handleJSRTool_always_returns_envelope
    (name : string) (args : JSValue) (config : JSRConfig) (w : World) :
  exists trace envelope,
    handleJSRTool name args config w = (trace, Returned envelope) /\
    (forall t error,
        dispatch name args config w = (t, Threw error) ->
        trace = t /\
        envelope = {| content := [{| type := "text";
                                     text := Lit ("Error: " +:+ error_text error) |}];
                      isError := Some true |}) /\
    (forall t result,
        dispatch name args config w = (t, Returned result) ->
        trace = t /\ envelope = result) /\
    (tool_of_name name = None ->
        dispatch name args config w
          = ([], Threw (ErrorInstance GenericError ("Unknown JSR tool: " +:+ name)))).
Proof.
  unfold handleJSRTool, try_catch.
  destruct (dispatch name args config w) as [t [result|error]] eqn:Hd.
  - exists t, result.
    split; [reflexivity|]. split; [|split].
    + intros t' e' He. discriminate.
    + intros t' r' Hr. inversion Hr; subst. split; reflexivity.
    + intros Hname. unfold dispatch in Hd. rewrite Hname in Hd. discriminate.
  - exists (t ++ [])%list, (error_result error).
    split; [reflexivity|]. split; [|split].
    + intros t' e' He. inversion He; subst. split; [apply app_nil_r|reflexivity].
    + intros t' r' Hr. discriminate.
    + intros Hname. unfold dispatch in Hd. rewrite Hname in Hd.
      inversion Hd; subst. reflexivity.
Qed.

(** X24: the dispatcher forwards no invalid arguments.  Arguments the
    schema of its case rejects are answered with the error envelope that
    lists the issues, before any effect: the trace is empty, so no request
    is made. *)
Theorem invalid_arguments_are_never_forwarded
    (name : string) (t : Tool) (S : Schema) (args : JSValue)
    (issues : list ZodIssue) (config : JSRConfig) (w : World) :
  tool_of_name name = Some t ->
  tool_schema t = Some S ->
  zparse S [] args = inl issues ->
  exists trace envelope,
    handleJSRTool name args config w = (trace, Returned envelope) /\
    isError envelope = Some true /\
    content envelope = [text_part (Lit ("Error: " +:+ zod_message issues))] /\
    trace = [] /\
    requests trace = [].
Proof.
  intros Hname Hschema Hz.
  exists [], (error_result (ErrorInstance ZodError (zod_message issues))).
  repeat split.
  unfold handleJSRTool, dispatch. rewrite Hname.
  destruct t; simpl in Hschema; inversion Hschema; subst S; clear Hschema;
    unfold run_case;
    first
      [ apply (rejected_case_is_caught _ _ _ _ error_result); exact Hz
      | rewrite (try_catch_threw _ _ w []
                   (ErrorInstance ZodError (zod_message issues)));
        [ reflexivity | apply bind_threw, parse_rejects, Hz ] ].
Qed.
End DispatcherFacts.

Lemma handleJSRTool_always_returns_envelope_witness :
  let config := createJSRConfig "https://api.jsr.io/" "https://jsr.io/" None in
  let w := answering (inr (ok_response JNull)) in
  exists trace envelope,
    @handleJSRTool demo_platform "jsr_publish" JUndefined config w
      = (trace, Returned envelope) /\
    trace = [] /\
    envelope = {| content := [{| type := "text";
                                 text := Lit "Error: Unknown JSR tool: jsr_publish" |}];
                  isError := Some true |}.
Proof.
  intros config w.
  destruct (@handleJSRTool_always_returns_envelope demo_platform
              "jsr_publish" JUndefined config w)
    as (trace & envelope & Hrun & Hthrown & _ & Hunknown).
  destruct (Hthrown _ _ (Hunknown eq_refl)) as [Htrace Henvelope].
  exists trace, envelope. repeat split; assumption.
Defined.

Lemma invalid_arguments_are_never_forwarded_witness :
  let config := createJSRConfig "https://api.jsr.io/" "https://jsr.io/" None in
  let w := answering (inl (ErrorInstance TypeError "network down")) in
  (exists trace envelope,
      @handleJSRTool demo_platform "jsr_list_packages"
        (JObj [("limit", JNum 101)]) config w = (trace, Returned envelope) /\
      isError envelope = Some true /\
      content envelope
        = [text_part (Lit ("Error: " +:+
             @zod_message demo_platform [TooBig 100 [Key "limit"]]))] /\
      trace = [] /\
      requests trace = []) /\
  (exists trace envelope,
      @handleJSRTool demo_platform "jsr_get_package"
        (JObj [("scope", JStr "Std"); ("name", JStr "fs")]) config w
        = (trace, Returned envelope) /\
      isError envelope = Some true /\
      content envelope
        = [text_part (Lit ("Error: " +:+
             @zod_message demo_platform
               [InvalidString "regex" (Some "Invalid scope name format")
                  [Key "scope"]]))] /\
      trace = [] /\
      requests trace = []).
Proof.
  split.
  - apply (@invalid_arguments_are_never_forwarded demo_platform
             "jsr_list_packages" jsr_list_packages ListPackagesSchema);
      reflexivity.
  - apply (@invalid_arguments_are_never_forwarded demo_platform
             "jsr_get_package" jsr_get_package GetPackageSchema);
      reflexivity.
Defined.

(** ** Unknown keys *)

Section StripFacts.
Context `{Platform}.

Lemma zparse_object (shape : list (string * Schema)) path fields :
  zparse (ZObject shape) path (JObj fields)
    = let (issues, out) := parse_shape shape path fields in
      accept_if_clean issues (JObj out).
Proof.
  simpl.
  match goal with
  | |- (let (_, _) := ?loop shape in _) = _ =>
      assert (Hloop : forall sh, loop sh = parse_shape sh path fields)
  end.
  { induction sh as [|[k sk] rest IH]; [reflexivity|].
    simpl. rewrite IH. reflexivity. }
  rewrite Hloop. reflexivity.
Qed.

Lemma parse_shape_agree (shape : list (string * Schema)) path o o' :
  agree_on (map fst shape) o o' ->
  parse_shape shape path o = parse_shape shape path o'.
Proof.
  induction shape as [|[k sk] rest IH]; intros Hagree; [reflexivity|].
  simpl. rewrite IH.
  - rewrite (Hagree k); [reflexivity|]. left. reflexivity.
  - intros k' Hk'. apply Hagree. right. exact Hk'.
Qed.

Lemma parse_shape_keys (shape : list (string * Schema)) path o :
  incl (map fst (snd (parse_shape shape path o))) (map fst shape).
Proof.
  induction shape as [|[k sk] rest IH]; simpl; [apply incl_refl|].
  destruct (parse_shape rest path o) as [issues out]. simpl in IH.
  destruct (zparse sk (path ++ [Key k])%list (lookup_field k o)) as [here|y].
  - simpl. apply incl_tl. exact IH.
  - destruct y; simpl;
      first [ apply incl_tl; exact IH
            | apply incl_cons; [left; reflexivity | apply incl_tl; exact IH] ].
Qed.

Lemma zparse_agree (S : Schema) path o o' :
  (exists shape, S = ZObject shape) ->
  agree_on (declared_keys S) o o' ->
  zparse S path (JObj o') = zparse S path (JObj o).
Proof.
  intros [shape ->] Hagree. rewrite !zparse_object.
  rewrite (parse_shape_agree shape path o o' Hagree). reflexivity.
Qed.


Lemma tool_schema_is_object (t : Tool) (S : Schema) :
  tool_schema t = Some S -> exists shape, S = ZObject shape.
Proof.
  destruct t; simpl; intros Heq; inversion Heq; subst; eexists; reflexivity.
Qed.

(** Argument objects that agree on the keys a case declares get the same
    answer. *)
Lemma handleJSRTool_agree name (t : Tool) (o o' : list (string * JSValue)) config w :
  tool_of_name name = Some t ->
  agree_on (tool_keys t) o o' ->
  handleJSRTool name (JObj o') config w = handleJSRTool name (JObj o) config w.
Proof.
  intros Hname Hagree.
  unfold handleJSRTool, dispatch. rewrite Hname.
  pose proof (tool_schema_is_object t) as Hobj.
  destruct t; cbv beta iota delta [tool_keys tool_schema] in Hagree;
    first
      [ match type of Hagree with
        | agree_on (declared_keys ?S) _ _ =>
            pose proof (zparse_agree S [] o o' (Hobj S eq_refl) Hagree) as Hz;
            unfold run_case, parse; rewrite Hz; reflexivity
        end
      | reflexivity ].
Qed.





End StripFacts.

(** ** The request builders *)

Lemma requests_app (t1 t2 : list Event) :
  requests (t1 ++ t2)%list = (requests t1 ++ requests t2)%list.
Proof. unfold requests. apply flat_map_app. Qed.

Section BuilderFacts.
Context `{Platform}.

Lemma api_headers_falsy_token user_agent config options :
  token_truthy (apiToken config) = false ->
  api_headers user_agent config options
    = api_headers user_agent (without_token config) options.
Proof. intros Ht. unfold api_headers. rewrite Ht. reflexivity. Qed.

Lemma api_headers_no_authorization user_agent config options :
  token_truthy (apiToken config) = false ->
  init_headers options !! "Authorization" = None ->
  api_headers user_agent config options !! "Authorization" = None.
Proof.
  intros Ht Hinit. unfold api_headers. rewrite Ht.
  rewrite lookup_union, Hinit.
  rewrite lookup_insert_ne by discriminate.
  rewrite lookup_insert_ne by discriminate.
  rewrite lookup_empty. reflexivity.
Qed.

Lemma registry_headers_no_authorization user_agent options :
  init_headers options !! "Authorization" = None ->
  registry_headers user_agent options !! "Authorization" = None.
Proof.
  intros Hinit. unfold registry_headers.
  rewrite lookup_union, Hinit.
  rewrite lookup_insert_ne by discriminate.
  rewrite lookup_insert_ne by discriminate.
  rewrite lookup_empty. reflexivity.
Qed.

(** What the embedded builder does with each answer of [fetch]. *)
Lemma embedded_makeApiRequest_run config endpoint options w :
  let req := request_of (apiUrl config +:+ endpoint) options
               (api_headers Embedded.user_agent config options) in
  Embedded.makeApiRequest config endpoint options w =
    match fetch w req with
    | inl e =>
        ([Fetched req],
         Threw (ErrorInstance GenericError
                  ("JSR API request failed: " +:+ error_text e)))
    | inr response =>
        if ok response then
          ([Fetched req; DecodedJson], decoded "JSR API request failed: " response)
        else
          ([Fetched req; ReadText],
           Threw (ErrorInstance GenericError
                    ("JSR API request failed: " +:+
                       match body_text response with
                       | inr errorText =>
                           "JSR API request failed: " +:+ status_string response
                             +:+ " " +:+ statusText response +:+ ": " +:+ errorText
                       | inl e => error_text e
                       end)))
    end.
Proof.
  intros req. unfold Embedded.makeApiRequest, try_catch, bind, do_fetch, of_result.
  fold req. destruct (fetch w req) as [e|response]; [reflexivity|].
  unfold decoded, response_json, response_text, of_result.
  destruct (ok response); simpl.
  - destruct (body_json response); reflexivity.
  - destruct (body_text response); reflexivity.
Qed.

(** What the library builder does with each answer of [fetch]. *)
Lemma library_makeApiRequest_run config endpoint options w :
  let req := request_of (apiUrl config +:+ endpoint) options
               (api_headers Library.user_agent config options) in
  Library.makeApiRequest config endpoint options w =
    match fetch w req with
    | inl e =>
        ([Fetched req],
         Threw (ErrorInstance GenericError
                  ("JSR API request failed: " +:+ error_text e)))
    | inr response =>
        if ok response then
          if (status response =? 204)%Z then
            ((Fetched req :: if has_body response then [CancelledBody] else []),
             Returned JUndefined)
          else
            ([Fetched req; DecodedJson],
             decoded "JSR API request failed: " response)
        else
          ([Fetched req; ReadText],
           Threw (ErrorInstance GenericError
                    ("JSR API request failed: " +:+
                       match body_text response with
                       | inr errorText =>
                           "JSR API request failed: " +:+ status_string response
                             +:+ " " +:+ statusText response +:+ ": " +:+ errorText
                       | inl e => error_text e
                       end)))
    end.
Proof.
  intros req. unfold Library.makeApiRequest, try_catch, bind, do_fetch, of_result.
  fold req. destruct (fetch w req) as [e|response]; [reflexivity|].
  unfold decoded, response_json, response_text, cancel_body, of_result, ret.
  destruct (ok response); simpl.
  - destruct (status response =? 204)%Z; simpl.
    + destruct (has_body response); reflexivity.
    + destruct (body_json response); reflexivity.
  - destruct (body_text response); reflexivity.
Qed.

(** The library builder does what the specification says of a
    management request: on 204 nothing is decoded and the result is
    [undefined]; every other 2xx body is decoded as JSON. *)
Lemma library_makeApiRequest_2xx config endpoint options w response :
  fetch w (request_of (apiUrl config +:+ endpoint) options
             (api_headers Library.user_agent config options)) = inr response ->
  ok response = true ->
  let result := Library.makeApiRequest config endpoint options w in
  (status response = 204%Z ->
     snd result = Returned JUndefined /\ no_decode (fst result)) /\
  (status response <> 204%Z ->
     snd result = decoded "JSR API request failed: " response /\
     existsb is_decode (fst result) = true).
Proof.
  intros Hfetch Hok result. subst result.
  rewrite library_makeApiRequest_run. cbv zeta. rewrite Hfetch, Hok.
  split; intros Hs.
  - rewrite Hs. simpl. split; [reflexivity|].
    unfold no_decode. destruct (has_body response); reflexivity.
  - apply Z.eqb_neq in Hs. rewrite Hs. split; reflexivity.
Qed.

(** Away from status 204 the two builders end alike on every answer. *)
Lemma builders_agree_off_204 config endpoint options (r : Thrown + Response) :
  (forall response, r = inr response -> status response <> 204%Z) ->
  snd (Embedded.makeApiRequest config endpoint options (answering r))
    = snd (Library.makeApiRequest config endpoint options (answering r)).
Proof.
  intros H204.
  rewrite embedded_makeApiRequest_run, library_makeApiRequest_run. cbv zeta.
  simpl fetch. destruct r as [e|response]; [reflexivity|].
  specialize (H204 response eq_refl). apply Z.eqb_neq in H204. rewrite H204.
  destruct (ok response); reflexivity.
Qed.
End BuilderFacts.

(** ** Requests without a token *)

Section TokenFacts.
Context `{Platform}.

Lemma unauthenticated_ret {A} (a : A) : unauthenticated (ret a).
Proof. intros w. constructor. Qed.

Lemma unauthenticated_throw {A} (e : Thrown) : unauthenticated (@throw A e).
Proof. intros w. constructor. Qed.

Lemma unauthenticated_bind {A B} (m : M A) (k : A -> M B) :
  unauthenticated m -> (forall a, unauthenticated (k a)) ->
  unauthenticated (bind m k).
Proof.
  intros Hm Hk w. specialize (Hm w). unfold bind.
  destruct (m w) as [t1 [a|e]]; simpl in *; [|exact Hm].
  specialize (Hk a w). destruct (k a w) as [t2 o]. simpl in *.
  rewrite requests_app. apply Forall_app. split; assumption.
Qed.

Lemma unauthenticated_try_catch {A} (m : M A) (h : Thrown -> M A) :
  unauthenticated m -> (forall e, unauthenticated (h e)) ->
  unauthenticated (try_catch m h).
Proof.
  intros Hm Hh w. specialize (Hm w). unfold try_catch.
  destruct (m w) as [t1 [a|e]]; simpl in *; [exact Hm|].
  specialize (Hh e w). destruct (h e w) as [t2 o]. simpl in *.
  rewrite requests_app. apply Forall_app. split; assumption.
Qed.

Lemma unauthenticated_of_result {A} (ev : Event) (r : Thrown + A) :
  is_fetch ev = false -> unauthenticated (of_result ev r).
Proof.
  intros Hev w. unfold of_result. destruct ev; try discriminate;
    destruct r; simpl; constructor.
Qed.

Lemma unauthenticated_parse (S : Schema) args : unauthenticated (parse S args).
Proof.
  unfold parse. destruct (zparse S [] args);
    [apply unauthenticated_throw | apply unauthenticated_ret].
Qed.

Lemma unauthenticated_member v k : unauthenticated (member v k).
Proof.
  destruct v; simpl;
    first [apply unauthenticated_throw | apply unauthenticated_ret].
Qed.

Lemma unauthenticated_readFile path : unauthenticated (Deno_readFile path).
Proof.
  intros w. unfold Deno_readFile, of_result.
  destruct (readFile w path); simpl; constructor.
Qed.

Lemma unauthenticated_fetch req :
  req_headers req !! "Authorization" = None -> unauthenticated (do_fetch req).
Proof.
  intros Hreq w. unfold do_fetch, of_result.
  destruct (fetch w req); simpl; repeat constructor; exact Hreq.
Qed.

Lemma unauthenticated_cancel r : unauthenticated (cancel_body r).
Proof.
  intros w. unfold cancel_body. destruct (has_body r); simpl; constructor.
Qed.

Ltac quiet_step :=
  first
    [ apply unauthenticated_ret
    | apply unauthenticated_throw
    | apply unauthenticated_parse
    | apply unauthenticated_member
    | apply unauthenticated_readFile
    | apply unauthenticated_cancel
    | apply unauthenticated_of_result; reflexivity
    | apply unauthenticated_try_catch; [|intros ?]
    | apply unauthenticated_bind; [|intros ?] ].

Lemma embedded_client_quiet config :
  token_truthy (apiToken config) = false -> quiet_client embedded_client config.
Proof.
  intros Ht endpoint options Hinit. split; simpl.
  - unfold Embedded.makeApiRequest. cbv zeta.
    apply unauthenticated_try_catch; [|intros ?; quiet_step].
    apply unauthenticated_bind.
    + apply unauthenticated_fetch. simpl.
      apply api_headers_no_authorization; assumption.
    + intros r. destruct (negb (ok r)); unfold response_text, response_json;
        repeat quiet_step.
  - unfold Embedded.makeRegistryRequest. cbv zeta.
    apply unauthenticated_try_catch; [|intros ?; quiet_step].
    apply unauthenticated_bind.
    + apply unauthenticated_fetch. simpl.
      apply registry_headers_no_authorization; assumption.
    + intros r. destruct (negb (ok r)); unfold response_json; repeat quiet_step.
Qed.

Lemma library_client_quiet config :
  token_truthy (apiToken config) = false -> quiet_client library_client config.
Proof.
  intros Ht endpoint options Hinit. split; simpl.
  - unfold Library.makeApiRequest. cbv zeta.
    apply unauthenticated_try_catch; [|intros ?; quiet_step].
    apply unauthenticated_bind.
    + apply unauthenticated_fetch. simpl.
      apply api_headers_no_authorization; assumption.
    + intros r. destruct (negb (ok r)); [|destruct (status r =? 204)%Z];
        unfold response_text, response_json; repeat quiet_step.
  - unfold Library.makeRegistryRequest. cbv zeta.
    apply unauthenticated_try_catch; [|intros ?; quiet_step].
    apply unauthenticated_bind.
    + apply unauthenticated_fetch. simpl.
      apply registry_headers_no_authorization; assumption.
    + intros r. destruct (negb (ok r)); [|destruct (status r =? 204)%Z];
        unfold response_json; repeat quiet_step.
Qed.

Lemma quiet_api c config endpoint options :
  quiet_client c config ->
  init_headers options !! "Authorization" = None ->
  unauthenticated (makeApiRequest c config endpoint options).
Proof. intros Hc Hinit. apply (Hc endpoint options Hinit). Qed.

Lemma quiet_registry c config endpoint options :
  quiet_client c config ->
  init_headers options !! "Authorization" = None ->
  unauthenticated (makeRegistryRequest c config endpoint options).
Proof. intros Hc Hinit. apply (Hc endpoint options Hinit). Qed.

Ltac quiet_request Hc :=
  first [ apply (quiet_api _ _ _ _ Hc); reflexivity
        | apply (quiet_registry _ _ _ _ Hc); reflexivity ].

(** Every case of the dispatcher, over a client whose requests carry no
    [Authorization] header, makes only such requests. *)
Lemma run_case_unauthenticated (t : Tool) args config :
  quiet_client embedded_client config ->
  unauthenticated (run_case t args config).
Proof.
  intros Hc.
  destruct t; unfold run_case; cbv zeta;
    unfold searchPackages, getPackage, getPackageVersion, listPackageVersions,
      getScope, listScopePackages, getPackageMetadata, listPackages,
      getPackageDependents, getPackageScore, getPackageDependencies,
      getCurrentUser, getCurrentUserScopes, getCurrentUserScopeMember,
      getCurrentUserInvites, getUser, getUserScopes, listScopeMembers,
      listScopeInvites, getPublishingTask, getStats, createScope, updateScope,
      deleteScope, addScopeMember, updateScopeMember, removeScopeMember,
      deleteScopeInvite, createPackage, updatePackage, deletePackage,
      createPackageVersion, updatePackageVersion, acceptScopeInvite,
      declineScopeInvite, createAuthorization, getAuthorizationDetails,
      approveAuthorization, denyAuthorization, exchangeAuthorizationCode;
    cbv zeta;
    repeat first [ quiet_request Hc | quiet_step ].
Qed.
End TokenFacts.

Section EmptyToken.
Context `{Platform}.

Lemma handleJSRTool_unauthenticated name args config :
  token_truthy (apiToken config) = false ->
  unauthenticated (handleJSRTool name args config).
Proof.
  intros Ht. unfold handleJSRTool, dispatch.
  apply unauthenticated_try_catch; [|intros e; apply unauthenticated_ret].
  destruct (tool_of_name name) as [t|]; [|apply unauthenticated_throw].
  apply run_case_unauthenticated, embedded_client_quiet, Ht.
Qed.

Lemma handleJSRTool_ignores_empty_token name args config w :
  apiToken config = Some "" ->
  handleJSRTool name args config w
    = handleJSRTool name args (without_token config) w.
Proof.
  destruct config as [api registry token]. simpl. intros ->.
  unfold handleJSRTool, dispatch, without_token. simpl.
  destruct (tool_of_name name) as [t|]; [|reflexivity].
  destruct t; reflexivity.
Qed.

(** C9: with the empty string as token the [if (config.apiToken)] test
    fails, as it does without a token.  Both request builders then run
    exactly as for the configuration without a token, their requests
    carry no [Authorization] header (the operations never pass one in
    their options), and so it is for every operation the dispatcher
    runs. *)
Theorem empty_token_behaves_as_absent (config : JSRConfig) :
  apiToken config = Some "" ->
  (forall endpoint options w,
      Embedded.makeApiRequest config endpoint options w
        = Embedded.makeApiRequest (without_token config) endpoint options w /\
      Library.makeApiRequest config endpoint options w
        = Library.makeApiRequest (without_token config) endpoint options w) /\
  (forall endpoint options,
      init_headers options !! "Authorization" = None ->
      unauthenticated (Embedded.makeApiRequest config endpoint options) /\
      unauthenticated (Library.makeApiRequest config endpoint options)) /\
  (forall name args w,
      handleJSRTool name args config w
        = handleJSRTool name args (without_token config) w /\
      Forall (fun r => req_headers r !! "Authorization" = None)
             (requests (fst (handleJSRTool name args config w)))).
Proof.
  intros Htoken.
  assert (Ht : token_truthy (apiToken config) = false)
    by (rewrite Htoken; reflexivity).
  split; [|split].
  - intros endpoint options w.
    unfold Embedded.makeApiRequest, Library.makeApiRequest.
    rewrite !(api_headers_falsy_token _ config options Ht).
    split; reflexivity.
  - intros endpoint options Hinit. split.
    + apply (embedded_client_quiet config Ht endpoint options Hinit).
    + apply (library_client_quiet config Ht endpoint options Hinit).
  - intros name args w. split.
    + apply handleJSRTool_ignores_empty_token, Htoken.
    + apply handleJSRTool_unauthenticated, Ht.
Qed.
End EmptyToken.

Lemma empty_token_behaves_as_absent_witness :
  let config := createJSRConfig "https://api.jsr.io/" "https://jsr.io/" (Some "") in
  let w := answering (inr (ok_response (JObj [("scope", JStr "std")]))) in
  @handleJSRTool demo_platform "jsr_get_scope" (JObj [("scope", JStr "std")]) config w
    = @handleJSRTool demo_platform "jsr_get_scope" (JObj [("scope", JStr "std")])
        (without_token config) w /\
  Forall (fun r => req_headers r !! "Authorization" = None)
         (requests (fst (@handleJSRTool demo_platform "jsr_get_scope"
                           (JObj [("scope", JStr "std")]) config w))).
Proof.
  intros config w.
  destruct (@empty_token_behaves_as_absent demo_platform config eq_refl)
    as (_ & _ & Hdispatch).
  exact (Hdispatch "jsr_get_scope" (JObj [("scope", JStr "std")]) w).
Defined.

(** ** Status 204 *)

(** C6: the embedded builder (src/clients/jsr.ts) has no branch for 204.
    On a [204 No Content] answer to [DELETE /scopes/std] it decodes the
    empty body and fails, where the library builder decodes nothing and
    returns [undefined]; the dispatcher then reports the deletion as
    failed. *)
Theorem embedded_makeApiRequest_decodes_no_content :
  let config := createJSRConfig "https://api.jsr.io/" "https://jsr.io/" (Some "tok") in
  let w := answering (inr no_content_response) in
  let embedded :=
    @Embedded.makeApiRequest demo_platform config "/scopes/std"
      (with_method "DELETE") w in
  let library :=
    @Library.makeApiRequest demo_platform config "/scopes/std"
      (with_method "DELETE") w in
  existsb is_decode (fst embedded) = true /\
  snd embedded
    = Threw (ErrorInstance GenericError
               "JSR API request failed: Unexpected end of JSON input") /\
  existsb is_decode (fst library) = false /\
  snd library = Returned JUndefined /\
  snd (@handleJSRTool demo_platform "jsr_delete_scope"
         (JObj [("scope", JStr "std")]) config w)
    = Returned
        {| content :=
             [text_part
                (Lit "Error: JSR API request failed: Unexpected end of JSON input")];
           isError := Some true |}.
Proof. vm_compute. repeat split; reflexivity. Qed.

(** C8: the two request builders are not equivalent.  On the same
    configuration, endpoint, options and [204 No Content] answer the
    library succeeds with [undefined] and the embedded one fails. *)
Theorem builders_differ_on_no_content :
  let config := createJSRConfig "https://api.jsr.io/" "https://jsr.io/" None in
  let w := answering (inr no_content_response) in
  snd (@Library.makeApiRequest demo_platform config "/user/invites/std"
         (with_method "DELETE") w) = Returned JUndefined /\
  snd (@Embedded.makeApiRequest demo_platform config "/user/invites/std"
         (with_method "DELETE") w)
    = Threw (ErrorInstance GenericError
               "JSR API request failed: Unexpected end of JSON input") /\
  snd (@Embedded.makeApiRequest demo_platform config "/user/invites/std"
         (with_method "DELETE") w)
    <> snd (@Library.makeApiRequest demo_platform config "/user/invites/std"
              (with_method "DELETE") w).
Proof. vm_compute. repeat split; try reflexivity. discriminate. Qed.

(** ** Uploading a version *)

Section UploadFacts.
Context `{Platform}.

(** Through the dispatcher, an unreadable tarball is a failure of the
    read, raised after validation and before any request. *)
Lemma handleJSRTool_unreadable_tarball args parsed config w error :
  zparse CreatePackageVersionSchema [] args = inr parsed ->
  readFile w (as_string (prop parsed "tarballPath")) = inl error ->
  dispatch "jsr_create_package_version" args config w
    = ([ReadFile (as_string (prop parsed "tarballPath"))], Threw error) /\
  handleJSRTool "jsr_create_package_version" args config w
    = ([ReadFile (as_string (prop parsed "tarballPath"))],
       Returned
         {| content := [text_part (Lit ("Error: " +:+ error_text error))];
            isError := Some true |}) /\
  requests (fst (handleJSRTool "jsr_create_package_version" args config w)) = [].
Proof.
  intros Hz Hread.
  assert (Hd : dispatch "jsr_create_package_version" args config w
               = ([ReadFile (as_string (prop parsed "tarballPath"))], Threw error)).
  { unfold dispatch.
    change (tool_of_name "jsr_create_package_version")
      with (Some jsr_create_package_version).
    cbv beta iota delta [run_case].
    unfold bind, parse. rewrite Hz. unfold ret at 1. cbv beta iota.
    unfold Deno_readFile, of_result. rewrite Hread. reflexivity. }
  split; [exact Hd|].
  unfold handleJSRTool. rewrite (try_catch_threw _ _ w _ _ Hd).
  split; reflexivity.
Qed.

(** The schema looks at the path as a string only. *)
Lemma CreatePackageVersionSchema_accepts_any_path (path : string) :
  zparse CreatePackageVersionSchema []
    (JObj [("scope", JStr "std"); ("name", JStr "fs"); ("version", JStr "1.0.0");
           ("configPath", JStr "/deno.json"); ("tarballPath", JStr path)])
    = inr (JObj [("scope", JStr "std"); ("name", JStr "fs");
                 ("version", JStr "1.0.0"); ("configPath", JStr "/deno.json");
                 ("tarballPath", JStr path)]).
Proof. reflexivity. Qed.
End UploadFacts.

(** C2: the packaged server (packages/jsr-mcp/src/index.ts) forwards a
    scope that does not match the name pattern.  Its shape for
    [jsr_get_package] declares the scope as a plain string, so the scope
    ["Std"] passes validation and the handler asks the service for
    [/scopes/Std/packages/fs]; the dispatcher, whose schema has the
    pattern, answers the same arguments with the error envelope and makes
    no request. *)
Theorem inline_handler_forwards_invalid_scope :
  let config := createJSRConfig "https://api.jsr.io/" "https://jsr.io/" None in
  let w := answering (inr (ok_response (JObj [("scope", JStr "Std")]))) in
  let args := JObj [("scope", JStr "Std"); ("name", JStr "fs")] in
  name_pattern "Std" = false /\
  @zparse demo_platform McpServer.GetPackageSchema [] args = inr args /\
  map req_url
      (requests (fst (@McpServer.tool_jsr_get_package demo_platform config args w)))
    = ["https://api.jsr.io/scopes/Std/packages/fs"] /\
  snd (@McpServer.tool_jsr_get_package demo_platform config args w)
    = Returned (success (JSONStringify (JObj [("scope", JStr "Std")]))) /\
  @handleJSRTool demo_platform "jsr_get_package" args config w
    = ([],
       Returned
         {| content :=
              [text_part
                 (Lit ("Error: " +:+
                    @zod_message demo_platform
                      [InvalidString "regex" (Some "Invalid scope name format")
                         [Key "scope"]]))];
            isError := Some true |}).
Proof. vm_compute. repeat split; reflexivity. Qed.

(** C7: the inline handler of the packaged server
    (packages/jsr-mcp/src/index.ts) answers an unreadable tarball with the
    text of the read failure and no request, but its envelope has no
    [isError] flag; the dispatcher's envelope for the same call has
    [isError = true]. *)
Theorem inline_handler_omits_isError :
  let config := createJSRConfig "https://api.jsr.io/" "https://jsr.io/" (Some "tok") in
  let w := answering (inr (ok_response JNull)) in
  let args := JObj [("scope", JStr "std"); ("name", JStr "fs");
                    ("version", JStr "1.0.0"); ("configPath", JStr "/deno.json");
                    ("tarballPath", JStr "/missing.tgz")] in
  @McpServer.tool_jsr_create_package_version demo_platform config args w
    = ([ReadFile "/missing.tgz"],
       Returned {| content := [text_part (Lit "Error: No such file or directory")];
                   isError := None |}) /\
  @handleJSRTool demo_platform "jsr_create_package_version" args config w
    = ([ReadFile "/missing.tgz"],
       Returned {| content := [text_part (Lit "Error: No such file or directory")];
                   isError := Some true |}).
Proof. vm_compute. split; reflexivity. Qed.

(** ** From a skip count to a page number *)




(** ** Paginated responses *)

(** *** The sign of a computed skip

    The operations on doubles are specified on their decoded form, a
    sign, a mantissa and an exponent; a difference or a product is
    rounded from an exact integer mantissa, and rounding keeps the
    sign. *)

Section SkipSign.
Open Scope float_scope.

Lemma leb_zero_at_least_zero (x : float) :
  (0 <=? x) = at_least_zero (Prim2SF x).
Proof.
  rewrite FloatAxioms.leb_spec. change (Prim2SF 0) with (S754_zero false).
  destruct (Prim2SF x) as [s|s| |s m e]; try destruct s; reflexivity.
Qed.

Lemma shr_1_nonneg mrs : (0 <= shr_m mrs)%Z -> (0 <= shr_m (shr_1 mrs))%Z.
Proof.
  destruct mrs as [m r s]. cbn [shr_m]. intros Hm.
  destruct m as [|[q|q|]|q]; cbn; lia.
Qed.

Lemma iter_shr_1_nonneg (n : positive) mrs :
  (0 <= shr_m mrs)%Z -> (0 <= shr_m (@SpecFloat.iter_pos _ shr_1 n mrs))%Z.
Proof.
  revert mrs. induction n as [n IH|n IH|]; intros mrs Hm; cbn [SpecFloat.iter_pos].
  - apply IH, IH, shr_1_nonneg, Hm.
  - apply IH, IH, Hm.
  - apply shr_1_nonneg, Hm.
Qed.

Lemma shr_fexp_nonneg m e l :
  (0 <= m)%Z -> (0 <= shr_m (fst (shr_fexp prec emax m e l)))%Z.
Proof.
  intros Hm. unfold shr_fexp, shr.
  assert (Hstart : (0 <= shr_m (shr_record_of_loc m l))%Z).
  { destruct l as [|[| |]]; exact Hm. }
  destruct (_ - e)%Z; cbn [fst]; [exact Hstart| |exact Hstart].
  apply iter_shr_1_nonneg, Hstart.
Qed.

Lemma binary_round_aux_at_least_zero mx ex lx :
  (0 <= mx)%Z -> at_least_zero (binary_round_aux prec emax false mx ex lx) = true.
Proof.
  intros Hm. unfold binary_round_aux.
  pose proof (shr_fexp_nonneg mx ex lx Hm) as Hfirst.
  destruct (shr_fexp prec emax mx ex lx) as [mrs' e']. cbn [fst] in Hfirst.
  assert (Hround :
    (0 <= round_nearest_even (shr_m mrs') (loc_of_shr_record mrs'))%Z).
  { unfold round_nearest_even.
    destruct (loc_of_shr_record mrs') as [|[| |]]; try exact Hfirst.
    - destruct (Z.even (shr_m mrs')); change IntDef.Z.add with Z.add; lia.
    - change IntDef.Z.add with Z.add. lia. }
  pose proof (shr_fexp_nonneg _ e' loc_Exact Hround) as Hsecond.
  destruct (shr_fexp prec emax _ e' loc_Exact) as [mrs'' e'']. cbn [fst] in Hsecond.
  destruct (shr_m mrs''); [reflexivity| |lia].
  destruct (e'' <=? emax - prec)%Z; reflexivity.
Qed.

Lemma digits2_pos_lower (m : positive) :
  (2 ^ (Zpos (digits2_pos m) - 1) <= Zpos m)%Z.
Proof.
  induction m as [m IH|m IH|]; cbn [digits2_pos]; [| |reflexivity].
  - rewrite Pos2Z.inj_succ.
    replace (Z.succ (Zpos (digits2_pos m)) - 1)%Z
      with (Z.succ (Zpos (digits2_pos m) - 1))%Z by lia.
    rewrite Z.pow_succ_r by lia. lia.
  - rewrite Pos2Z.inj_succ.
    replace (Z.succ (Zpos (digits2_pos m)) - 1)%Z
      with (Z.succ (Zpos (digits2_pos m) - 1))%Z by lia.
    rewrite Z.pow_succ_r by lia. lia.
Qed.

Lemma iter_xO (m d : positive) : Zpos (Pos.iter xO m d) = (Zpos m * 2 ^ Zpos d)%Z.
Proof.
  revert m. induction d as [| d IH] using Pos.peano_ind; intros m.
  - cbn [Pos.iter]. rewrite Pos2Z.inj_xO. lia.
  - rewrite Pos.iter_succ, Pos2Z.inj_xO, IH, Pos2Z.inj_succ, Z.pow_succ_r by lia. lia.
Qed.

(** One less than a double that is at least 1 is at least zero. *)
Lemma sub_one_at_least_zero (p : float) :
  (1 <=? p) = true -> at_least_zero (Prim2SF (p - 1)) = true.
Proof.
  rewrite FloatAxioms.leb_spec, FloatAxioms.sub_spec. pose proof (FloatAxioms.Prim2SF_valid p) as Hvalid.
  change (Prim2SF 1) with (S754_finite false 4503599627370496 (-52)).
  destruct (Prim2SF p) as [s|s| |s m e]; try destruct s; try discriminate;
    try reflexivity.
  unfold SFleb, SFcompare. intros Hle.
  assert (Hm : (-52 <= e)%Z /\ (2 ^ 52 <= Zpos m * 2 ^ (e + 52))%Z).
  { cbn [valid_binary] in Hvalid. unfold bounded, canonical_mantissa in Hvalid.
    apply andb_true_iff in Hvalid as [Hcanon _].
    apply Z.eqb_eq in Hcanon. unfold fexp, SpecFloat.emin in Hcanon.
    change prec with 53%Z in Hcanon. change emax with 1024%Z in Hcanon.
    pose proof (digits2_pos_lower m) as Hlow.
    change IntDef.Z.compare with Z.compare in Hle.
    destruct (Z.compare_spec (-52) e) as [Heq|Hlt|Hgt]; [| |discriminate Hle].
    - subst e. split; [lia|]. change (-52 + 52)%Z with 0%Z.
      rewrite Z.pow_0_r, Z.mul_1_r.
      change PosDef.Pos.compare_cont with Pos.compare_cont in Hle.
      rewrite Pos.compare_cont_spec in Hle. cbn [Pos.switch_Eq] in Hle.
      change (2 ^ 52)%Z with (Zpos 4503599627370496).
      destruct (Pos.compare_spec 4503599627370496 m) as [Heq|Hlt|Hgt];
        [lia|lia|discriminate Hle].
    - split; [lia|].
      assert (Hd : Zpos (digits2_pos m) = 53%Z).
      { revert Hcanon. change IntDef.Z.max with Z.max.
        change IntDef.Z.add with Z.add. change IntDef.Z.sub with Z.sub. lia. }
      rewrite Hd in Hlow. change (53 - 1)%Z with 52%Z in Hlow.
      assert (0 < 2 ^ (e + 52))%Z by (apply Z.pow_pos_nonneg; lia).
      nia. }
  destruct Hm as [He Hm].
  unfold SF64sub, SFsub.
  change IntDef.Z.min with Z.min. rewrite Z.min_r by lia.
  assert (Hshift : Zpos (fst (shl_align m e (-52))) = (Zpos m * 2 ^ (e + 52))%Z).
  { unfold shl_align. change IntDef.Z.sub with Z.sub.
    destruct (-52 - e)%Z as [|d|d] eqn:Hdiff; cbn [fst]; try lia.
    - replace (e + 52)%Z with 0%Z by lia. lia.
    - rewrite iter_xO. replace (e + 52)%Z with (Zpos d) by lia. reflexivity. }
  rewrite Hshift.
  change (fst (shl_align 4503599627370496 (-52) (-52)))
    with 4503599627370496%positive.
  cbn [cond_Zopp]. change IntDef.Z.sub with Z.sub.
  change (2 ^ 52)%Z with 4503599627370496%Z in Hm.
  destruct (Zpos m * 2 ^ (e + 52) - 4503599627370496)%Z as [|z|z] eqn:Hz;
    [reflexivity| |lia].
  cbn [binary_normalize]. unfold binary_round.
  destruct (shl_align z (-52) _) as [mz ez].
  apply binary_round_aux_at_least_zero. lia.
Qed.


Lemma num_or_positive_finite (limit : option number) :
  match limit with
  | Some l => (0 <=? l) = true /\ (l <? infinity) = true
  | None => True
  end ->
  positive_finite (Prim2SF (num_or limit 20)) = true.
Proof.
  unfold num_or. destruct limit as [l|]; [|reflexivity].
  intros [Hlow Hhigh].
  destruct (num_truthy l) eqn:Htruthy; [|reflexivity].
  unfold num_truthy in Htruthy. apply andb_true_iff in Htruthy as [Hzero _].
  rewrite leb_zero_at_least_zero in Hlow.
  rewrite FloatAxioms.eqb_spec in Hzero. rewrite FloatAxioms.ltb_spec in Hhigh.
  change (Prim2SF 0) with (S754_zero false) in Hzero.
  change (Prim2SF infinity) with (S754_infinity false) in Hhigh.
  destruct (Prim2SF l) as [s|s| |s m e]; try destruct s; try discriminate;
    reflexivity.
Qed.

Lemma SFmul_at_least_zero x y :
  at_least_zero x = true -> positive_finite y = true ->
  at_least_zero (SFmul prec emax x y) = true.
Proof.
  destruct x as [sx|sx| |sx mx ex], y as [sy|sy| |sy my ey];
    try destruct sx; try destruct sy; try discriminate; try reflexivity.
  intros _ _. apply binary_round_aux_at_least_zero. cbn [xorb]. lia.
Qed.

Lemma page_offset_at_least_zero (page limit : option number) :
  match page with Some p => (1 <=? p) = true | None => True end ->
  match limit with
  | Some l => (0 <=? l) = true /\ (l <? infinity) = true
  | None => True
  end ->
  (0 <=? page_offset page limit) = true.
Proof.
  intros Hpage Hlimit. unfold page_offset.
  destruct page as [p|]; [|reflexivity].
  destruct (num_truthy p); [|reflexivity].
  rewrite leb_zero_at_least_zero, FloatAxioms.mul_spec.
  apply SFmul_at_least_zero.
  - apply sub_one_at_least_zero, Hpage.
  - apply num_or_positive_finite, Hlimit.
Qed.
End SkipSign.

Section PaginationFacts.
Context `{Platform}.
Variable jsrClient : Client.

Lemma listPackageVersions_of_array config scope name limit page w items :
  (forall endpoint,
      snd (makeApiRequest jsrClient config endpoint no_options w)
        = Returned (JArr items)) ->
  snd (listPackageVersions jsrClient config scope name limit page w)
    = Returned {| data := JArr items;
                  total := JNum (Z2float (Z.of_nat (List.length items)));
                  returned := JNum (Z2float (Z.of_nat (List.length items)));
                  skip := page_offset page limit;
                  limit := limit |}.
Proof.
  intros Hreq. unfold listPackageVersions. cbv zeta. unfold bind at 1.
  match goal with
  | |- context [makeApiRequest jsrClient config ?e no_options w] =>
      specialize (Hreq e);
      destruct (makeApiRequest jsrClient config e no_options w) as [t o]
  end.
  simpl in Hreq. subst o. reflexivity.
Qed.

Lemma listScopePackages_of_object config scope limit skip w fields items :
  (forall endpoint,
      snd (makeApiRequest jsrClient config endpoint no_options w)
        = Returned (JObj fields)) ->
  lookup_field "items" fields = JArr items ->
  snd (listScopePackages jsrClient config scope limit skip w)
    = Returned {| data := JArr items;
                  total := lookup_field "total" fields;
                  returned := JNum (Z2float (Z.of_nat (List.length items)));
                  skip := num_or skip 0;
                  limit := limit |}.
Proof.
  intros Hreq Hitems. unfold listScopePackages. cbv zeta. unfold bind at 1.
  match goal with
  | |- context [makeApiRequest jsrClient config ?e no_options w] =>
      specialize (Hreq e);
      destruct (makeApiRequest jsrClient config e no_options w) as [t o]
  end.
  simpl in Hreq. subst o. unfold bind, member, ret. rewrite Hitems. reflexivity.
Qed.

Lemma getPackageDependents_of_object config scope name limit page vpp w
    fields items :
  (forall endpoint,
      snd (makeApiRequest jsrClient config endpoint no_options w)
        = Returned (JObj fields)) ->
  lookup_field "items" fields = JArr items ->
  snd (getPackageDependents jsrClient config scope name limit page vpp w)
    = Returned {| data := JArr items;
                  total := lookup_field "total" fields;
                  returned := JNum (Z2float (Z.of_nat (List.length items)));
                  skip := page_offset page limit;
                  limit := limit |}.
Proof.
  intros Hreq Hitems. unfold getPackageDependents. cbv zeta. unfold bind at 1.
  match goal with
  | |- context [makeApiRequest jsrClient config ?e no_options w] =>
      specialize (Hreq e);
      destruct (makeApiRequest jsrClient config e no_options w) as [t o]
  end.
  simpl in Hreq. subst o. unfold bind, member, ret. rewrite Hitems. reflexivity.
Qed.

(** C4 (amended): when the server answers with an array of items (for
    [listPackageVersions], the array itself; for [listScopePackages] and
    [getPackageDependents], the [items] of an object), then, whatever the
    limit, page and skip arguments, the paginated response holds that
    array as data and its length as [returned]; [total] is the [total]
    field of the server's object, as it is, for [listScopePackages] and
    [getPackageDependents], and the returned count for
    [listPackageVersions]; [skip] is [(page - 1) * limit], in the
    arithmetic of doubles and with 20 in place of a limit that is absent,
    0 or [NaN], for a page that is neither absent, 0 nor [NaN], and 0
    otherwise; for [listScopePackages] it is the skip argument, or 0 when
    that is absent, 0 or [NaN].  So the skip is at least 0 when the page
    is absent or at least 1 and the limit is absent or a finite number
    that is at least 0 and, for [listScopePackages], when the skip
    argument is absent or at least 0. *)
Theorem paginated_response_shape (config : JSRConfig) (scope name : string)
    (limit page skip vpp : option number) (w : World)
    (response : JSValue) (items : list JSValue) :
  (forall endpoint,
      snd (makeApiRequest jsrClient config endpoint no_options w)
        = Returned response) ->
  let count := JNum (Z2float (Z.of_nat (List.length items))) in
  let offset :=
    match page with
    | Some p => if num_truthy p then ((p - 1) * num_or limit 20)%float else 0%float
    | None => 0%float
    end in
  let echoed :=
    match skip with
    | Some s => if num_truthy s then s else 0%float
    | None => 0%float
    end in
  (response = JArr items ->
     snd (listPackageVersions jsrClient config scope name limit page w)
       = Returned {| data := JArr items; total := count; returned := count;
                     skip := offset; limit := limit |}) /\
  (forall fields,
      response = JObj fields -> lookup_field "items" fields = JArr items ->
      snd (listScopePackages jsrClient config scope limit skip w)
        = Returned {| data := JArr items; total := lookup_field "total" fields;
                      returned := count; skip := echoed; limit := limit |} /\
      snd (getPackageDependents jsrClient config scope name limit page vpp w)
        = Returned {| data := JArr items; total := lookup_field "total" fields;
                      returned := count; skip := offset; limit := limit |}) /\
  (match page with Some p => (1 <=? p)%float = true | None => True end ->
   match limit with
   | Some l => (0 <=? l)%float = true /\ (l <? infinity)%float = true
   | None => True
   end ->
   (0 <=? offset)%float = true) /\
  (match skip with Some s => (0 <=? s)%float = true | None => True end ->
   (0 <=? echoed)%float = true).
Proof.
  intros Hreq. cbv zeta. split; [|split; [|split]].
  - intros ->. apply listPackageVersions_of_array. exact Hreq.
  - intros fields -> Hitems. split.
    + apply listScopePackages_of_object; assumption.
    + apply getPackageDependents_of_object; assumption.
  - exact (page_offset_at_least_zero page limit).
  - destruct skip as [s|]; [|reflexivity].
    destruct (num_truthy s); [intros Hs; exact Hs|reflexivity].
Qed.
End PaginationFacts.

(** C4, as the claim states it, fails: page -1 gives a skip of -40, also
    through the dispatcher, whose schema for this operation puts no bound
    on the page, and page 0.5 a skip of -10; and when the server's object
    has no [total], the total is [undefined], not the returned count. *)
Lemma paginated_skip_can_be_negative :
  let config := createJSRConfig "https://api.jsr.io/" "https://jsr.io/" None in
  let versions := answering (inr (ok_response (JArr [JStr "1.0.0"]))) in
  let packages := answering (inr (ok_response (JObj [("items", JArr [])]))) in
  snd (@listPackageVersions demo_platform (@embedded_client demo_platform) config "std" "fs"
         None (Some (-1)%float) versions)
    = Returned {| data := JArr [JStr "1.0.0"];
                  total := JNum 1;
                  returned := JNum 1;
                  skip := (-40)%float;
                  limit := None |} /\
  ((-40) <? 0)%float = true /\
  snd (@handleJSRTool demo_platform "jsr_list_package_versions"
         (JObj [("scope", JStr "std"); ("name", JStr "fs");
                ("page", JNum (-1))]) config versions)
    = Returned
        (success
           (JSONStringify
              (JObj [("data", JArr [JStr "1.0.0"]); ("total", JNum 1);
                     ("returned", JNum 1); ("skip", JNum (-40));
                     ("limit", JUndefined)]))) /\
  snd (@listPackageVersions demo_platform (@embedded_client demo_platform) config "std" "fs"
         None (Some 0x1p-1%float) versions)
    = Returned {| data := JArr [JStr "1.0.0"];
                  total := JNum 1;
                  returned := JNum 1;
                  skip := (-10)%float;
                  limit := None |} /\
  snd (@listScopePackages demo_platform (@embedded_client demo_platform) config "std" None None
         packages)
    = Returned {| data := JArr [];
                  total := JUndefined;
                  returned := JNum 0;
                  skip := 0%float;
                  limit := None |}.
Proof. vm_compute. repeat split; reflexivity. Qed.

Lemma paginated_response_shape_witness :
  let config := createJSRConfig "https://api.jsr.io/" "https://jsr.io/" None in
  let fields := [("items", JArr [JStr "fs"; JStr "path"]); ("total", JNum 7)] in
  let w := answering (inr (ok_response (JObj fields))) in
  snd (@listScopePackages demo_platform (@embedded_client demo_platform) config "std"
         (Some 2%float) (Some 4%float) w)
    = Returned {| data := JArr [JStr "fs"; JStr "path"];
                  total := JNum 7;
                  returned := JNum 2;
                  skip := 4%float;
                  limit := Some 2%float |} /\
  snd (@getPackageDependents demo_platform (@embedded_client demo_platform) config "std"
         "fs" (Some 2%float) (Some 3%float) None w)
    = Returned {| data := JArr [JStr "fs"; JStr "path"];
                  total := JNum 7;
                  returned := JNum 2;
                  skip := 4%float;
                  limit := Some 2%float |}.
Proof.
  intros config fields w.
  destruct (@paginated_response_shape demo_platform (@embedded_client demo_platform) config
              "std" "fs" (Some 2%float) (Some 3%float) (Some 4%float) None w
              (JObj fields) [JStr "fs"; JStr "path"])
    as (_ & Hobject & _).
  - intros endpoint. reflexivity.
  - exact (Hobject fields eq_refl eq_refl).
Defined.

(** * More properties of the code *)

(** ** Requests of a computation *)

Lemma every_request_ret {A} (P : Request -> Prop) (a : A) : every_request P (ret a).
Proof. intros w. constructor. Qed.

Lemma every_request_throw {A} (P : Request -> Prop) (e : Thrown) :
  every_request P (@throw A e).
Proof. intros w. constructor. Qed.

Lemma every_request_bind {A B} (P : Request -> Prop) (m : M A) (k : A -> M B) :
  every_request P m -> (forall a, every_request P (k a)) ->
  every_request P (bind m k).
Proof.
  intros Hm Hk w. specialize (Hm w). unfold bind.
  destruct (m w) as [t1 [a|e]]; simpl in *; [|exact Hm].
  specialize (Hk a w). destruct (k a w) as [t2 o]. simpl in *.
  rewrite requests_app. apply Forall_app. split; assumption.
Qed.

Lemma every_request_try_catch {A} (P : Request -> Prop) (m : M A)
    (h : Thrown -> M A) :
  every_request P m -> (forall e, every_request P (h e)) ->
  every_request P (try_catch m h).
Proof.
  intros Hm Hh w. specialize (Hm w). unfold try_catch.
  destruct (m w) as [t1 [a|e]]; simpl in *; [exact Hm|].
  specialize (Hh e w). destruct (h e w) as [t2 o]. simpl in *.
  rewrite requests_app. apply Forall_app. split; assumption.
Qed.

Lemma every_request_of_result {A} (P : Request -> Prop) (ev : Event)
    (r : Thrown + A) :
  is_fetch ev = false -> every_request P (of_result ev r).
Proof.
  intros Hev w. unfold of_result.
  destruct ev; try discriminate; destruct r; simpl; constructor.
Qed.

Lemma every_request_fetch (P : Request -> Prop) (req : Request) :
  P req -> every_request P (do_fetch req).
Proof.
  intros Hreq w. unfold do_fetch, of_result.
  destruct (fetch w req); simpl; repeat constructor; exact Hreq.
Qed.

Lemma every_request_readFile (P : Request -> Prop) path :
  every_request P (Deno_readFile path).
Proof.
  intros w. unfold Deno_readFile, of_result.
  destruct (readFile w path); simpl; constructor.
Qed.

Lemma every_request_member (P : Request -> Prop) v k : every_request P (member v k).
Proof.
  destruct v; simpl; first [apply every_request_throw | apply every_request_ret].
Qed.

Lemma every_request_cancel (P : Request -> Prop) r : every_request P (cancel_body r).
Proof. intros w. unfold cancel_body. destruct (has_body r); simpl; constructor. Qed.

Section RequestFacts.
Context `{Platform}.
Variable P : Request -> Prop.

Lemma every_request_parse (schema : Schema) args : every_request P (parse schema args).
Proof.
  unfold parse. destruct (zparse schema [] args);
    [apply every_request_throw | apply every_request_ret].
Qed.

Lemma every_request_embedded_api config endpoint options :
  P (request_of (apiUrl config +:+ endpoint) options
       (api_headers Embedded.user_agent config options)) ->
  every_request P (makeApiRequest embedded_client config endpoint options).
Proof.
  intros Hreq. simpl. unfold Embedded.makeApiRequest. cbv zeta.
  apply every_request_try_catch; [|intros e; apply every_request_throw].
  apply every_request_bind; [apply every_request_fetch, Hreq|].
  intros r. destruct (negb (ok r)).
  - apply every_request_bind;
      [apply every_request_of_result; reflexivity
      |intros; apply every_request_throw].
  - apply every_request_of_result. reflexivity.
Qed.

Lemma every_request_embedded_registry config endpoint options :
  P (request_of (registryUrl config +:+ endpoint) options
       (registry_headers Embedded.user_agent options)) ->
  every_request P (makeRegistryRequest embedded_client config endpoint options).
Proof.
  intros Hreq. simpl. unfold Embedded.makeRegistryRequest. cbv zeta.
  apply every_request_try_catch; [|intros e; apply every_request_throw].
  apply every_request_bind; [apply every_request_fetch, Hreq|].
  intros r. destruct (negb (ok r)).
  - apply every_request_throw.
  - apply every_request_of_result. reflexivity.
Qed.

(** From the cases to the dispatcher. *)
Lemma every_request_handleJSRTool name args config :
  (forall t, tool_of_name name = Some t -> every_request P (run_case t args config)) ->
  every_request P (handleJSRTool name args config).
Proof.
  intros Hcase. unfold handleJSRTool, dispatch.
  apply every_request_try_catch; [|intros e; apply every_request_ret].
  destruct (tool_of_name name) as [t|]; [|apply every_request_throw].
  apply Hcase. reflexivity.
Qed.
End RequestFacts.

Ltac unfold_operations :=
  unfold run_case; cbv zeta;
  unfold searchPackages, getPackage, getPackageVersion, listPackageVersions,
    getScope, listScopePackages, getPackageMetadata, listPackages,
    getPackageDependents, getPackageScore, getPackageDependencies,
    getCurrentUser, getCurrentUserScopes, getCurrentUserScopeMember,
    getCurrentUserInvites, getUser, getUserScopes, listScopeMembers,
    listScopeInvites, getPublishingTask, getStats, createScope, updateScope,
    deleteScope, addScopeMember, updateScopeMember, removeScopeMember,
    deleteScopeInvite, createPackage, updatePackage, deletePackage,
    createPackageVersion, updatePackageVersion, acceptScopeInvite,
    declineScopeInvite, createAuthorization, getAuthorizationDetails,
    approveAuthorization, denyAuthorization, exchangeAuthorizationCode;
  cbv zeta.

(** One step through a case: what is left are the requests themselves. *)
Ltac every_request_step :=
  first
    [ apply every_request_ret
    | apply every_request_throw
    | apply every_request_parse
    | apply every_request_member
    | apply every_request_readFile
    | apply every_request_embedded_api
    | apply every_request_embedded_registry
    | apply every_request_bind; [|intros ?] ].

Lemma find_case_In name labels t :
  find_case name labels = Some t -> In (name, t) labels.
Proof.
  induction labels as [|[label t'] rest IH]; simpl; [discriminate|].
  destruct (String.eqb_spec name label) as [->|Hne].
  - intros Heq. inversion Heq. left. reflexivity.
  - intros Heq. right. apply IH, Heq.
Qed.

Lemma find_case_names name labels :
  find_case name labels <> None <-> In name (map fst labels).
Proof.
  induction labels as [|[label t'] rest IH]; simpl.
  - split; [congruence|intros []].
  - destruct (String.eqb_spec name label) as [->|Hne].
    + split; [intros _; left; reflexivity|discriminate].
    + rewrite IH. split; [intros Hin; right; exact Hin|].
      intros [Heq|Hin]; [congruence|exact Hin].
Qed.

(** The case a name selects, name by name. *)
Ltac by_case_label Ht tac :=
  apply find_case_In in Ht; simpl in Ht;
  repeat (destruct Ht as [Ht|Ht]; [inversion Ht; subst; clear Ht; tac|]);
  try contradiction.

(** ** Where the dispatcher's requests go *)

Section Destinations.
Context `{Platform}.

(** X1: the dispatcher only ever calls the two configured services.  Every
    request of [jsr_get_package_metadata] goes to a path under ["/@"] of
    the registry URL, and every request of any other tool to a path of the
    management API URL. *)
Theorem requests_stay_on_configured_hosts name args config :
  every_request
    (fun r =>
       if String.eqb name "jsr_get_package_metadata"
       then exists rest, req_url r = registryUrl config +:+ "/@" +:+ rest
       else exists rest, req_url r = apiUrl config +:+ "/" +:+ rest)
    (handleJSRTool name args config).
Proof.
  apply every_request_handleJSRTool. intros t Ht. unfold tool_of_name in Ht.
  by_case_label Ht
    ltac:(unfold_operations; repeat every_request_step; eexists; reflexivity).
Qed.

(** X2: the tools named [jsr_get_...], [jsr_list_...] and
    [jsr_search_...] only read: each request they make has no method (a
    GET) and no body. *)
Theorem read_tools_only_get name args config :
  is_read_name name = true ->
  every_request (fun r => req_method r = None /\ req_body r = NoBody)
    (handleJSRTool name args config).
Proof.
  intros Hread. apply every_request_handleJSRTool. intros t Ht.
  unfold tool_of_name in Ht.
  by_case_label Ht
    ltac:(first
            [ discriminate Hread
            | unfold_operations; repeat every_request_step; split; reflexivity ]).
Qed.

Lemma api_headers_bearer user_agent config options token :
  apiToken config = Some token -> non_empty token = true ->
  api_headers user_agent config options !! "Authorization"
    = Some ("Bearer " +:+ token).
Proof.
  intros Htoken Hne. unfold api_headers. rewrite Htoken. simpl. rewrite Hne.
  apply lookup_insert_eq.
Qed.

(** X3: with a token that is not empty, every request to the management
    API carries [Authorization: Bearer <token>], whatever the tool; only
    [jsr_get_package_metadata], which asks the registry, sends none. *)
Theorem token_is_sent_to_the_management_api name args config token :
  apiToken config = Some token -> non_empty token = true ->
  every_request
    (fun r =>
       req_headers r !! "Authorization"
         = if String.eqb name "jsr_get_package_metadata"
           then None
           else Some ("Bearer " +:+ token))
    (handleJSRTool name args config).
Proof.
  intros Htoken Hne. apply every_request_handleJSRTool. intros t Ht.
  unfold tool_of_name in Ht.
  by_case_label Ht
    ltac:(unfold_operations; repeat every_request_step; simpl;
          first [ apply api_headers_bearer; assumption
                | apply registry_headers_no_authorization; reflexivity ]).
Qed.

Lemma api_headers_defaults user_agent config options :
  init_headers options !! "User-Agent" = None ->
  api_headers user_agent config options !! "User-Agent" = Some user_agent /\
  api_headers user_agent config options !! "Content-Type"
    = Some (default "application/json" (init_headers options !! "Content-Type")).
Proof.
  intros Hua. unfold api_headers.
  assert (Hbase :
    (init_headers options
       ∪ <["Content-Type" := "application/json"]> (<["User-Agent" := user_agent]> ∅))
      !! "User-Agent" = Some user_agent /\
    (init_headers options
       ∪ <["Content-Type" := "application/json"]> (<["User-Agent" := user_agent]> ∅))
      !! "Content-Type"
      = Some (default "application/json" (init_headers options !! "Content-Type"))).
  { rewrite !lookup_union, Hua.
    rewrite lookup_insert_ne by discriminate.
    rewrite !lookup_insert_eq.
    split; [reflexivity|].
    destruct (init_headers options !! "Content-Type"); reflexivity. }
  destruct (token_truthy (apiToken config)); [|exact Hbase].
  rewrite !lookup_insert_ne by discriminate. exact Hbase.
Qed.

Lemma registry_headers_defaults user_agent options :
  init_headers options !! "User-Agent" = None ->
  init_headers options !! "Content-Type" = None ->
  registry_headers user_agent options !! "User-Agent" = Some user_agent /\
  registry_headers user_agent options !! "Content-Type" = None.
Proof.
  intros Hua Hct. unfold registry_headers. rewrite !lookup_union, Hua, Hct.
  split.
  - rewrite lookup_insert_ne by discriminate.
    rewrite lookup_insert_eq. reflexivity.
  - rewrite lookup_insert_ne by discriminate.
    rewrite lookup_insert_ne by discriminate.
    rewrite lookup_empty. reflexivity.
Qed.

(** X4: every request of the dispatcher identifies the client in its
    [User-Agent] header.  A request with a binary body (the upload of a
    version) has content type [application/octet-stream]; every other
    request to the management API has [application/json], and the request
    to the registry has no content type. *)
Theorem requests_carry_user_agent_and_content_type name args config :
  every_request
    (fun r =>
       req_headers r !! "User-Agent" = Some Embedded.user_agent /\
       req_headers r !! "Content-Type"
         = match req_body r with
           | BinaryBody _ => Some "application/octet-stream"
           | _ =>
               if String.eqb name "jsr_get_package_metadata"
               then None
               else Some "application/json"
           end)
    (handleJSRTool name args config).
Proof.
  apply every_request_handleJSRTool. intros t Ht. unfold tool_of_name in Ht.
  by_case_label Ht
    ltac:(unfold_operations; repeat every_request_step; simpl;
          first [ apply api_headers_defaults; reflexivity
                | apply registry_headers_defaults; reflexivity ]).
Qed.
End Destinations.

Lemma read_tools_only_get_witness :
  Forall (fun r => req_method r = None /\ req_body r = NoBody)
    (requests
       (fst (@handleJSRTool demo_platform "jsr_list_scope_packages"
               (JObj [("scope", JStr "std")])
               (createJSRConfig "https://api.jsr.io/" "https://jsr.io/" (Some "tok"))
               (answering (inr (ok_response (JObj [("items", JArr [])]))))))).
Proof.
  apply (@read_tools_only_get demo_platform "jsr_list_scope_packages"). reflexivity.
Defined.

Lemma token_is_sent_to_the_management_api_witness :
  Forall (fun r => req_headers r !! "Authorization" = Some "Bearer tok")
    (requests
       (fst (@handleJSRTool demo_platform "jsr_delete_scope"
               (JObj [("scope", JStr "std")])
               (createJSRConfig "https://api.jsr.io/" "https://jsr.io/" (Some "tok"))
               (answering (inr no_content_response))))).
Proof.
  apply (@token_is_sent_to_the_management_api demo_platform "jsr_delete_scope"
           (JObj [("scope", JStr "std")]) _ "tok"); reflexivity.
Defined.

(** ** How many requests *)

Lemma at_most_ret {A} (a : A) : at_most 0 (ret a).
Proof. intros w. simpl. lia. Qed.

Lemma at_most_throw {A} (e : Thrown) : at_most 0 (@throw A e).
Proof. intros w. simpl. lia. Qed.

Lemma at_most_bind {A B} n k (m : M A) (f : A -> M B) :
  at_most n m -> (forall a, at_most k (f a)) -> at_most (n + k) (bind m f).
Proof.
  intros Hm Hf w. specialize (Hm w). unfold bind.
  destruct (m w) as [t1 [a|e]]; simpl in *; [|lia].
  specialize (Hf a w). destruct (f a w) as [t2 o]. simpl in *.
  rewrite requests_app, length_app. lia.
Qed.

Lemma at_most_try_catch {A} n k (m : M A) (h : Thrown -> M A) :
  at_most n m -> (forall e, at_most k (h e)) -> at_most (n + k) (try_catch m h).
Proof.
  intros Hm Hh w. specialize (Hm w). unfold try_catch.
  destruct (m w) as [t1 [a|e]]; simpl in *; [lia|].
  specialize (Hh e w). destruct (h e w) as [t2 o]. simpl in *.
  rewrite requests_app, length_app. lia.
Qed.

Lemma at_most_of_result {A} (ev : Event) (r : Thrown + A) :
  at_most (if is_fetch ev then 1 else 0) (of_result ev r).
Proof. intros w. unfold of_result. destruct ev, r; simpl; lia. Qed.

Lemma at_most_member v k : at_most 0 (member v k).
Proof. destruct v; simpl; first [apply at_most_throw | apply at_most_ret]. Qed.

Lemma at_most_readFile path : at_most 0 (Deno_readFile path).
Proof.
  intros w. unfold Deno_readFile, of_result. destruct (readFile w path); simpl; lia.
Qed.

Lemma at_most_weaken {A} n n' (m : M A) :
  at_most n m -> (n <= n')%nat -> at_most n' m.
Proof. intros Hm Hle w. specialize (Hm w). lia. Qed.

Lemma requests_bind_ret {A B} (m : M A) (f : A -> B) w :
  requests (fst (bind m (fun a => ret (f a)) w)) = requests (fst (m w)).
Proof.
  unfold bind, ret. destruct (m w) as [t [a|e]]; simpl; [|reflexivity].
  rewrite app_nil_r. reflexivity.
Qed.

Lemma requests_try_catch_ret {A} (m : M A) (h : Thrown -> A) w :
  requests (fst (try_catch m (fun e => ret (h e)) w)) = requests (fst (m w)).
Proof.
  unfold try_catch, ret. destruct (m w) as [t [a|e]]; simpl; [reflexivity|].
  rewrite app_nil_r. reflexivity.
Qed.

Section Counting.
Context `{Platform}.

Lemma at_most_parse (schema : Schema) args : at_most 0 (parse schema args).
Proof.
  unfold parse. destruct (zparse schema [] args);
    [apply at_most_throw | apply at_most_ret].
Qed.

(** Each call of a request builder is one [fetch], whatever the answer. *)
Lemma embedded_api_requests config endpoint options w :
  requests (fst (Embedded.makeApiRequest config endpoint options w))
    = [request_of (apiUrl config +:+ endpoint) options
         (api_headers Embedded.user_agent config options)].
Proof.
  rewrite embedded_makeApiRequest_run. cbv zeta.
  destruct (fetch w _) as [e|response]; [reflexivity|].
  destruct (ok response); reflexivity.
Qed.

Lemma embedded_registry_requests config endpoint options w :
  requests (fst (Embedded.makeRegistryRequest config endpoint options w))
    = [request_of (registryUrl config +:+ endpoint) options
         (registry_headers Embedded.user_agent options)].
Proof.
  unfold Embedded.makeRegistryRequest, try_catch, bind, do_fetch, of_result.
  cbv zeta.
  destruct (fetch w _) as [e|response]; [reflexivity|].
  unfold response_json, of_result.
  destruct (ok response); simpl; [destruct (body_json response)|]; reflexivity.
Qed.

Lemma at_most_embedded_api config endpoint options :
  at_most 1 (makeApiRequest embedded_client config endpoint options).
Proof. intros w. simpl. rewrite embedded_api_requests. simpl. lia. Qed.

Lemma at_most_embedded_registry config endpoint options :
  at_most 1 (makeRegistryRequest embedded_client config endpoint options).
Proof. intros w. simpl. rewrite embedded_registry_requests. simpl. lia. Qed.

Ltac at_most_step :=
  first
    [ apply at_most_ret
    | apply at_most_throw
    | apply at_most_parse
    | apply at_most_member
    | apply at_most_readFile
    | apply at_most_embedded_api
    | apply at_most_embedded_registry
    | eapply at_most_bind; [|intros ?] ].

(** X5: one invocation of the dispatcher makes at most one request,
    whatever the tool, the arguments and the answers. *)
Theorem at_most_one_request_per_invocation name args config w :
  (List.length (requests (fst (handleJSRTool name args config w))) <= 1)%nat.
Proof.
  revert w. change (at_most 1 (handleJSRTool name args config)).
  unfold handleJSRTool, dispatch.
  eapply at_most_weaken;
    [ eapply at_most_try_catch; [|intros e; apply at_most_ret] |].
  - destruct (tool_of_name name) as [t|].
    + eapply at_most_weaken with (n := 1%nat); [|reflexivity].
      destruct t; unfold_operations;
        (eapply at_most_weaken; [repeat at_most_step | simpl; lia]).
    + eapply at_most_weaken; [apply at_most_throw | lia].
  - simpl. lia.
Qed.
End Counting.

(** ** The catalog and the dispatcher *)

Lemma same_names_In (l l' : list string) :
  same_names l l' = true -> forall k, In k l <-> In k l'.
Proof.
  unfold same_names. intros Hsame k.
  apply andb_true_iff in Hsame as [Hl Hl'].
  rewrite forallb_forall in Hl, Hl'.
  split; intros Hin.
  - apply Hl in Hin. apply existsb_exists in Hin as [k' [Hin' Heq]].
    apply String.eqb_eq in Heq. subst. exact Hin'.
  - apply Hl' in Hin. apply existsb_exists in Hin as [k' [Hin' Heq]].
    apply String.eqb_eq in Heq. subst. exact Hin'.
Qed.

Lemma catalog_names : map tool_name createJSRTools = map fst case_labels.
Proof. reflexivity. Qed.

Lemma catalog_matches :
  forallb (fun d =>
             match tool_of_name (tool_name d) with
             | Some t => descriptor_matches d t
             | None => false
             end)
          createJSRTools = true.
Proof. vm_compute. reflexivity. Qed.

Lemma catalog_case (d : ToolDescriptor) :
  In d createJSRTools ->
  exists t, tool_of_name (tool_name d) = Some t /\ descriptor_matches d t = true.
Proof.
  intros Hin. pose proof catalog_matches as Hall.
  rewrite forallb_forall in Hall. specialize (Hall d Hin).
  destruct (tool_of_name (tool_name d)) as [t|]; [|discriminate].
  exists t. split; [reflexivity|exact Hall].
Qed.

(** X6: the catalog and the [switch] of the dispatcher know the same
    tools.  No name is advertised twice, a name is advertised exactly when
    the dispatcher has a case for it, and every advertised name starts
    with [jsr_], the prefix the request handler routes on. *)
Theorem catalog_names_are_the_dispatcher_cases :
  NoDup (map tool_name createJSRTools) /\
  (forall name,
      In name (map tool_name createJSRTools) <-> tool_of_name name <> None) /\
  (forall name,
      In name (map tool_name createJSRTools) -> String.prefix "jsr_" name = true).
Proof.
  split; [|split].
  - apply (bool_decide_unpack _). vm_compute. exact I.
  - intros name. rewrite catalog_names. unfold tool_of_name.
    symmetry. apply find_case_names.
  - intros name Hin. simpl in Hin.
    repeat (destruct Hin as [<-|Hin]; [reflexivity|]). contradiction.
Qed.

(** X7: what the catalog advertises for a tool is what the schema of its
    case checks.  The advertised properties are the keys of the schema,
    the properties advertised as required are the keys that are not
    optional, and each property is advertised with the JSON type of the
    values its schema accepts. *)
Theorem catalog_agrees_with_schemas (d : ToolDescriptor) :
  In d createJSRTools ->
  exists t,
    tool_of_name (tool_name d) = Some t /\
    (forall k, In k (advertised_properties d) <-> In k (map fst (tool_shape t))) /\
    (forall k, In k (advertised_required d) <-> In k (required_keys t)) /\
    (forall k s, In (k, s) (tool_shape t) ->
       exists ty, json_type s = Some ty /\ advertised_type d k = JStr ty).
Proof.
  intros Hin. destruct (catalog_case d Hin) as [t [Ht Hmatch]].
  exists t. split; [exact Ht|].
  unfold descriptor_matches in Hmatch.
  apply andb_true_iff in Hmatch as [Hmatch Htypes].
  apply andb_true_iff in Hmatch as [Hprops Hreq].
  split; [apply same_names_In, Hprops|].
  split; [apply same_names_In, Hreq|].
  intros k s Hks. rewrite forallb_forall in Htypes.
  specialize (Htypes (k, s) Hks). simpl in Htypes.
  destruct (advertised_type d k); try discriminate.
  destruct (json_type s) as [ty|]; [|discriminate].
  apply String.eqb_eq in Htypes. subst. exists ty. split; reflexivity.
Qed.

Lemma catalog_agrees_with_schemas_witness :
  In jsr_get_scope_descriptor createJSRTools /\
  exists t,
    tool_of_name (tool_name jsr_get_scope_descriptor) = Some t /\
    (forall k, In k (advertised_properties jsr_get_scope_descriptor)
               <-> In k (map fst (tool_shape t))) /\
    (forall k, In k (advertised_required jsr_get_scope_descriptor)
               <-> In k (required_keys t)) /\
    (forall k s, In (k, s) (tool_shape t) ->
       exists ty, json_type s = Some ty /\
                  advertised_type jsr_get_scope_descriptor k = JStr ty).
Proof.
  assert (Hin : In jsr_get_scope_descriptor createJSRTools).
  { do 4 right. left. reflexivity. }
  split; [exact Hin|].
  exact (catalog_agrees_with_schemas jsr_get_scope_descriptor Hin).
Defined.

(** ** Arguments that miss a required property *)

Section Rejection.
Context `{Platform}.

Lemma zparse_plain_undefined (s : Schema) path :
  is_plain s = true -> exists issue, zparse s path JUndefined = inl [issue].
Proof. destruct s; simpl; try discriminate; intros _; eexists; reflexivity. Qed.

Lemma parse_shape_missing (shape : list (string * Schema)) path fields k sk :
  In (k, sk) shape -> is_plain sk = true -> lookup_field k fields = JUndefined ->
  fst (parse_shape shape path fields) <> [].
Proof.
  induction shape as [|[k' sk'] rest IH]; simpl; [intros []|].
  intros [Heq|Hin] Hplain Hmiss.
  - inversion Heq; subst.
    destruct (parse_shape rest path fields) as [issues out].
    rewrite Hmiss.
    destruct (zparse_plain_undefined sk (path ++ [Key k])%list Hplain) as [issue ->].
    simpl. discriminate.
  - specialize (IH Hin Hplain Hmiss).
    destruct (parse_shape rest path fields) as [issues out]. simpl in IH.
    destruct (zparse sk' (path ++ [Key k'])%list (lookup_field k' fields)) as [here|y].
    + simpl. intros Habs. apply app_eq_nil in Habs as [_ Habs]. contradiction.
    + destruct y; simpl; exact IH.
Qed.

Lemma zparse_missing (shape : list (string * Schema)) args k sk :
  In (k, sk) shape -> is_plain sk = true -> prop args k = JUndefined ->
  exists issues, zparse (ZObject shape) [] args = inl issues.
Proof.
  intros Hin Hplain Hmiss.
  destruct args as [| | | | | |fields]; try (eexists; reflexivity).
  rewrite zparse_object.
  pose proof (parse_shape_missing shape [] fields k sk Hin Hplain Hmiss) as Hne.
  destruct (parse_shape shape [] fields) as [issues out]. simpl in Hne.
  destruct issues; [contradiction|]. eexists. reflexivity.
Qed.

Lemma required_key_is_plain (t : Tool) k :
  In k (required_keys t) ->
  exists sk, In (k, sk) (tool_shape t) /\ is_plain sk = true.
Proof.
  unfold required_keys. intros Hin.
  apply in_map_iff in Hin as [[k' sk] [Heq Hin]]. simpl in Heq. subst k'.
  apply filter_In in Hin as [Hin Hopt]. simpl in Hopt.
  exists sk. split; [exact Hin|].
  assert (Hall : required_are_plain t = true) by (destruct t; reflexivity).
  unfold required_are_plain in Hall. rewrite forallb_forall in Hall.
  specialize (Hall (k, sk) Hin). simpl in Hall.
  destruct (is_optional sk); [discriminate|exact Hall].
Qed.

(** Arguments the schema of a case rejects: the answer is the envelope of
    the [catch] block, and nothing was done before. *)
Lemma handleJSRTool_rejects name (t : Tool) (schema : Schema) args issues config w :
  tool_of_name name = Some t ->
  tool_schema t = Some schema ->
  zparse schema [] args = inl issues ->
  handleJSRTool name args config w
    = ([], Returned (error_result (ErrorInstance ZodError (zod_message issues)))).
Proof.
  intros Hname Hschema Hz.
  unfold handleJSRTool, dispatch. rewrite Hname.
  destruct t; simpl in Hschema; inversion Hschema; subst schema; clear Hschema;
    unfold run_case;
    first
      [ apply (rejected_case_is_caught _ _ _ _ error_result); exact Hz
      | rewrite (try_catch_threw _ _ w []
                   (ErrorInstance ZodError (zod_message issues)));
        [ reflexivity | apply bind_threw, parse_rejects, Hz ] ].
Qed.

(** X8: what the dispatcher does with arguments that do not fit what the
    catalog advertises, for every advertised tool.
    - A tool that advertises no property never reads its arguments: the
      call does what it does with [undefined] for arguments, and sends
      its one request.
    - For a tool that advertises properties, arguments that are no
      object are rejected.
    - So are arguments that miss a property advertised as required, or
      hold [undefined] for it.
    Rejected means: the answer is the error envelope of the validation
    failure and nothing else happens, no request and no file read. *)
Theorem missing_required_argument_is_rejected
    (d : ToolDescriptor) (args : JSValue) (config : JSRConfig) (w : World) :
  In d createJSRTools ->
  let rejected :=
    exists issues,
      handleJSRTool (tool_name d) args config w
        = ([], Returned
                 {| content :=
                      [text_part (Lit ("Error: " +:+ zod_message issues))];
                    isError := Some true |}) in
  (advertised_properties d = [] ->
     handleJSRTool (tool_name d) args config w
       = handleJSRTool (tool_name d) JUndefined config w /\
     exists req,
       requests (fst (handleJSRTool (tool_name d) args config w)) = [req]) /\
  (advertised_properties d <> [] ->
     (forall fields, args <> JObj fields) -> rejected) /\
  (forall key,
     In key (advertised_required d) -> prop args key = JUndefined -> rejected).
Proof.
  intros Hd rejected. subst rejected.
  destruct (catalog_case d Hd) as [t [Ht Hmatch]].
  unfold descriptor_matches in Hmatch.
  apply andb_true_iff in Hmatch as [Hmatch _].
  apply andb_true_iff in Hmatch as [Hprops Hreq].
  split; [|split].
  - intros Hnone. rewrite Hnone in Hprops.
    assert (Hshape : tool_shape t = []).
    { destruct (tool_shape t) as [|[k sk] rest]; [reflexivity|].
      destruct (proj2 (same_names_In _ _ Hprops k) (or_introl eq_refl)). }
    apply (f_equal (@List.length _)) in Hshape.
    unfold handleJSRTool, dispatch. rewrite Ht.
    destruct t; try (vm_compute in Hshape; discriminate Hshape);
      (split; [reflexivity|]);
      rewrite requests_try_catch_ret; unfold_operations;
      rewrite requests_bind_ret; eexists; apply embedded_api_requests.
  - intros Hsome Hnot.
    destruct (advertised_properties d) as [|k rest]; [contradiction|].
    pose proof (proj1 (same_names_In _ _ Hprops k) (or_introl eq_refl)) as Hk.
    unfold tool_shape in Hk.
    destruct (tool_schema t) as [schema|] eqn:Hschema; [|contradiction].
    destruct (tool_schema_is_object t schema Hschema) as [shape ->].
    assert (Hz : exists issues, zparse (ZObject shape) [] args = inl issues).
    { destruct args as [| | | | | |fields]; try (eexists; reflexivity).
      destruct (Hnot fields eq_refl). }
    destruct Hz as [issues Hz]. exists issues.
    apply (handleJSRTool_rejects _ t (ZObject shape)); assumption.
  - intros key Hkey Hmiss.
    apply (same_names_In _ _ Hreq) in Hkey.
    destruct (required_key_is_plain t key Hkey) as [sk [Hin Hplain]].
    unfold tool_shape in Hin.
    destruct (tool_schema t) as [schema|] eqn:Hschema; [|contradiction].
    destruct (tool_schema_is_object t schema Hschema) as [shape ->].
    simpl in Hin.
    destruct (zparse_missing shape args key sk Hin Hplain Hmiss) as [issues Hz].
    exists issues.
    apply (handleJSRTool_rejects _ t (ZObject shape)); assumption.
Qed.
End Rejection.

Lemma missing_required_argument_is_rejected_witness :
  (exists issues,
     @handleJSRTool demo_platform "jsr_get_scope" (JObj [("name", JStr "fs")])
       (createJSRConfig "https://api.jsr.io/" "https://jsr.io/" None)
       (answering (inr (ok_response JNull)))
       = ([], Returned
                {| content :=
                     [text_part
                        (Lit ("Error: " +:+ @zod_message demo_platform issues))];
                   isError := Some true |})) /\
  (exists issues,
     @handleJSRTool demo_platform "jsr_get_scope" JUndefined
       (createJSRConfig "https://api.jsr.io/" "https://jsr.io/" None)
       (answering (inr (ok_response JNull)))
       = ([], Returned
                {| content :=
                     [text_part
                        (Lit ("Error: " +:+ @zod_message demo_platform issues))];
                   isError := Some true |})).
Proof.
  assert (Hin : In jsr_get_scope_descriptor createJSRTools).
  { do 4 right. left. reflexivity. }
  split.
  - destruct (@missing_required_argument_is_rejected demo_platform
                jsr_get_scope_descriptor (JObj [("name", JStr "fs")])
                (createJSRConfig "https://api.jsr.io/" "https://jsr.io/" None)
                (answering (inr (ok_response JNull))) Hin)
      as [_ [_ Hmissing]].
    apply (Hmissing "scope"); [left; reflexivity|reflexivity].
  - destruct (@missing_required_argument_is_rejected demo_platform
                jsr_get_scope_descriptor JUndefined
                (createJSRConfig "https://api.jsr.io/" "https://jsr.io/" None)
                (answering (inr (ok_response JNull))) Hin)
      as [_ [Hshape _]].
    apply Hshape; [discriminate|discriminate].
Defined.

(** ** The request handler of the server *)

Section HandlerFacts.
Context `{Platform}.

(** X9: how the request handler of the server answers a call.  A name
    that starts with [jsr_] gets the envelope of the dispatcher, also when
    the dispatcher has no case for it (then the error envelope saying so);
    any other name is refused with [MethodNotFound] before anything is
    done; and the handler never throws [InternalError], since the
    dispatcher catches every failure itself. *)
Theorem call_tool_routing (name : string) (args : JSValue) (config : JSRConfig)
    (w : World) :
  (String.prefix "jsr_" name = true ->
     exists envelope,
       handleJSRTool name args config w
         = (fst (handleJSRTool name args config w), Returned envelope) /\
       call_tool name args config w
         = (fst (handleJSRTool name args config w), inl envelope)) /\
  (String.prefix "jsr_" name = true -> tool_of_name name = None ->
     call_tool name args config w
       = ([], inl {| content :=
                       [text_part (Lit ("Error: Unknown JSR tool: " +:+ name))];
                     isError := Some true |})) /\
  (String.prefix "jsr_" name = false ->
     call_tool name args config w
       = ([], inr (NewMcpError MethodNotFound ("Unknown tool: " +:+ name)))) /\
  (forall trace message,
     call_tool name args config w
       <> (trace, inr (NewMcpError InternalError message))).
Proof.
  unfold call_tool, call_tool_body.
  split; [|split; [|split]].
  - intros ->. unfold handleJSRTool, try_catch.
    destruct (dispatch name args config w) as [t [result|error]];
      eexists; split; reflexivity.
  - intros -> Hnone. unfold handleJSRTool, dispatch. rewrite Hnone. reflexivity.
  - intros ->. reflexivity.
  - intros trace message.
    destruct (String.prefix "jsr_" name); [|discriminate].
    unfold handleJSRTool, try_catch.
    destruct (dispatch name args config w) as [t [result|error]]; discriminate.
Qed.
End HandlerFacts.

(** ** The configuration the server starts with *)

Lemma strip_trailing_slash_empty (s : string) :
  strip_trailing_slash s = "" <-> s = "" \/ s = "/".
Proof.
  destruct s as [|c rest]; [split; [left; reflexivity|reflexivity]|].
  destruct rest as [|d rest']; simpl.
  - destruct (Ascii.eqb_spec c "/") as [->|Hne].
    + split; [right; reflexivity|reflexivity].
    + split; [discriminate|]. intros [Heq|Heq]; [discriminate|].
      inversion Heq. contradiction.
  - split; [discriminate|]. intros [Heq|Heq]; discriminate.
Qed.

Lemma env_or_non_empty value fallback :
  non_empty fallback = true -> non_empty (env_or value fallback) = true.
Proof.
  intros Hf. unfold env_or. destruct value as [s|]; [|exact Hf].
  destruct (non_empty s) eqn:Hs; [exact Hs|exact Hf].
Qed.

Lemma env_or_slash value fallback :
  fallback <> "/" -> (env_or value fallback = "/" <-> value = Some "/").
Proof.
  intros Hf. unfold env_or. destruct value as [s|].
  - destruct s as [|c rest]; simpl.
    + split; [intros Heq; contradiction|discriminate].
    + split; [intros ->; reflexivity|intros Heq; inversion Heq; reflexivity].
  - split; [intros Heq; contradiction|discriminate].
Qed.

(** X10: the configuration read from the environment.  A variable that is
    unset or empty gives the default URL; the token is taken as it is.
    The URL of the management API is empty exactly when [JSR_API_URL] is
    ["/"], and that of the registry exactly when [JSR_REGISTRY_URL] is
    ["/"]: the trailing slash is cut after the default was chosen. *)
Theorem loadConfig_from_environment (env : string -> option string) :
  (apiUrl (loadConfig env) = "" <-> env "JSR_API_URL" = Some "/") /\
  (registryUrl (loadConfig env) = "" <-> env "JSR_REGISTRY_URL" = Some "/") /\
  (env "JSR_API_URL" = None \/ env "JSR_API_URL" = Some "" ->
     apiUrl (loadConfig env) = "https://api.jsr.io") /\
  (env "JSR_REGISTRY_URL" = None \/ env "JSR_REGISTRY_URL" = Some "" ->
     registryUrl (loadConfig env) = "https://jsr.io") /\
  apiToken (loadConfig env) = env "JSR_API_TOKEN".
Proof.
  unfold loadConfig, createJSRConfig. cbn [apiUrl registryUrl apiToken].
  split; [|split; [|split; [|split]]].
  - rewrite strip_trailing_slash_empty. rewrite env_or_slash by discriminate.
    split; [|intros Heq; right; exact Heq].
    intros [Hempty|Hslash]; [|exact Hslash].
    pose proof (env_or_non_empty (env "JSR_API_URL") "https://api.jsr.io" eq_refl)
      as Hne.
    rewrite Hempty in Hne. discriminate.
  - rewrite strip_trailing_slash_empty. rewrite env_or_slash by discriminate.
    split; [|intros Heq; right; exact Heq].
    intros [Hempty|Hslash]; [|exact Hslash].
    pose proof (env_or_non_empty (env "JSR_REGISTRY_URL") "https://jsr.io" eq_refl)
      as Hne.
    rewrite Hempty in Hne. discriminate.
  - intros [->| ->]; reflexivity.
  - intros [->| ->]; reflexivity.
  - reflexivity.
Qed.

(** ** The request builders, answer by answer *)

Section BuilderRuns.
Context `{Platform}.

(** The user agent a client sends. *)
Lemma client_cases (c : Client) :
  c = embedded_client \/ c = library_client ->
  exists user_agent,
    forall config endpoint options w,
      let req := request_of (apiUrl config +:+ endpoint) options
                   (api_headers user_agent config options) in
      requests (fst (makeApiRequest c config endpoint options w)) = [req] /\
      (forall v, snd (makeApiRequest c config endpoint options w) = Returned v ->
         exists response, fetch w req = inr response /\ ok response = true) /\
      (forall e, snd (makeApiRequest c config endpoint options w) = Threw e ->
         exists reason,
           e = ErrorInstance GenericError ("JSR API request failed: " +:+ reason)) /\
      (forall response errorText,
         fetch w req = inr response -> ok response = false ->
         body_text response = inr errorText ->
         snd (makeApiRequest c config endpoint options w)
           = Threw (ErrorInstance GenericError
                      ("JSR API request failed: JSR API request failed: "
                         +:+ status_string response +:+ " "
                         +:+ statusText response +:+ ": " +:+ errorText))).
Proof.
  intros [->| ->].
  - exists Embedded.user_agent. intros config endpoint options w req.
    cbn [makeApiRequest embedded_client].
    rewrite embedded_makeApiRequest_run. cbv zeta. fold req.
    destruct (fetch w req) as [e|response].
    + split; [reflexivity|]. split; [discriminate|].
      split; [|discriminate]. intros e' He'. inversion He'. eexists. reflexivity.
    + destruct (ok response) eqn:Hok; unfold decoded.
      * split; [reflexivity|]. split; [|split].
        -- intros v _. exists response. split; [reflexivity|exact Hok].
        -- intros e' He'. cbn [snd] in He'.
           destruct (body_json response); inversion He'. eexists. reflexivity.
        -- intros response' errorText Heq Hok'. inversion Heq; subst.
           congruence.
      * split; [reflexivity|]. split; [discriminate|]. split.
        -- intros e' He'. inversion He'. eexists. reflexivity.
        -- intros response' errorText Heq _ Htext. inversion Heq; subst.
           cbn [snd]. rewrite Htext. reflexivity.
  - exists Library.user_agent. intros config endpoint options w req.
    cbn [makeApiRequest library_client].
    rewrite library_makeApiRequest_run. cbv zeta. fold req.
    destruct (fetch w req) as [e|response].
    + split; [reflexivity|]. split; [discriminate|].
      split; [|discriminate]. intros e' He'. inversion He'. eexists. reflexivity.
    + destruct (ok response) eqn:Hok; unfold decoded.
      * destruct (status response =? 204)%Z.
        -- split; [destruct (has_body response); reflexivity|].
           split; [|split].
           ++ intros v _. exists response. split; [reflexivity|exact Hok].
           ++ discriminate.
           ++ intros response' errorText Heq Hok'. inversion Heq; subst.
              congruence.
        -- split; [reflexivity|]. split; [|split].
           ++ intros v _. exists response. split; [reflexivity|exact Hok].
           ++ intros e' He'. cbn [snd] in He'.
              destruct (body_json response); inversion He'. eexists. reflexivity.
           ++ intros response' errorText Heq Hok'. inversion Heq; subst.
              congruence.
      * split; [reflexivity|]. split; [discriminate|]. split.
        -- intros e' He'. inversion He'. eexists. reflexivity.
        -- intros response' errorText Heq _ Htext. inversion Heq; subst.
           cbn [snd]. rewrite Htext. reflexivity.
Qed.
End BuilderRuns.

Section BuilderFailures.
Context `{Platform}.

(** X11: how a management request fails, in both clients.  Every failure
    is an [Error] whose message starts with ["JSR API request failed: "].
    When the service answers with a status outside 2xx and a readable
    body, the message holds that prefix twice, then the status, the status
    text and the body: the [Error] thrown for the status is caught by the
    builder's own [catch] and wrapped again. *)
Theorem api_request_failure_messages (c : Client) (config : JSRConfig)
    (endpoint : string) (options : RequestInit) (w : World) :
  c = embedded_client \/ c = library_client ->
  (forall trace e,
     makeApiRequest c config endpoint options w = (trace, Threw e) ->
     exists reason,
       e = ErrorInstance GenericError ("JSR API request failed: " +:+ reason)) /\
  (forall response errorText,
     (forall req, fetch w req = inr response) ->
     ok response = false ->
     body_text response = inr errorText ->
     snd (makeApiRequest c config endpoint options w)
       = Threw (ErrorInstance GenericError
                  ("JSR API request failed: JSR API request failed: "
                     +:+ status_string response +:+ " "
                     +:+ statusText response +:+ ": " +:+ errorText))).
Proof.
  intros Hc. destruct (client_cases c Hc) as [user_agent Hrun].
  destruct (Hrun config endpoint options w) as [_ [_ [Hthrew Hstatus]]].
  split.
  - intros trace e Heq. apply Hthrew. rewrite Heq. reflexivity.
  - intros response errorText Hfetch Hok Htext.
    apply Hstatus; [apply Hfetch|exact Hok|exact Htext].
Qed.

Lemma registry_request_run (c : Client) config endpoint options w response :
  c = embedded_client \/ c = library_client ->
  (forall req, fetch w req = inr response) ->
  ok response = false ->
  exists user_agent,
    makeRegistryRequest c config endpoint options w
      = ([Fetched (request_of (registryUrl config +:+ endpoint) options
                     (registry_headers user_agent options))],
         Threw (ErrorInstance GenericError
                  ("JSR Registry request failed: JSR Registry request failed: "
                     +:+ status_string response +:+ " " +:+ statusText response))).
Proof.
  intros [->| ->] Hfetch Hok.
  - exists Embedded.user_agent. cbn [makeRegistryRequest embedded_client].
    unfold Embedded.makeRegistryRequest, try_catch, bind, do_fetch, of_result.
    cbv zeta. rewrite Hfetch, Hok. reflexivity.
  - exists Library.user_agent. cbn [makeRegistryRequest library_client].
    unfold Library.makeRegistryRequest, try_catch, bind, do_fetch, of_result.
    cbv zeta. rewrite Hfetch, Hok. reflexivity.
Qed.

(** X12: how a registry request fails on a status outside 2xx, in both
    clients.  The one event is the request itself: the body of the answer
    is not read, and the message holds the prefix ["JSR Registry request
    failed: "] twice, then the status and the status text.  The request
    went to the registry URL and, unless the caller's options bring an
    [Authorization] header, carries none, whatever the token of the
    configuration. *)
Theorem registry_request_failure (c : Client) (config : JSRConfig)
    (endpoint : string) (options : RequestInit) (w : World) (response : Response) :
  c = embedded_client \/ c = library_client ->
  (forall req, fetch w req = inr response) ->
  ok response = false ->
  exists req,
    makeRegistryRequest c config endpoint options w
      = ([Fetched req],
         Threw (ErrorInstance GenericError
                  ("JSR Registry request failed: JSR Registry request failed: "
                     +:+ status_string response +:+ " " +:+ statusText response))) /\
    req_url req = registryUrl config +:+ endpoint /\
    (init_headers options !! "Authorization" = None ->
       req_headers req !! "Authorization" = None).
Proof.
  intros Hc Hfetch Hok.
  destruct (registry_request_run c config endpoint options w response Hc Hfetch Hok)
    as [user_agent Hrun].
  eexists. split; [exact Hrun|]. split; [reflexivity|].
  intros Hinit. apply registry_headers_no_authorization, Hinit.
Qed.

(** X13: the connectivity probe of both clients never throws.  It makes one
    request, a GET of [/packages?limit=1] on the management API, and
    reports success only when that request was answered with a 2xx status;
    every failure is reported with a message that starts with
    ["JSR API request failed: "]. *)
Theorem testConnection_never_throws (c : Client) (config : JSRConfig) (w : World) :
  c = embedded_client \/ c = library_client ->
  exists trace result req,
    testConnection c config w = (trace, Returned result) /\
    requests trace = [req] /\
    req_url req
      = apiUrl config +:+ "/packages?"
          +:+ form_urlencode "limit" +:+ "=" +:+ form_urlencode "1" /\
    req_method req = None /\
    req_body req = NoBody /\
    (ConnectionTest.success result = true ->
       ConnectionTest.error result = None /\
       exists response, fetch w req = inr response /\ ok response = true) /\
    (ConnectionTest.success result = false ->
       exists reason,
         ConnectionTest.error result
           = Some ("JSR API request failed: " +:+ reason)).
Proof.
  intros Hc. destruct (client_cases c Hc) as [user_agent Hrun].
  unfold testConnection, searchPackages. cbv zeta.
  change (params_toString
            (set_number_if_defined "page" None
               (set_number_if_defined "limit" (Some 1%float)
                  (set_query_if_truthy None []))))
    with (form_urlencode "limit" +:+ "=" +:+ form_urlencode "1").
  set (endpoint := "/packages?" +:+ form_urlencode "limit" +:+ "="
                     +:+ form_urlencode "1").
  destruct (Hrun config endpoint no_options w) as [Hreq [Hret [Hthrew _]]].
  unfold try_catch, bind.
  destruct (makeApiRequest c config endpoint no_options w) as [t [v|e]];
    cbn [fst snd] in *.
  - eexists _, _, _. split; [reflexivity|].
    split; [rewrite requests_app, Hreq; reflexivity|].
    split; [reflexivity|]. split; [reflexivity|]. split; [reflexivity|].
    cbn [ConnectionTest.success ConnectionTest.error].
    split; [|discriminate].
    intros _. split; [reflexivity|]. apply (Hret v). reflexivity.
  - destruct (Hthrew e eq_refl) as [reason ->].
    eexists _, _, _. split; [reflexivity|].
    split; [rewrite requests_app, Hreq; reflexivity|].
    split; [reflexivity|]. split; [reflexivity|]. split; [reflexivity|].
    cbn [ConnectionTest.success ConnectionTest.error].
    split; [discriminate|].
    intros _. exists reason. reflexivity.
Qed.
End BuilderFailures.

Lemma api_request_failure_messages_witness :
  snd (makeApiRequest (@embedded_client demo_platform)
         (createJSRConfig "https://api.jsr.io/" "https://jsr.io/" None)
         "/scopes/std" no_options (answering (inr not_found_response)))
    = Threw (ErrorInstance GenericError
               "JSR API request failed: JSR API request failed: 404 Not Found: no such scope").
Proof.
  apply (proj2 (@api_request_failure_messages demo_platform
                  (@embedded_client demo_platform)
                  (createJSRConfig "https://api.jsr.io/" "https://jsr.io/" None)
                  "/scopes/std" no_options (answering (inr not_found_response))
                  (or_introl eq_refl))
               not_found_response "no such scope");
    reflexivity.
Defined.

Lemma registry_request_failure_witness :
  exists req,
    makeRegistryRequest (@library_client demo_platform)
      (createJSRConfig "https://api.jsr.io/" "https://jsr.io/" (Some "tok"))
      "/@std/fs/meta.json" no_options (answering (inr not_found_response))
      = ([Fetched req],
         Threw (ErrorInstance GenericError
                  "JSR Registry request failed: JSR Registry request failed: 404 Not Found")) /\
    req_url req = "https://jsr.io/@std/fs/meta.json" /\
    (init_headers no_options !! "Authorization" = None ->
       req_headers req !! "Authorization" = None).
Proof.
  apply (@registry_request_failure demo_platform (@library_client demo_platform)
           (createJSRConfig "https://api.jsr.io/" "https://jsr.io/" (Some "tok"))
           "/@std/fs/meta.json" no_options (answering (inr not_found_response))
           not_found_response).
  - right. reflexivity.
  - intros req. reflexivity.
  - reflexivity.
Defined.

Lemma testConnection_never_throws_witness :
  exists trace result req,
    @testConnection demo_platform (@embedded_client demo_platform)
      (createJSRConfig "https://api.jsr.io/" "https://jsr.io/" None)
      (answering (inr not_found_response)) = (trace, Returned result) /\
    requests trace = [req] /\
    req_url req = "https://api.jsr.io/packages?limit=1" /\
    req_method req = None /\
    req_body req = NoBody /\
    (ConnectionTest.success result = true ->
       ConnectionTest.error result = None /\
       exists response,
         fetch (answering (inr not_found_response)) req = inr response /\
         ok response = true) /\
    (ConnectionTest.success result = false ->
       exists reason,
         ConnectionTest.error result
           = Some ("JSR API request failed: " +:+ reason)).
Proof.
  apply (@testConnection_never_throws demo_platform (@embedded_client demo_platform)
           (createJSRConfig "https://api.jsr.io/" "https://jsr.io/" None)
           (answering (inr not_found_response))).
  left. reflexivity.
Defined.

(** ** Scope and package names *)

Lemma letter_or_digit_is_no_hyphen (c : ascii) :
  is_lower c || is_digit c = true -> Ascii.eqb c "-" = false.
Proof.
  intros Hc. destruct (Ascii.eqb_spec c "-") as [->|]; [|reflexivity].
  discriminate Hc.
Qed.

Lemma name_rest_spec (c : ascii) (s : string) :
  name_rest (Ascii.eqb c "-") s
    = all_name_chars s
      && negb (ends_with_hyphen (String c s))
      && negb (has_double_hyphen (String c s)).
Proof.
  revert c. induction s as [|d rest IH]; intros c.
  - simpl. destruct (Ascii.eqb c "-"); reflexivity.
  - change (name_rest (Ascii.eqb c "-") (String d rest))
      with (if is_lower d || is_digit d then name_rest false rest
            else if Ascii.eqb d "-"
                 then negb (Ascii.eqb c "-") && name_rest true rest
                 else false).
    change (all_name_chars (String d rest))
      with (is_name_char d && all_name_chars rest).
    change (ends_with_hyphen (String c (String d rest)))
      with (ends_with_hyphen (String d rest)).
    change (has_double_hyphen (String c (String d rest)))
      with ((Ascii.eqb c "-" && Ascii.eqb d "-")
            || has_double_hyphen (String d rest)).
    specialize (IH d). unfold is_name_char.
    destruct (is_lower d || is_digit d) eqn:Hd.
    + rewrite (letter_or_digit_is_no_hyphen d Hd) in *.
      rewrite IH. rewrite andb_false_r. reflexivity.
    + destruct (Ascii.eqb d "-") eqn:Hh.
      * rewrite IH.
        destruct (Ascii.eqb c "-"), (all_name_chars rest),
          (ends_with_hyphen (String d rest)), (has_double_hyphen (String d rest));
          reflexivity.
      * reflexivity.
Qed.

(** X14: the names the pattern of [ScopeNameSchema] and
    [PackageNameSchema] accepts.  A string matches exactly when it starts
    with a lower-case letter, holds only lower-case letters, digits and
    hyphens, does not end with a hyphen and has no two hyphens in a row. *)
Theorem name_pattern_accepts_exactly (s : string) :
  name_pattern s
    = starts_with_letter s
      && all_name_chars s
      && negb (ends_with_hyphen s)
      && negb (has_double_hyphen s).
Proof.
  destruct s as [|c rest]; [reflexivity|].
  unfold name_pattern, starts_with_letter.
  change (all_name_chars (String c rest))
    with (is_name_char c && all_name_chars rest).
  destruct (is_lower c) eqn:Hc; [|reflexivity].
  assert (Hh : Ascii.eqb c "-" = false).
  { apply letter_or_digit_is_no_hyphen. rewrite Hc. reflexivity. }
  pose proof (name_rest_spec c rest) as Hrest. rewrite Hh in Hrest.
  rewrite Hrest. unfold is_name_char. rewrite Hc. reflexivity.
Qed.

(** ** Calls followed from the arguments to the request *)

Section Runs.
Context `{Platform}.

Lemma bind_parse_accepted {B} (schema : Schema) args parsed (k : JSValue -> M B) w :
  zparse schema [] args = inr parsed ->
  bind (parse schema args) k w = k parsed w.
Proof.
  intros Hz. unfold bind. rewrite (parse_accepts _ _ _ w Hz).
  destruct (k parsed w) as [t o]. reflexivity.
Qed.

(** The verdict of a string schema with one pattern. *)
Lemma zparse_name (matches : string -> bool) message path (s : string) :
  zparse (ZString [Regex matches message]) path (JStr s)
    = if matches s then inr (JStr s)
      else inl [InvalidString "regex" (Some message) path].
Proof. simpl. destruct (matches s); reflexivity. Qed.

(** X15: the request of [jsr_get_package_version], from its arguments.
    The call makes a request exactly when the scope and the name match the
    name pattern; the request then is a GET of
    [/scopes/<scope>/packages/<name>/versions/<version>] on the management
    API, where the version is any string, put into the path as it is. *)
Theorem get_package_version_request (scope name version : string)
    (config : JSRConfig) (w : World) :
  requests
    (fst (handleJSRTool "jsr_get_package_version"
            (JObj [("scope", JStr scope); ("name", JStr name);
                   ("version", JStr version)])
            config w))
    = if name_pattern scope && name_pattern name
      then [request_of
              (apiUrl config +:+ "/scopes/" +:+ scope +:+ "/packages/" +:+ name
                 +:+ "/versions/" +:+ version)
              no_options
              (api_headers Embedded.user_agent config no_options)]
      else [].
Proof.
  set (args := JObj [("scope", JStr scope); ("name", JStr name);
                     ("version", JStr version)]).
  assert (Hz : zparse GetPackageVersionSchema [] args
               = if name_pattern scope && name_pattern name
                 then inr args
                 else zparse GetPackageVersionSchema [] args).
  { destruct (name_pattern scope) eqn:Hs; [|reflexivity].
    destruct (name_pattern name) eqn:Hn; [|reflexivity].
    unfold GetPackageVersionSchema, GetPackageSchema, extend, args.
    cbn [fold_left shape_set fst snd String.eqb Ascii.eqb Bool.eqb].
    rewrite zparse_object.
    cbn [parse_shape lookup_field String.eqb Ascii.eqb Bool.eqb app].
    unfold ScopeNameSchema, PackageNameSchema, VersionSchema.
    rewrite !zparse_name, Hs, Hn. reflexivity. }
  destruct (name_pattern scope && name_pattern name) eqn:Hok.
  - unfold handleJSRTool. rewrite requests_try_catch_ret.
    unfold dispatch.
    change (tool_of_name "jsr_get_package_version")
      with (Some jsr_get_package_version).
    unfold run_case. rewrite (bind_parse_accepted _ _ _ _ w Hz).
    rewrite requests_bind_ret. unfold getPackageVersion.
    apply embedded_api_requests.
  - destruct (zparse GetPackageVersionSchema [] args) as [issues|parsed] eqn:Hrej.
    + rewrite (handleJSRTool_rejects "jsr_get_package_version"
                 jsr_get_package_version GetPackageVersionSchema args issues
                 config w eq_refl eq_refl Hrej).
      reflexivity.
    + exfalso. revert Hrej.
      unfold GetPackageVersionSchema, GetPackageSchema, extend, args.
      cbn [fold_left shape_set fst snd String.eqb Ascii.eqb Bool.eqb].
      rewrite zparse_object.
      cbn [parse_shape lookup_field String.eqb Ascii.eqb Bool.eqb app].
      unfold ScopeNameSchema, PackageNameSchema, VersionSchema.
      rewrite !zparse_name.
      destruct (name_pattern scope), (name_pattern name);
        try discriminate Hok; simpl; discriminate.
Qed.
(** X16: the request of [jsr_update_scope], from its arguments.  With a
    scope that matches the name pattern the call sends one PATCH of
    [/scopes/<scope>] whose body holds the flags that were supplied and
    nothing else: not the scope, no key for a flag that is absent, and the
    empty object when no flag is supplied.  With another scope nothing is
    sent. *)
Theorem update_scope_request (scope : string)
    (ghActionsVerifyActor requirePublishingFromCI : option bool)
    (config : JSRConfig) (w : World) :
  let flags :=
    (optional_flag "ghActionsVerifyActor" ghActionsVerifyActor
       ++ optional_flag "requirePublishingFromCI" requirePublishingFromCI)%list in
  requests
    (fst (handleJSRTool "jsr_update_scope"
            (JObj (("scope", JStr scope) :: flags)) config w))
    = if name_pattern scope
      then [request_of (apiUrl config +:+ "/scopes/" +:+ scope)
              (with_json "PATCH" (JObj flags))
              (api_headers Embedded.user_agent config
                 (with_json "PATCH" (JObj flags)))]
      else [].
Proof.
  intros flags.
  set (args := JObj (("scope", JStr scope) :: flags)).
  assert (Hz : zparse UpdateScopeSchema [] args
               = if name_pattern scope then inr args
                 else inl [InvalidString "regex" (Some "Invalid scope name format")
                             [Key "scope"]]).
  { unfold UpdateScopeSchema, GetScopeSchema, extend, args, flags, optional_flag.
    cbn [fold_left shape_set fst snd String.eqb Ascii.eqb Bool.eqb].
    rewrite zparse_object.
    destruct ghActionsVerifyActor as [a|], requirePublishingFromCI as [b|];
      cbn [parse_shape lookup_field String.eqb Ascii.eqb Bool.eqb app];
      unfold ScopeNameSchema; rewrite !zparse_name;
      destruct (name_pattern scope); reflexivity. }
  destruct (name_pattern scope) eqn:Hs.
  - unfold handleJSRTool. rewrite requests_try_catch_ret.
    unfold dispatch.
    change (tool_of_name "jsr_update_scope") with (Some jsr_update_scope).
    unfold run_case. rewrite (bind_parse_accepted _ _ _ _ w Hz).
    cbv zeta. rewrite requests_bind_ret. unfold updateScope.
    refine (eq_trans (embedded_api_requests _ _ _ _) _).
    unfold args, flags, optional_flag.
    destruct ghActionsVerifyActor as [a|], requirePublishingFromCI as [b|];
      reflexivity.
  - rewrite (handleJSRTool_rejects "jsr_update_scope" jsr_update_scope
               UpdateScopeSchema args _ config w eq_refl eq_refl Hz).
    reflexivity.
Qed.

(** X17: the request of [jsr_update_package], from its arguments.  The
    call sends a request exactly when the scope and the name match the
    name pattern and the description, when there is one, has a length of
    at most 250 (in UTF-16 code units, as [z.string().max(250)] counts).
    The request is one PATCH of
    [/scopes/<scope>/packages/<name>] whose body holds the fields that
    were supplied and nothing else; a [githubRepository] that is [null]
    is sent as [null], where an absent one has no key. *)
Theorem update_package_request (scope name : string)
    (description : option string) (unlink : bool) (isArchived : option bool)
    (config : JSRConfig) (w : World) :
  let updates :=
    (optional_text "description" description
       ++ (if unlink then [("githubRepository", JNull)] else [])
       ++ optional_flag "isArchived" isArchived)%list in
  requests
    (fst (handleJSRTool "jsr_update_package"
            (JObj (("scope", JStr scope) :: ("name", JStr name) :: updates))
            config w))
    = if name_pattern scope && name_pattern name
         && match description with
            | Some d => (utf16_length d <=? 250)%nat
            | None => true
            end
      then [request_of (apiUrl config +:+ "/scopes/" +:+ scope +:+ "/packages/" +:+ name)
              (with_json "PATCH" (JObj updates))
              (api_headers Embedded.user_agent config
                 (with_json "PATCH" (JObj updates)))]
      else [].
Proof.
  intros updates.
  set (args := JObj (("scope", JStr scope) :: ("name", JStr name) :: updates)).
  set (accepted := name_pattern scope && name_pattern name
                   && match description with
                      | Some d => (utf16_length d <=? 250)%nat
                      | None => true
                      end).
  assert (Hz : if accepted then zparse UpdatePackageSchema [] args = inr args
               else exists issues, zparse UpdatePackageSchema [] args = inl issues).
  { unfold accepted, UpdatePackageSchema, GetPackageSchema, extend, args, updates,
      optional_text, optional_flag.
    cbn [fold_left shape_set fst snd String.eqb Ascii.eqb Bool.eqb].
    rewrite zparse_object.
    unfold ScopeNameSchema, PackageNameSchema.
    destruct description as [d|], unlink, isArchived as [b|];
      cbn [parse_shape lookup_field String.eqb Ascii.eqb Bool.eqb app zparse
           flat_map check_issue];
      rewrite ?Nat.ltb_antisym;
      destruct (name_pattern scope), (name_pattern name);
      try destruct (utf16_length d <=? 250)%nat;
      cbn [andb negb accept_if_clean app];
      first [reflexivity | eexists; reflexivity]. }
  destruct accepted.
  - unfold handleJSRTool. rewrite requests_try_catch_ret.
    unfold dispatch.
    change (tool_of_name "jsr_update_package") with (Some jsr_update_package).
    unfold run_case. rewrite (bind_parse_accepted _ _ _ _ w Hz).
    cbv zeta. rewrite requests_bind_ret. unfold updatePackage.
    refine (eq_trans (embedded_api_requests _ _ _ _) _).
    unfold args, updates, optional_text, optional_flag.
    destruct description as [d|], unlink, isArchived as [b|]; reflexivity.
  - destruct Hz as [issues Hz].
    rewrite (handleJSRTool_rejects "jsr_update_package" jsr_update_package
               UpdatePackageSchema args issues config w eq_refl eq_refl Hz).
    reflexivity.
Qed.

(** X18: the bounds of [limit] in [jsr_list_packages].  A call with a
    limit alone makes a request exactly when the limit is a number from 1
    to 100, bounds included: not [NaN], not below 1 and not above 100.
    The request then is a GET of [/packages?limit=<limit>] on the
    management API, with the limit as [String] prints it; any other limit
    is answered without any request. *)
Theorem list_packages_limit_bounds (limit : number) (config : JSRConfig) (w : World) :
  requests
    (fst (handleJSRTool "jsr_list_packages" (JObj [("limit", JNum limit)])
            config w))
    = if negb (is_nan limit) && negb (limit <? 1)%float && negb (100 <? limit)%float
      then [request_of
              (apiUrl config +:+ "/packages?" +:+ form_urlencode "limit"
                 +:+ "=" +:+ form_urlencode (num_to_string limit))
              no_options
              (api_headers Embedded.user_agent config no_options)]
      else [].
Proof.
  set (args := JObj [("limit", JNum limit)]).
  set (accepted := negb (is_nan limit) && negb (limit <? 1)%float
                   && negb (100 <? limit)%float).
  assert (Hz : if accepted then zparse ListPackagesSchema [] args = inr args
               else exists issues, zparse ListPackagesSchema [] args = inl issues).
  { unfold accepted, ListPackagesSchema, args. rewrite zparse_object.
    cbn [parse_shape lookup_field String.eqb Ascii.eqb Bool.eqb app zparse
         bound_issues].
    change (Z2float 1) with 1%float. change (Z2float 100) with 100%float.
    destruct (is_nan limit); [eexists; reflexivity|].
    destruct (limit <? 1)%float, (100 <? limit)%float;
      cbn [andb negb app accept_if_clean];
      first [reflexivity | eexists; reflexivity]. }
  destruct accepted.
  - unfold handleJSRTool. rewrite requests_try_catch_ret.
    unfold dispatch.
    change (tool_of_name "jsr_list_packages") with (Some jsr_list_packages).
    unfold run_case. rewrite (bind_parse_accepted _ _ _ _ w Hz).
    rewrite requests_bind_ret. unfold listPackages.
    refine (eq_trans (embedded_api_requests _ _ _ _) _). reflexivity.
  - destruct Hz as [issues Hz].
    rewrite (handleJSRTool_rejects "jsr_list_packages" jsr_list_packages
               ListPackagesSchema args issues config w eq_refl eq_refl Hz).
    reflexivity.
Qed.
End Runs.

(** ** The envelope of a call that went well *)

Lemma returns_only_ret {A} (Q : A -> Prop) (a : A) : Q a -> returns_only Q (ret a).
Proof. intros Ha w. exact Ha. Qed.

Lemma returns_only_throw {A} (Q : A -> Prop) (e : Thrown) :
  returns_only Q (@throw A e).
Proof. intros w. exact I. Qed.

Lemma returns_only_bind {A B} (Q : B -> Prop) (m : M A) (k : A -> M B) :
  (forall a, returns_only Q (k a)) -> returns_only Q (bind m k).
Proof.
  intros Hk w. unfold bind. destruct (m w) as [t1 [a|e]]; [|exact I].
  specialize (Hk a w). destruct (k a w) as [t2 o]. exact Hk.
Qed.

Section Envelopes.
Context `{Platform}.

Lemma run_case_success_shape (t : Tool) args config :
  returns_only (success_shape t) (run_case t args config).
Proof.
  destruct t; unfold run_case; cbv zeta;
    repeat (apply returns_only_bind; intros ?);
    apply returns_only_ret;
    (split; [reflexivity|]);
    eexists; (split; [reflexivity|]);
    first [reflexivity | eexists; reflexivity].
Qed.

(** X19: the envelope of a call the dispatcher completes without a
    failure.  It is returned as it is, holds no [isError] and exactly one
    part of type text; for the tools that delete, remove, decline,
    approve or deny, the text is the fixed confirmation of the tool,
    whatever the service answered, and for every other tool it is the
    JSON text of a value. *)
Theorem success_envelope_shape (name : string) (t : Tool) (args : JSValue)
    (config : JSRConfig) (w : World) (trace : list Event)
    (envelope : MCPToolResult) :
  tool_of_name name = Some t ->
  dispatch name args config w = (trace, Returned envelope) ->
  handleJSRTool name args config w = (trace, Returned envelope) /\
  isError envelope = None /\
  exists txt,
    content envelope = [{| type := "text"; text := txt |}] /\
    match confirmation t with
    | Some fixed => txt = Lit fixed
    | None => exists v, txt = JSONStringify v
    end.
Proof.
  intros Hname Hrun. split.
  - unfold handleJSRTool, try_catch. rewrite Hrun. reflexivity.
  - unfold dispatch in Hrun. rewrite Hname in Hrun.
    pose proof (run_case_success_shape t args config w) as Hshape.
    rewrite Hrun in Hshape. exact Hshape.
Qed.
End Envelopes.

Lemma success_envelope_shape_witness :
  @handleJSRTool demo_platform "jsr_delete_scope" (JObj [("scope", JStr "std")])
    (createJSRConfig "https://api.jsr.io/" "https://jsr.io/" None)
    (answering (inr (ok_response JNull)))
    = (fst (@dispatch demo_platform "jsr_delete_scope" (JObj [("scope", JStr "std")])
              (createJSRConfig "https://api.jsr.io/" "https://jsr.io/" None)
              (answering (inr (ok_response JNull)))),
       Returned (success (Lit "Scope deleted successfully"))) /\
  isError (success (Lit "Scope deleted successfully")) = None /\
  exists txt,
    content (success (Lit "Scope deleted successfully"))
      = [{| type := "text"; text := txt |}] /\
    match confirmation jsr_delete_scope with
    | Some fixed => txt = Lit fixed
    | None => exists v, txt = JSONStringify v
    end.
Proof.
  apply (@success_envelope_shape demo_platform "jsr_delete_scope" jsr_delete_scope
           (JObj [("scope", JStr "std")])
           (createJSRConfig "https://api.jsr.io/" "https://jsr.io/" None)
           (answering (inr (ok_response JNull)))).
  - reflexivity.
  - vm_compute. reflexivity.
Defined.

(** ** What the dispatcher reads from the file system *)

Lemma every_event_ret {A} (P : Event -> Prop) (a : A) : every_event P (ret a).
Proof. intros w. constructor. Qed.

Lemma every_event_throw {A} (P : Event -> Prop) (e : Thrown) :
  every_event P (@throw A e).
Proof. intros w. constructor. Qed.

Lemma every_event_bind {A B} (P : Event -> Prop) (m : M A) (k : A -> M B) :
  every_event P m -> (forall a, every_event P (k a)) -> every_event P (bind m k).
Proof.
  intros Hm Hk w. specialize (Hm w). unfold bind.
  destruct (m w) as [t1 [a|e]]; simpl in *; [|exact Hm].
  specialize (Hk a w). destruct (k a w) as [t2 o]. simpl in *.
  apply Forall_app. split; assumption.
Qed.

Lemma every_event_try_catch {A} (P : Event -> Prop) (m : M A)
    (h : Thrown -> M A) :
  every_event P m -> (forall e, every_event P (h e)) ->
  every_event P (try_catch m h).
Proof.
  intros Hm Hh w. specialize (Hm w). unfold try_catch.
  destruct (m w) as [t1 [a|e]]; simpl in *; [exact Hm|].
  specialize (Hh e w). destruct (h e w) as [t2 o]. simpl in *.
  apply Forall_app. split; assumption.
Qed.

Lemma every_event_member (P : Event -> Prop) v k : every_event P (member v k).
Proof.
  destruct v; simpl; first [apply every_event_throw | apply every_event_ret].
Qed.

Lemma lookup_field_absent k (fields : list (string * JSValue)) :
  ~ In k (map fst fields) -> lookup_field k fields = JUndefined.
Proof.
  induction fields as [|[k' v] rest IH]; simpl; [reflexivity|].
  intros Hnot. destruct (String.eqb_spec k k') as [->|Hne].
  - exfalso. apply Hnot. left. reflexivity.
  - apply IH. intros Hin. apply Hnot. right. exact Hin.
Qed.

Section FileReads.
Context `{Platform}.

(** Under a key a shape declares once, the parsed object holds what the
    schema of the key made of the argument's value. *)
Lemma parse_shape_lookup (shape : list (string * Schema)) path fields k sk y :
  NoDup (map fst shape) ->
  In (k, sk) shape ->
  zparse sk (path ++ [Key k])%list (lookup_field k fields) = inr y ->
  lookup_field k (snd (parse_shape shape path fields)) = y.
Proof.
  induction shape as [|[k' sk'] rest IH]; [intros _ []|].
  intros Hnodup Hin Hz. inversion Hnodup as [|? ? Hfresh Hrest]; subst.
  rewrite list_elem_of_In in Hfresh.
  pose proof (parse_shape_keys rest path fields) as Hkeys.
  simpl. destruct (parse_shape rest path fields) as [issues out] eqn:Hloop.
  simpl in Hkeys, IH.
  destruct Hin as [Heq|Hin].
  - inversion Heq; subst. rewrite Hz.
    assert (Hout : lookup_field k out = JUndefined).
    { apply lookup_field_absent. intros Hk. apply Hfresh, Hkeys, Hk. }
    destruct y; simpl; rewrite ?String.eqb_refl; first [exact Hout|reflexivity].
  - assert (Hne : String.eqb k k' = false).
    { apply String.eqb_neq. intros ->. apply Hfresh.
      apply (in_map fst) in Hin. exact Hin. }
    specialize (IH Hrest Hin Hz).
    destruct (zparse sk' (path ++ [Key k'])%list (lookup_field k' fields)) as [here|y'].
    + exact IH.
    + destruct y'; simpl; rewrite ?Hne; exact IH.
Qed.

Lemma zparse_string_value checks path v y :
  zparse (ZString checks) path v = inr y -> exists s, v = JStr s /\ y = JStr s.
Proof.
  destruct v; simpl; try discriminate.
  unfold accept_if_clean. destruct (flat_map _ checks); [|discriminate].
  intros Heq. inversion Heq. eexists. split; reflexivity.
Qed.

Lemma parse_shape_issue (shape : list (string * Schema)) path fields k sk here :
  In (k, sk) shape ->
  zparse sk (path ++ [Key k])%list (lookup_field k fields) = inl here ->
  here <> [] ->
  fst (parse_shape shape path fields) <> [].
Proof.
  induction shape as [|[k' sk'] rest IH]; simpl; [intros []|].
  intros [Heq|Hin] Hz Hne.
  - inversion Heq; subst.
    destruct (parse_shape rest path fields) as [issues out].
    rewrite Hz. simpl. intros Habs. apply app_eq_nil in Habs as [Habs _].
    contradiction.
  - specialize (IH Hin Hz Hne).
    destruct (parse_shape rest path fields) as [issues out]. simpl in IH.
    destruct (zparse sk' (path ++ [Key k'])%list (lookup_field k' fields)) as [here'|y].
    + simpl. intros Habs. apply app_eq_nil in Habs as [_ Habs]. contradiction.
    + destruct y; simpl; exact IH.
Qed.

(** The path the upload reads is the [tarballPath] of the arguments. *)
Lemma parsed_tarballPath args parsed :
  zparse CreatePackageVersionSchema [] args = inr parsed ->
  prop args "tarballPath" = JStr (as_string (prop parsed "tarballPath")).
Proof.
  destruct args as [| | | | | |fields]; try discriminate.
  change CreatePackageVersionSchema
    with (ZObject [("scope", ScopeNameSchema); ("name", PackageNameSchema);
                   ("version", VersionSchema); ("configPath", ZString []);
                   ("tarballPath", ZString [])]).
  set (shape := [("scope", ScopeNameSchema); ("name", PackageNameSchema);
                 ("version", VersionSchema); ("configPath", ZString []);
                 ("tarballPath", ZString [])]).
  assert (Hin : In ("tarballPath", ZString []) shape) by (simpl; tauto).
  assert (Hnodup : NoDup (map fst shape))
    by (apply (bool_decide_unpack _); vm_compute; exact I).
  rewrite zparse_object.
  pose proof (parse_shape_lookup shape [] fields "tarballPath" (ZString [])) as Hk.
  pose proof (parse_shape_issue shape [] fields "tarballPath" (ZString [])) as Hi.
  destruct (parse_shape shape [] fields) as [issues out].
  destruct issues; [|discriminate]. simpl accept_if_clean.
  intros Hz. inversion Hz; subst parsed. simpl snd in Hk. simpl fst in Hi.
  cbn [prop].
  destruct (zparse (ZString []) ([] ++ [Key "tarballPath"])%list
              (lookup_field "tarballPath" fields)) as [here|y] eqn:Hy.
  - exfalso. apply (Hi here Hin eq_refl); [|reflexivity].
    destruct (lookup_field "tarballPath" fields); simpl in Hy;
      inversion Hy; discriminate.
  - destruct (zparse_string_value _ _ _ _ Hy) as [s [Hv ->]].
    rewrite (Hk (JStr s) Hnodup Hin eq_refl). simpl. exact Hv.
Qed.

Lemma every_event_embedded_api (P : Event -> Prop) config endpoint options :
  (forall req, P (Fetched req)) -> P ReadText -> P DecodedJson ->
  every_event P (makeApiRequest embedded_client config endpoint options).
Proof.
  intros Hf Ht Hd w. simpl. rewrite embedded_makeApiRequest_run. cbv zeta.
  destruct (fetch w _) as [e|response]; [repeat constructor; apply Hf|].
  destruct (ok response); repeat constructor; auto.
Qed.

Lemma every_event_embedded_registry (P : Event -> Prop) config endpoint options :
  (forall req, P (Fetched req)) -> P DecodedJson ->
  every_event P (makeRegistryRequest embedded_client config endpoint options).
Proof.
  intros Hf Hd w. simpl.
  unfold Embedded.makeRegistryRequest, try_catch, bind, do_fetch, of_result.
  cbv zeta.
  destruct (fetch w _) as [e|response]; [repeat constructor; apply Hf|].
  unfold response_json, of_result.
  destruct (ok response); simpl; [destruct (body_json response)|];
    repeat constructor; auto.
Qed.

Lemma every_event_parse (P : Event -> Prop) (schema : Schema) args :
  every_event P (parse schema args).
Proof.
  unfold parse. destruct (zparse schema [] args);
    [apply every_event_throw | apply every_event_ret].
Qed.

Lemma every_event_bind_parse {B} (P : Event -> Prop) (schema : Schema) args
    (k : JSValue -> M B) :
  (forall parsed, zparse schema [] args = inr parsed -> every_event P (k parsed)) ->
  every_event P (bind (parse schema args) k).
Proof.
  intros Hk w. unfold bind, parse.
  destruct (zparse schema [] args) as [issues|parsed] eqn:Hz; [constructor|].
  specialize (Hk parsed eq_refl w). simpl.
  destruct (k parsed w) as [t o]. exact Hk.
Qed.

Lemma every_event_readFile (P : Event -> Prop) path :
  P (ReadFile path) -> every_event P (Deno_readFile path).
Proof.
  intros Hp w. unfold Deno_readFile, of_result.
  destruct (readFile w path); repeat constructor; exact Hp.
Qed.

Ltac every_event_step :=
  first
    [ apply every_event_ret
    | apply every_event_throw
    | apply every_event_parse
    | apply every_event_member
    | apply every_event_embedded_api; [intros ?; exact I | exact I | exact I]
    | apply every_event_embedded_registry; [intros ?; exact I | exact I]
    | apply every_event_bind; [|intros ?] ].

(** X20: the one file the dispatcher opens.  Only
    [jsr_create_package_version] reads a file, and the file it reads is
    the one its [tarballPath] argument names; the file named by
    [configPath] is not opened, and no other tool reads any file. *)
Theorem only_the_upload_reads_a_file (name : string) (args : JSValue)
    (config : JSRConfig) (w : World) :
  Forall (reads_only_tarball name args) (fst (handleJSRTool name args config w)).
Proof.
  revert w.
  change (every_event (reads_only_tarball name args) (handleJSRTool name args config)).
  unfold handleJSRTool, dispatch.
  apply every_event_try_catch; [|intros e; apply every_event_ret].
  destruct (tool_of_name name) as [t|] eqn:Ht; [|apply every_event_throw].
  unfold tool_of_name in Ht.
  by_case_label Ht
    ltac:(first
            [ unfold_operations; repeat every_event_step; fail
            | unfold run_case;
              apply every_event_bind_parse; intros parsed Hz;
              apply every_event_bind;
              [ apply every_event_readFile; split;
                [reflexivity | apply parsed_tarballPath, Hz]
              | intros data; unfold_operations; repeat every_event_step ] ]).
Qed.
End FileReads.

(** ** The request of [listScopePackages] *)

Lemma requests_bind_quiet {A B} (m : M A) (k : A -> M B) w :
  (forall a, at_most 0 (k a)) ->
  requests (fst (bind m k w)) = requests (fst (m w)).
Proof.
  intros Hk. unfold bind. destruct (m w) as [t1 [a|e]]; simpl; [|reflexivity].
  specialize (Hk a w). destruct (k a w) as [t2 o]. simpl in *.
  rewrite requests_app.
  destruct (requests t2); [apply app_nil_r|simpl in Hk; lia].
Qed.

Section ScopePackages.
Context `{Platform}.

(** X22: the request of [listScopePackages], in both clients, whatever
    the limit and the skip.  It is one GET of [/scopes/<scope>/packages];
    the query holds the limit when one is supplied, and a page number
    only when the page is greater than 1, where the page is
    [floor(skip / limit) + 1] (with 20 in place of a limit that is absent,
    0 or [NaN]) for a supplied skip and 1 otherwise: the first page is
    asked for without a page number. *)
Theorem listScopePackages_request (c : Client) (config : JSRConfig)
    (scope : string) (limit skip : option number) (w : World) :
  c = embedded_client \/ c = library_client ->
  let page :=
    match skip with
    | Some s => (Math_floor (s / num_or limit 20) + 1)%float
    | None => 1%float
    end in
  exists req,
    requests (fst (listScopePackages c config scope limit skip w)) = [req] /\
    req_method req = None /\
    req_url req
      = apiUrl config +:+ "/scopes/" +:+ scope +:+ "/packages?"
          +:+ params_toString
                (match limit with
                 | Some l => [("limit", num_to_string l)]
                 | None => []
                 end
                 ++ if (1 <? page)%float then [("page", num_to_string page)]
                    else [])%list.
Proof.
  intros Hc page. destruct (client_cases c Hc) as [user_agent Hrun].
  unfold listScopePackages. cbv zeta.
  rewrite requests_bind_quiet
    by (intros ?; eapply at_most_weaken;
        [repeat (first [ apply at_most_ret | apply at_most_member
                       | eapply at_most_bind; [|intros ?] ])
        | simpl; lia]).
  match goal with
  | |- context [makeApiRequest c config ?endpoint ?options w] =>
      destruct (Hrun config endpoint options w) as [Hreq _]
  end.
  eexists. split; [exact Hreq|]. split; [reflexivity|].
  cbn [req_url request_of]. do 4 f_equal.
  change (scope_packages_page skip limit) with page.
  unfold set_number_if_defined.
  destruct limit as [l|], (1 <? page)%float; reflexivity.
Qed.
End ScopePackages.

Lemma listScopePackages_request_witness :
  exists req,
    requests
      (fst (@listScopePackages demo_platform (@library_client demo_platform)
              (createJSRConfig "https://api.jsr.io/" "https://jsr.io/" None)
              "std" (Some 10%float) (Some 45%float)
              (answering (inr (ok_response (JObj [("items", JArr [])])))))) = [req] /\
    req_method req = None /\
    req_url req = "https://api.jsr.io/scopes/std/packages?limit=10&page=5".
Proof.
  apply (@listScopePackages_request demo_platform (@library_client demo_platform)
           (createJSRConfig "https://api.jsr.io/" "https://jsr.io/" None)
           "std" (Some 10%float) (Some 45%float)
           (answering (inr (ok_response (JObj [("items", JArr [])]))))).
  right. reflexivity.
Defined.

(** ** The upload of a version *)

Lemma trace_bind_ret {A B} (m : M A) (f : A -> B) w :
  fst (bind m (fun a => ret (f a)) w) = fst (m w).
Proof.
  unfold bind, ret. destruct (m w) as [t [a|e]]; simpl; [|reflexivity].
  apply app_nil_r.
Qed.

Lemma trace_try_catch_ret {A} (m : M A) (h : Thrown -> A) w :
  fst (try_catch m (fun e => ret (h e)) w) = fst (m w).
Proof.
  unfold try_catch, ret. destruct (m w) as [t [a|e]]; simpl; [reflexivity|].
  apply app_nil_r.
Qed.

Section Upload.
Context `{Platform}.

Lemma embedded_api_trace config endpoint options w :
  exists rest,
    fst (Embedded.makeApiRequest config endpoint options w)
      = Fetched (request_of (apiUrl config +:+ endpoint) options
                   (api_headers Embedded.user_agent config options)) :: rest /\
    requests rest = [].
Proof.
  rewrite embedded_makeApiRequest_run. cbv zeta.
  destruct (fetch w _) as [e|response]; [exists []; split; reflexivity|].
  destruct (ok response); eexists; split; reflexivity.
Qed.

(** X23: the upload of a version, from its arguments to the request.
    With a scope and a name that match the name pattern and a readable
    file, [jsr_create_package_version] first reads the file its
    [tarballPath] names, then sends one POST whose body is the content it
    read, of content type [application/octet-stream], to
    [/scopes/<scope>/packages/<name>/versions/<version>], with the
    [configPath] as the [config] parameter of the query. *)
Theorem upload_sends_the_file_read
    (scope name version configPath tarballPath : string)
    (data : list Byte.byte) (config : JSRConfig) (w : World) :
  name_pattern scope = true ->
  name_pattern name = true ->
  readFile w tarballPath = inr data ->
  exists req rest,
    fst (handleJSRTool "jsr_create_package_version"
           (JObj [("scope", JStr scope); ("name", JStr name);
                  ("version", JStr version); ("configPath", JStr configPath);
                  ("tarballPath", JStr tarballPath)])
           config w)
      = ReadFile tarballPath :: Fetched req :: rest /\
    requests rest = [] /\
    req_method req = Some "POST" /\
    req_body req = BinaryBody data /\
    req_headers req !! "Content-Type" = Some "application/octet-stream" /\
    req_url req
      = apiUrl config +:+ "/scopes/" +:+ scope +:+ "/packages/" +:+ name
          +:+ "/versions/" +:+ version +:+ "?"
          +:+ form_urlencode "config" +:+ "=" +:+ form_urlencode configPath.
Proof.
  intros Hs Hn Hread.
  set (args := JObj [("scope", JStr scope); ("name", JStr name);
                     ("version", JStr version); ("configPath", JStr configPath);
                     ("tarballPath", JStr tarballPath)]).
  assert (Hz : zparse CreatePackageVersionSchema [] args = inr args).
  { change CreatePackageVersionSchema
      with (ZObject [("scope", ScopeNameSchema); ("name", PackageNameSchema);
                     ("version", VersionSchema); ("configPath", ZString []);
                     ("tarballPath", ZString [])]).
    unfold args. rewrite zparse_object.
    cbn [parse_shape lookup_field String.eqb Ascii.eqb Bool.eqb app].
    unfold ScopeNameSchema, PackageNameSchema, VersionSchema.
    rewrite !zparse_name, Hs, Hn. reflexivity. }
  unfold handleJSRTool. rewrite trace_try_catch_ret.
  unfold dispatch.
  change (tool_of_name "jsr_create_package_version")
    with (Some jsr_create_package_version).
  unfold run_case. rewrite (bind_parse_accepted _ _ _ _ w Hz).
  change (as_string (prop args "tarballPath")) with tarballPath.
  change (as_string (prop args "scope")) with scope.
  change (as_string (prop args "name")) with name.
  change (as_string (prop args "version")) with version.
  change (as_string (prop args "configPath")) with configPath.
  unfold bind at 1. unfold Deno_readFile, of_result. rewrite Hread.
  rewrite (surjective_pairing (bind _ _ w)). rewrite trace_bind_ret.
  unfold createPackageVersion. cbv zeta.
  match goal with
  | |- context [makeApiRequest _ config ?endpoint ?options w] =>
      destruct (embedded_api_trace config endpoint options w) as [rest [Htrace Hrest]]
  end.
  eexists _, rest. split.
  - cbn [fst]. cbn [app]. f_equal. exact Htrace.
  - split; [exact Hrest|]. split; [reflexivity|]. split; [reflexivity|].
    split; [|reflexivity].
    cbn [req_headers request_of].
    match goal with
    | |- api_headers ?ua ?c ?o !! _ = _ =>
        destruct (api_headers_defaults ua c o) as [_ Hct];
        [reflexivity | rewrite Hct; reflexivity]
    end.
Qed.
End Upload.

Lemma upload_sends_the_file_read_witness :
  exists req rest,
    fst (@handleJSRTool demo_platform "jsr_create_package_version"
           (JObj [("scope", JStr "std"); ("name", JStr "fs");
                  ("version", JStr "1.0.0"); ("configPath", JStr "/deno.json");
                  ("tarballPath", JStr "/tmp/fs.tgz")])
           (createJSRConfig "https://api.jsr.io/" "https://jsr.io/" (Some "tok"))
           (with_file "/tmp/fs.tgz" [Byte.x1f; Byte.x8b]
              (inr (ok_response (JObj [("id", JStr "task")])))))
      = ReadFile "/tmp/fs.tgz" :: Fetched req :: rest /\
    requests rest = [] /\
    req_method req = Some "POST" /\
    req_body req = BinaryBody [Byte.x1f; Byte.x8b] /\
    req_headers req !! "Content-Type" = Some "application/octet-stream" /\
    req_url req
      = "https://api.jsr.io/scopes/std/packages/fs/versions/1.0.0?config=/deno.json".
Proof.
  apply (@upload_sends_the_file_read demo_platform "std" "fs" "1.0.0" "/deno.json"
           "/tmp/fs.tgz" [Byte.x1f; Byte.x8b]
           (createJSRConfig "https://api.jsr.io/" "https://jsr.io/" (Some "tok"))
           (with_file "/tmp/fs.tgz" [Byte.x1f; Byte.x8b]
              (inr (ok_response (JObj [("id", JStr "task")])))));
    reflexivity.
Defined.

(** ** Unknown keys, from the arguments to the request *)

Section Stripping.
Context `{Platform}.








End Stripping.

